(** * DrawingBoard: a shallow embedding of [src/main.js]

    The development follows the class [DrawingBoard]: JavaScript values and
    numbers first, then the pure helpers ([_getLawfulRotateAngle],
    [_getLawfulMaxRevokeSteps]), the event table and its filters, the board
    record with the canvas it draws on, and the public operations as
    functions from board to board.  The theorems come last. *)

From Stdlib Require Import QArith Qround Qabs ZArith Lia Lqa.
From stdpp Require Import gmap strings list.

Local Open Scope Z_scope.

(** ** JavaScript numbers

    A number is [NaN], an infinity, or a finite value.  Finite values are
    exact rationals kept in lowest terms, so that two equal numbers are the
    same term; rounding of binary64 and the sign of zero are not
    represented. *)

Inductive JsNum : Type :=
| NaN
| Inf (neg : bool)
| Fin (q : Q).

Definition fin (q : Q) : JsNum := Fin (Qred q).

Definition num (z : Z) : JsNum := Fin (inject_Z z).

Definition Qltb (a b : Q) : bool := negb (Qle_bool b a).

Definition Qneg (q : Q) : bool := Qltb q 0.

(** Rounding towards zero, as the quotient of [%] does. *)
Definition Qtrunc (q : Q) : Z :=
  if Qle_bool 0 q then Qfloor q else Qceiling q.

Definition num_isNaN (n : JsNum) : bool :=
  match n with NaN => true | _ => false end.

Definition num_isFinite (n : JsNum) : bool :=
  match n with Fin _ => true | _ => false end.

(** [a < b]; any comparison with [NaN] is false. *)
Definition num_lt (a b : JsNum) : bool :=
  match a, b with
  | NaN, _ | _, NaN => false
  | Inf na, Inf nb => na && negb nb
  | Inf na, Fin _ => na
  | Fin _, Inf nb => negb nb
  | Fin x, Fin y => Qltb x y
  end.

(** [a <= b]. *)
Definition num_le (a b : JsNum) : bool :=
  match a, b with
  | NaN, _ | _, NaN => false
  | Inf na, Inf nb => na || negb nb
  | Inf na, Fin _ => na
  | Fin _, Inf nb => negb nb
  | Fin x, Fin y => Qle_bool x y
  end.

Definition num_gt (a b : JsNum) : bool := num_lt b a.

Definition num_ge (a b : JsNum) : bool := num_le b a.

(** [a === b] on numbers. *)
Definition num_eq (a b : JsNum) : bool :=
  match a, b with
  | Inf na, Inf nb => eqb na nb
  | Fin x, Fin y => Qeq_bool x y
  | _, _ => false
  end.

Definition num_opp (a : JsNum) : JsNum :=
  match a with
  | NaN => NaN
  | Inf n => Inf (negb n)
  | Fin x => fin (- x)
  end.

Definition num_add (a b : JsNum) : JsNum :=
  match a, b with
  | NaN, _ | _, NaN => NaN
  | Inf na, Inf nb => if eqb na nb then Inf na else NaN
  | Inf na, Fin _ => Inf na
  | Fin _, Inf nb => Inf nb
  | Fin x, Fin y => fin (x + y)
  end.

Definition num_sub (a b : JsNum) : JsNum := num_add a (num_opp b).

Definition num_mul (a b : JsNum) : JsNum :=
  match a, b with
  | NaN, _ | _, NaN => NaN
  | Inf na, Inf nb => Inf (xorb na nb)
  | Inf na, Fin y => if Qeq_bool y 0 then NaN else Inf (xorb na (Qneg y))
  | Fin x, Inf nb => if Qeq_bool x 0 then NaN else Inf (xorb (Qneg x) nb)
  | Fin x, Fin y => fin (x * y)
  end.

Definition num_div (a b : JsNum) : JsNum :=
  match a, b with
  | NaN, _ | _, NaN => NaN
  | Inf _, Inf _ => NaN
  | Inf na, Fin y => Inf (xorb na (Qneg y))
  | Fin _, Inf _ => num 0
  | Fin x, Fin y =>
      if Qeq_bool y 0
      then (if Qeq_bool x 0 then NaN else Inf (Qneg x))
      else fin (x / y)
  end.

(** The remainder operator [%]: the result has the sign of the dividend. *)
Definition num_rem (a b : JsNum) : JsNum :=
  match a, b with
  | NaN, _ | _, NaN => NaN
  | Inf _, _ => NaN
  | Fin x, Inf _ => Fin x
  | Fin x, Fin y =>
      if Qeq_bool y 0 then NaN
      else fin (x - y * inject_Z (Qtrunc (x / y)))
  end.

Definition num_floor (a : JsNum) : JsNum :=
  match a with
  | Fin x => num (Qfloor x)
  | _ => a
  end.

Definition num_ceil (a : JsNum) : JsNum :=
  match a with
  | Fin x => num (Qceiling x)
  | _ => a
  end.

Definition num_abs (a : JsNum) : JsNum :=
  match a with
  | NaN => NaN
  | Inf _ => Inf false
  | Fin x => fin (Qabs x)
  end.

(** ** JavaScript values *)

(** The five handlers that [_init] binds to the instance.  Each [bind]
    makes a new function, so a bound handler carries the number of the
    [_init] that made it. *)
Inductive Handler : Type :=
| HStart | HMove | HEnd | HLeave | HCancel.

Inductive FunRef : Type :=
| Bound (gen : nat) (h : Handler)
| UserFn (id : nat).

Inductive JsVal : Type :=
| VUndefined
| VNull
| VBool (b : bool)
| VNum (n : JsNum)
| VStr (s : string)
| VFun (f : FunRef)
| VObj (o : nat).

Definition typeof (v : JsVal) : string :=
  match v with
  | VUndefined => "undefined"
  | VNull => "object"
  | VBool _ => "boolean"
  | VNum _ => "number"
  | VStr _ => "string"
  | VFun _ => "function"
  | VObj _ => "object"
  end.

(** ToBoolean. *)
Definition truthy (v : JsVal) : bool :=
  match v with
  | VUndefined | VNull => false
  | VBool b => b
  | VNum NaN => false
  | VNum (Inf _) => true
  | VNum (Fin q) => negb (Qeq_bool q 0)
  | VStr s => negb (String.eqb s EmptyString)
  | VFun _ | VObj _ => true
  end.

(** [v == null]. *)
Definition nullish (v : JsVal) : bool :=
  match v with VUndefined | VNull => true | _ => false end.

Definition handler_eqb (h k : Handler) : bool :=
  match h, k with
  | HStart, HStart | HMove, HMove | HEnd, HEnd | HLeave, HLeave
  | HCancel, HCancel => true
  | _, _ => false
  end.

Definition fun_eqb (f g : FunRef) : bool :=
  match f, g with
  | Bound i h, Bound j k => Nat.eqb i j && handler_eqb h k
  | UserFn i, UserFn j => Nat.eqb i j
  | _, _ => false
  end.

(** [a === b]. *)
Definition strict_eq (a b : JsVal) : bool :=
  match a, b with
  | VUndefined, VUndefined | VNull, VNull => true
  | VBool x, VBool y => eqb x y
  | VNum x, VNum y => num_eq x y
  | VStr x, VStr y => String.eqb x y
  | VFun f, VFun g => fun_eqb f g
  | VObj x, VObj y => Nat.eqb x y
  | _, _ => false
  end.

(** [arr.includes(v)]: SameValueZero, which differs from [===] on [NaN]. *)
Definition same_value_zero (a b : JsVal) : bool :=
  match a, b with
  | VNum NaN, VNum NaN => true
  | _, _ => strict_eq a b
  end.

Definition includes (arr : list JsVal) (v : JsVal) : bool :=
  existsb (same_value_zero v) arr.

(** [a || b] on values. *)
Definition js_or (a b : JsVal) : JsVal := if truthy a then a else b.

(** A parameter with a default: the default applies to [undefined] only. *)
Definition default_arg (v d : JsVal) : JsVal :=
  match v with VUndefined => d | _ => v end.

(** What the host converts without help from the source: strings and opaque
    objects to numbers. *)
Class Host : Type := {
  StringToNumber : string -> JsNum;
  ObjectToNumber : nat -> JsNum
}.

Definition ToNumber `{Host} (v : JsVal) : JsNum :=
  match v with
  | VUndefined => NaN
  | VNull => num 0
  | VBool true => num 1
  | VBool false => num 0
  | VNum n => n
  | VStr s => StringToNumber s
  | VFun _ => NaN
  | VObj o => ObjectToNumber o
  end.

(** ** Pure helpers of the board *)

(** [_getLawfulRotateAngle(angle)].  The first line returns [undefined]
    unless [typeof angle === 'number'] and [angle] is not [NaN]. *)
Definition _getLawfulRotateAngle (angle : JsVal) : option JsNum :=
  match angle with
  | VNum a =>
      if num_isNaN a then None
      else
        let tempAngle := num_rem a (num 360) in
        let newAngle :=
          if num_lt tempAngle (num 0) then num_add tempAngle (num 360)
          else tempAngle in
        let roundAngle :=
          if num_ge (num_rem newAngle (num 90)) (num 45)
          then num_rem (num_mul (num_ceil (num_div newAngle (num 90))) (num 90)) (num 360)
          else num_rem (num_mul (num_floor (num_div newAngle (num 90))) (num 90)) (num 360) in
        Some (num_abs roundAngle)
  | _ => None
  end.

(** The last step of the rounding, for a number of quarter turns. *)
Definition quarter_turns (k : Z) : JsNum :=
  num_abs (num_rem (num_mul (num k) (num 90)) (num 360)).

(** [_getLawfulMaxRevokeSteps(steps)].  For a value that is not a number the
    test [typeof steps !== 'number'] holds, so the disjunction is true
    whatever [steps <= 0] converts to; for a number the two remaining tests
    are [steps <= 0] and [isNaN(steps)]. *)
Definition LIMIT_MAX_REVOKE_STEPS : JsNum := num 50.

Definition _getLawfulMaxRevokeSteps (steps : JsVal) : JsNum :=
  match steps with
  | VNum s =>
      if num_le s (num 0) || num_isNaN s then num 10
      else if num_gt s LIMIT_MAX_REVOKE_STEPS then LIMIT_MAX_REVOKE_STEPS
      else s
  | _ => num 10
  end.

(** [setPenStyle]'s two tests.  [typeof color === 'string'] and
    [typeof width === 'number'] select the constructor; the remaining
    conjuncts are evaluated on it. *)
Definition lawful_pen_color (color : JsVal) : bool :=
  match color with
  | VStr _ => truthy color
  | _ => false
  end.

Definition lawful_pen_width (width : JsVal) : bool :=
  match width with
  | VNum w => truthy width && negb (num_isNaN w) && num_gt w (num 0)
  | _ => false
  end.

(** ** Objects, the event table and its filters *)

(** [obj.key]: a missing property reads as [undefined]. *)
Definition prop (obj : gmap string JsVal) (key : string) : JsVal :=
  default VUndefined (obj !! key).

Definition event_item (pointerType action name : string) (handler : FunRef)
  : gmap string JsVal :=
  list_to_map
    [("pointerType", VStr pointerType); ("action", VStr action);
     ("name", VStr name); ("handler", VFun handler)].

(** [this.eventList] as [_init] builds it from the handlers it has just
    bound. *)
Definition event_table (gen : nat) : list (gmap string JsVal) :=
  [ event_item "mouse" "start" "mousedown" (Bound gen HStart);
    event_item "mouse" "move" "mousemove" (Bound gen HMove);
    event_item "mouse" "end" "mouseup" (Bound gen HEnd);
    event_item "mouse" "leave" "mouseleave" (Bound gen HLeave);
    event_item "touch" "start" "touchstart" (Bound gen HStart);
    event_item "touch" "move" "touchmove" (Bound gen HMove);
    event_item "touch" "end" "touchend" (Bound gen HEnd);
    event_item "touch" "cancel" "touchcancel" (Bound gen HCancel) ].

Definition INTERACTIVE_MODE_ENUM : list JsVal :=
  [VStr "mouse"; VStr "touch"; VStr "both"].

(** [_getPointerType(mode)]. *)
Definition _getPointerType (mode : JsVal) : JsVal :=
  if strict_eq mode (VStr "both") then VStr EmptyString
  else if strict_eq mode (VStr "touch") then VStr "touch"
  else VStr "mouse".

(** The object [{ pointerType, action }] that [_bindCurModeEvents] and
    [_cleanCurModeEvents] build. *)
Definition condition_of (pointerType action : JsVal) : gmap string JsVal :=
  list_to_map [("pointerType", pointerType); ("action", action)].

(** [_getEventItems({ mode, action })]: the parameter is destructured by the
    names [mode] and [action], and the filters read [item.mode] and
    [item.action]. *)
Definition _getEventItems (eventList : list (gmap string JsVal))
    (condition : gmap string JsVal) : list (gmap string JsVal) :=
  let mode := prop condition "mode" in
  let action := prop condition "action" in
  let filterFn : gmap string JsVal -> bool :=
    if truthy mode && truthy action then
      fun item => strict_eq (prop item "mode") mode
                  && strict_eq (prop item "action") action
    else if truthy mode && negb (truthy action) then
      fun item => strict_eq (prop item "mode") mode
    else if negb (truthy mode) && truthy action then
      fun item => strict_eq (prop item "action") action
    else fun _ => true in
  List.filter filterFn eventList.

(** Listeners of an element: pairs of an event name and a callback.
    [addEventListener] does not add a pair that is already there. *)
Definition listener_eqb (p q : string * FunRef) : bool :=
  String.eqb (fst p) (fst q) && fun_eqb (snd p) (snd q).

Definition addEventListener (name : string) (handler : FunRef)
    (ls : list (string * FunRef)) : list (string * FunRef) :=
  if existsb (listener_eqb (name, handler)) ls then ls
  else ls ++ [(name, handler)].

Definition removeEventListener (name : string) (handler : FunRef)
    (ls : list (string * FunRef)) : list (string * FunRef) :=
  List.filter (fun p => negb (listener_eqb (name, handler) p)) ls.

(** [eventItems.forEach(({ name, handler }) => ...)]. *)
Definition for_each_item (f : string -> FunRef -> list (string * FunRef) -> list (string * FunRef))
    (eventItems : list (gmap string JsVal)) (ls : list (string * FunRef))
  : list (string * FunRef) :=
  fold_left
    (fun acc item =>
       match prop item "name", prop item "handler" with
       | VStr name, VFun handler => f name handler acc
       | _, _ => acc
       end)
    eventItems ls.

(** ** Pointer events *)

Record Point : Type := { pt_x : JsNum; pt_y : JsNum }.

Inductive PointerEvt : Type :=
| MouseEvt (offsetX offsetY : JsNum)
| TouchEvt (clientX clientY rectLeft rectTop : JsNum)
| OtherEvt.

(** [_getPointOffset(e)]; [None] is the [undefined] of the missing [else]. *)
Definition _getPointOffset (e : PointerEvt) : option Point :=
  match e with
  | MouseEvt offsetX offsetY => Some {| pt_x := offsetX; pt_y := offsetY |}
  | TouchEvt clientX clientY rectLeft rectTop =>
      Some {| pt_x := num_sub clientX rectLeft; pt_y := num_sub clientY rectTop |}
  | OtherEvt => None
  end.

(** ** The surface provider

    The 2D context is not part of the source.  Its operations are taken as
    an interface on the pixel content of a canvas; each stands for the calls
    the source makes in one helper, and each is taken to return (a context
    that raises, as [getImageData] does on an empty rectangle, is outside
    this development). *)
Class Canvas2D : Type := {
  Surface : Type;
  ImageData : Type;
  (** the bitmap after the [width] or [height] attribute is assigned *)
  blank : JsVal -> JsVal -> Surface;
  (** [ctx.getImageData(0, 0, w, h)] *)
  getImageData : JsVal -> JsVal -> Surface -> ImageData;
  (** [ctx.putImageData(imageData, 0, 0)] *)
  putImageData : ImageData -> Surface -> Surface;
  (** [ctx.clearRect(0, 0, w, h)] *)
  clearRect : JsVal -> JsVal -> Surface -> Surface;
  (** [save; fillStyle = color; beginPath; arc(x, y, radius, 0, 2π); fill; restore] *)
  fillCircle : JsNum -> JsNum -> JsVal -> JsVal -> Surface -> Surface;
  (** [save; strokeStyle; lineWidth; round caps and joins; moveTo; lineTo; stroke; restore] *)
  strokeLine : JsNum -> JsNum -> JsNum -> JsNum -> JsVal -> JsVal -> Surface -> Surface;
  (** [save; translate(tx, ty); rotate(degrees · π / 180);
      drawImage(img, 0, 0, sw, sh, dx, dy, dw, dh); restore] *)
  drawImage : JsVal -> JsVal -> JsVal -> JsNum -> JsNum -> JsVal -> JsVal ->
              JsNum -> JsNum -> option JsNum -> Surface -> Surface;
  (** the rectangle from the origin with these sides covers the surface *)
  spans : JsVal -> JsVal -> Surface -> Prop;
  (** two bitmaps of one size *)
  same_size : Surface -> Surface -> Prop
}.

(** What the provider promises about reading and writing pixels: a snapshot
    of the whole surface, written back at the origin of a surface of the same
    size, gives the surface it was read from; clearing and drawing keep the
    size. *)
Class Canvas2DLaws `{Canvas2D} : Prop := {
  put_get : forall w h s s',
    spans w h s -> same_size s s' ->
    putImageData (getImageData w h s) s' = s;
  same_size_refl : forall s, same_size s s;
  same_size_trans : forall s1 s2 s3,
    same_size s1 s2 -> same_size s2 s3 -> same_size s1 s3;
  clearRect_size : forall w h s, same_size s (clearRect w h s);
  drawImage_size : forall img sw sh dx dy dw dh tx ty deg s,
    same_size s (drawImage img sw sh dx dy dw dh tx ty deg s)
}.

(** A provider to run the board on: the bitmap is the list of marks made
    since it was last blank. *)
Inductive Mark : Type :=
| Dot (cx cy : JsNum) (radius color : JsVal)
| Segment (x1 y1 x2 y2 : JsNum) (lineWidth color : JsVal)
| Picture (img : JsVal) (degrees : option JsNum).

Definition MarkCanvas : Canvas2D := {|
  Surface := list Mark;
  ImageData := list Mark;
  blank := fun _ _ => [];
  getImageData := fun _ _ s => s;
  putImageData := fun d _ => d;
  clearRect := fun _ _ _ => [];
  fillCircle := fun cx cy r c s => s ++ [Dot cx cy r c];
  strokeLine := fun x1 y1 x2 y2 w c s => s ++ [Segment x1 y1 x2 y2 w c];
  drawImage := fun img _ _ _ _ _ _ _ _ deg s => s ++ [Picture img deg];
  spans := fun _ _ _ => True;
  same_size := fun _ _ => True
|}.

Definition PlainHost : Host := {|
  StringToNumber := fun _ => NaN;
  ObjectToNumber := fun _ => NaN
|}.

(** ** The board *)

Section Board.

Context `{Host} `{Canvas2D}.

(** A [canvas] element: the attributes the source assigns, the listeners
    registered on it, and the bitmap its 2D context draws on. *)
Record CanvasEl : Type := {
  cv_width : JsVal;
  cv_height : JsVal;
  cv_className : JsVal;
  cv_listeners : list (string * FunRef);
  cv_bitmap : Surface
}.

(** [document.createElement('canvas')]. *)
Definition _makeCanvas : CanvasEl := {|
  cv_width := VNum (num 300);
  cv_height := VNum (num 150);
  cv_className := VStr EmptyString;
  cv_listeners := [];
  cv_bitmap := blank (VNum (num 300)) (VNum (num 150))
|}.

(** Assigning [width] or [height] gives a blank bitmap of the new size. *)
Definition cv_set_width (w : JsVal) (c : CanvasEl) : CanvasEl :=
  {| cv_width := w; cv_height := cv_height c; cv_className := cv_className c;
     cv_listeners := cv_listeners c; cv_bitmap := blank w (cv_height c) |}.

Definition cv_set_height (h : JsVal) (c : CanvasEl) : CanvasEl :=
  {| cv_width := cv_width c; cv_height := h; cv_className := cv_className c;
     cv_listeners := cv_listeners c; cv_bitmap := blank (cv_width c) h |}.

Definition cv_set_className (n : JsVal) (c : CanvasEl) : CanvasEl :=
  {| cv_width := cv_width c; cv_height := cv_height c; cv_className := n;
     cv_listeners := cv_listeners c; cv_bitmap := cv_bitmap c |}.

Definition cv_listen (f : list (string * FunRef) -> list (string * FunRef))
    (c : CanvasEl) : CanvasEl :=
  {| cv_width := cv_width c; cv_height := cv_height c;
     cv_className := cv_className c;
     cv_listeners := f (cv_listeners c); cv_bitmap := cv_bitmap c |}.

Definition cv_draw (f : Surface -> Surface) (c : CanvasEl) : CanvasEl :=
  {| cv_width := cv_width c; cv_height := cv_height c;
     cv_className := cv_className c;
     cv_listeners := cv_listeners c; cv_bitmap := f (cv_bitmap c) |}.

(** An entry of [this.revokeStack]: [{ type, paintCount, imageData }]. *)
Record HistoryEntry : Type := {
  he_type : JsVal;
  he_paintCount : nat;
  he_imageData : ImageData
}.

(** A call of one of the two callbacks of the options.  The stack callback
    receives the array itself: its identity and its content at the call are
    recorded.  Callbacks are taken to observe only. *)
Inductive Notice : Type :=
| RevokeStackChange (callback : FunRef) (array : nat) (stack : list HistoryEntry)
| PaintEnd (callback : FunRef) (count : nat).

(** An options object: the array under [size], and the other keys. *)
Record OptionsObj : Type := {
  opt_size : option (list JsVal);
  opt_props : gmap string JsVal
}.

Definition _defaultOptions : OptionsObj := {|
  opt_size := Some [];
  opt_props :=
    list_to_map
      [("className", VStr EmptyString); ("manualMount", VBool false);
       ("maxRevokeSteps", VNum (num 10)); ("interactiveMode", VStr "mouse");
       ("penColor", VStr "red"); ("penWidth", VNum (num 6));
       ("bgImgURL", VStr EmptyString); ("bgImgRotate", VNum (num 0));
       ("bgColor", VStr "#fff"); ("onRevokeStackChange", VNull);
       ("onPaintEnd", VNull)]
|}.

(** [{ ...a, ...b }]. *)
Definition spread (a b : OptionsObj) : OptionsObj := {|
  opt_size := match opt_size b with Some s => Some s | None => opt_size a end;
  opt_props := opt_props b ∪ opt_props a
|}.

(** A background load that has been requested and has not settled: the
    promise of [_getImageFromURL] with the callbacks attached to it. *)
Inductive LoadKind : Type :=
| InitLoad
| SetBgLoad (originalWidth originalHeight : JsVal).

Record Pending : Type := { ld_url : JsVal; ld_kind : LoadKind }.

Record Image : Type := { img_obj : nat; img_width : JsNum; img_height : JsNum }.

(** The instance.  [container] is the bounding rectangle of the container;
    [revokeStackId] tells one array assigned to [this.revokeStack] from
    another, [bindings] one set of bound handlers from another; [canvases] holds every canvas created so far, [el] and [ctx]
    name the one they belong to; [pending] and [notices] are the loads in
    flight and the callbacks called. *)
Record Board : Type := {
  container : JsNum * JsNum;
  options : OptionsObj;
  width : JsVal;
  height : JsVal;
  manualMount : JsVal;
  revokeStack : list HistoryEntry;
  revokeStackId : nat;
  MAX_REVOKE_STEPS : JsNum;
  lastPoint : option Point;
  isPainting : bool;
  interactiveMode : JsVal;
  bindings : nat;
  eventList : list (gmap string JsVal);
  penColor : JsVal;
  penWidth : JsVal;
  bgImgURL : JsVal;
  bgColor : JsVal;
  bgImgRotate : option JsNum;
  className : JsVal;
  _bgImgObject : JsVal;
  originalSize : option (JsVal * JsVal);
  onRevokeStackChange : JsVal;
  onPaintEnd : JsVal;
  paintCount : nat;
  el : option nat;
  ctx : option nat;
  canvases : nat -> CanvasEl;
  nextCanvas : nat;
  pending : list Pending;
  notices : list Notice
}.

(** The result of a call: it returned, or an exception left it; either way
    the instance is in the state the call brought it to. *)
Inductive Completion : Type :=
| Returned (b : Board)
| Threw (b : Board).

Definition state_of (r : Completion) : Board :=
  match r with Returned b | Threw b => b end.

Definition returned (r : Completion) : bool :=
  match r with Returned _ => true | Threw _ => false end.

(** *** Field assignments *)

Definition set_options (v : OptionsObj) (b : Board) : Board :=
  Build_Board
    (container b) v (width b) (height b) (manualMount b) (revokeStack b)
    (revokeStackId b) (MAX_REVOKE_STEPS b) (lastPoint b) (isPainting b)
    (interactiveMode b) (bindings b) (eventList b) (penColor b) (penWidth b)
    (bgImgURL b) (bgColor b) (bgImgRotate b) (className b) (_bgImgObject b)
    (originalSize b) (onRevokeStackChange b) (onPaintEnd b) (paintCount b)
    (el b) (ctx b) (canvases b) (nextCanvas b) (pending b) (notices b).

Definition set_width (v : JsVal) (b : Board) : Board :=
  Build_Board
    (container b) (options b) v (height b) (manualMount b) (revokeStack b)
    (revokeStackId b) (MAX_REVOKE_STEPS b) (lastPoint b) (isPainting b)
    (interactiveMode b) (bindings b) (eventList b) (penColor b) (penWidth b)
    (bgImgURL b) (bgColor b) (bgImgRotate b) (className b) (_bgImgObject b)
    (originalSize b) (onRevokeStackChange b) (onPaintEnd b) (paintCount b)
    (el b) (ctx b) (canvases b) (nextCanvas b) (pending b) (notices b).

Definition set_height (v : JsVal) (b : Board) : Board :=
  Build_Board
    (container b) (options b) (width b) v (manualMount b) (revokeStack b)
    (revokeStackId b) (MAX_REVOKE_STEPS b) (lastPoint b) (isPainting b)
    (interactiveMode b) (bindings b) (eventList b) (penColor b) (penWidth b)
    (bgImgURL b) (bgColor b) (bgImgRotate b) (className b) (_bgImgObject b)
    (originalSize b) (onRevokeStackChange b) (onPaintEnd b) (paintCount b)
    (el b) (ctx b) (canvases b) (nextCanvas b) (pending b) (notices b).

Definition set_manualMount (v : JsVal) (b : Board) : Board :=
  Build_Board
    (container b) (options b) (width b) (height b) v (revokeStack b)
    (revokeStackId b) (MAX_REVOKE_STEPS b) (lastPoint b) (isPainting b)
    (interactiveMode b) (bindings b) (eventList b) (penColor b) (penWidth b)
    (bgImgURL b) (bgColor b) (bgImgRotate b) (className b) (_bgImgObject b)
    (originalSize b) (onRevokeStackChange b) (onPaintEnd b) (paintCount b)
    (el b) (ctx b) (canvases b) (nextCanvas b) (pending b) (notices b).

Definition set_revokeStack (v : list HistoryEntry) (b : Board) : Board :=
  Build_Board
    (container b) (options b) (width b) (height b) (manualMount b) v
    (revokeStackId b) (MAX_REVOKE_STEPS b) (lastPoint b) (isPainting b)
    (interactiveMode b) (bindings b) (eventList b) (penColor b) (penWidth b)
    (bgImgURL b) (bgColor b) (bgImgRotate b) (className b) (_bgImgObject b)
    (originalSize b) (onRevokeStackChange b) (onPaintEnd b) (paintCount b)
    (el b) (ctx b) (canvases b) (nextCanvas b) (pending b) (notices b).

Definition set_revokeStackId (v : nat) (b : Board) : Board :=
  Build_Board
    (container b) (options b) (width b) (height b) (manualMount b)
    (revokeStack b) v (MAX_REVOKE_STEPS b) (lastPoint b) (isPainting b)
    (interactiveMode b) (bindings b) (eventList b) (penColor b) (penWidth b)
    (bgImgURL b) (bgColor b) (bgImgRotate b) (className b) (_bgImgObject b)
    (originalSize b) (onRevokeStackChange b) (onPaintEnd b) (paintCount b)
    (el b) (ctx b) (canvases b) (nextCanvas b) (pending b) (notices b).

Definition set_MAX_REVOKE_STEPS (v : JsNum) (b : Board) : Board :=
  Build_Board
    (container b) (options b) (width b) (height b) (manualMount b)
    (revokeStack b) (revokeStackId b) v (lastPoint b) (isPainting b)
    (interactiveMode b) (bindings b) (eventList b) (penColor b) (penWidth b)
    (bgImgURL b) (bgColor b) (bgImgRotate b) (className b) (_bgImgObject b)
    (originalSize b) (onRevokeStackChange b) (onPaintEnd b) (paintCount b)
    (el b) (ctx b) (canvases b) (nextCanvas b) (pending b) (notices b).

Definition set_lastPoint (v : option Point) (b : Board) : Board :=
  Build_Board
    (container b) (options b) (width b) (height b) (manualMount b)
    (revokeStack b) (revokeStackId b) (MAX_REVOKE_STEPS b) v (isPainting b)
    (interactiveMode b) (bindings b) (eventList b) (penColor b) (penWidth b)
    (bgImgURL b) (bgColor b) (bgImgRotate b) (className b) (_bgImgObject b)
    (originalSize b) (onRevokeStackChange b) (onPaintEnd b) (paintCount b)
    (el b) (ctx b) (canvases b) (nextCanvas b) (pending b) (notices b).

Definition set_isPainting (v : bool) (b : Board) : Board :=
  Build_Board
    (container b) (options b) (width b) (height b) (manualMount b)
    (revokeStack b) (revokeStackId b) (MAX_REVOKE_STEPS b) (lastPoint b) v
    (interactiveMode b) (bindings b) (eventList b) (penColor b) (penWidth b)
    (bgImgURL b) (bgColor b) (bgImgRotate b) (className b) (_bgImgObject b)
    (originalSize b) (onRevokeStackChange b) (onPaintEnd b) (paintCount b)
    (el b) (ctx b) (canvases b) (nextCanvas b) (pending b) (notices b).

Definition set_interactiveMode (v : JsVal) (b : Board) : Board :=
  Build_Board
    (container b) (options b) (width b) (height b) (manualMount b)
    (revokeStack b) (revokeStackId b) (MAX_REVOKE_STEPS b) (lastPoint b)
    (isPainting b) v (bindings b) (eventList b) (penColor b) (penWidth b)
    (bgImgURL b) (bgColor b) (bgImgRotate b) (className b) (_bgImgObject b)
    (originalSize b) (onRevokeStackChange b) (onPaintEnd b) (paintCount b)
    (el b) (ctx b) (canvases b) (nextCanvas b) (pending b) (notices b).

Definition set_bindings (v : nat) (b : Board) : Board :=
  Build_Board
    (container b) (options b) (width b) (height b) (manualMount b)
    (revokeStack b) (revokeStackId b) (MAX_REVOKE_STEPS b) (lastPoint b)
    (isPainting b) (interactiveMode b) v (eventList b) (penColor b)
    (penWidth b) (bgImgURL b) (bgColor b) (bgImgRotate b) (className b)
    (_bgImgObject b) (originalSize b) (onRevokeStackChange b) (onPaintEnd b)
    (paintCount b) (el b) (ctx b) (canvases b) (nextCanvas b) (pending b)
    (notices b).

Definition set_eventList (v : list (gmap string JsVal)) (b : Board) : Board :=
  Build_Board
    (container b) (options b) (width b) (height b) (manualMount b)
    (revokeStack b) (revokeStackId b) (MAX_REVOKE_STEPS b) (lastPoint b)
    (isPainting b) (interactiveMode b) (bindings b) v (penColor b)
    (penWidth b) (bgImgURL b) (bgColor b) (bgImgRotate b) (className b)
    (_bgImgObject b) (originalSize b) (onRevokeStackChange b) (onPaintEnd b)
    (paintCount b) (el b) (ctx b) (canvases b) (nextCanvas b) (pending b)
    (notices b).

Definition set_penColor (v : JsVal) (b : Board) : Board :=
  Build_Board
    (container b) (options b) (width b) (height b) (manualMount b)
    (revokeStack b) (revokeStackId b) (MAX_REVOKE_STEPS b) (lastPoint b)
    (isPainting b) (interactiveMode b) (bindings b) (eventList b) v
    (penWidth b) (bgImgURL b) (bgColor b) (bgImgRotate b) (className b)
    (_bgImgObject b) (originalSize b) (onRevokeStackChange b) (onPaintEnd b)
    (paintCount b) (el b) (ctx b) (canvases b) (nextCanvas b) (pending b)
    (notices b).

Definition set_penWidth (v : JsVal) (b : Board) : Board :=
  Build_Board
    (container b) (options b) (width b) (height b) (manualMount b)
    (revokeStack b) (revokeStackId b) (MAX_REVOKE_STEPS b) (lastPoint b)
    (isPainting b) (interactiveMode b) (bindings b) (eventList b)
    (penColor b) v (bgImgURL b) (bgColor b) (bgImgRotate b) (className b)
    (_bgImgObject b) (originalSize b) (onRevokeStackChange b) (onPaintEnd b)
    (paintCount b) (el b) (ctx b) (canvases b) (nextCanvas b) (pending b)
    (notices b).

Definition set_bgImgURL (v : JsVal) (b : Board) : Board :=
  Build_Board
    (container b) (options b) (width b) (height b) (manualMount b)
    (revokeStack b) (revokeStackId b) (MAX_REVOKE_STEPS b) (lastPoint b)
    (isPainting b) (interactiveMode b) (bindings b) (eventList b)
    (penColor b) (penWidth b) v (bgColor b) (bgImgRotate b) (className b)
    (_bgImgObject b) (originalSize b) (onRevokeStackChange b) (onPaintEnd b)
    (paintCount b) (el b) (ctx b) (canvases b) (nextCanvas b) (pending b)
    (notices b).

Definition set_bgColor (v : JsVal) (b : Board) : Board :=
  Build_Board
    (container b) (options b) (width b) (height b) (manualMount b)
    (revokeStack b) (revokeStackId b) (MAX_REVOKE_STEPS b) (lastPoint b)
    (isPainting b) (interactiveMode b) (bindings b) (eventList b)
    (penColor b) (penWidth b) (bgImgURL b) v (bgImgRotate b) (className b)
    (_bgImgObject b) (originalSize b) (onRevokeStackChange b) (onPaintEnd b)
    (paintCount b) (el b) (ctx b) (canvases b) (nextCanvas b) (pending b)
    (notices b).

Definition set_bgImgRotate (v : option JsNum) (b : Board) : Board :=
  Build_Board
    (container b) (options b) (width b) (height b) (manualMount b)
    (revokeStack b) (revokeStackId b) (MAX_REVOKE_STEPS b) (lastPoint b)
    (isPainting b) (interactiveMode b) (bindings b) (eventList b)
    (penColor b) (penWidth b) (bgImgURL b) (bgColor b) v (className b)
    (_bgImgObject b) (originalSize b) (onRevokeStackChange b) (onPaintEnd b)
    (paintCount b) (el b) (ctx b) (canvases b) (nextCanvas b) (pending b)
    (notices b).

Definition set_className (v : JsVal) (b : Board) : Board :=
  Build_Board
    (container b) (options b) (width b) (height b) (manualMount b)
    (revokeStack b) (revokeStackId b) (MAX_REVOKE_STEPS b) (lastPoint b)
    (isPainting b) (interactiveMode b) (bindings b) (eventList b)
    (penColor b) (penWidth b) (bgImgURL b) (bgColor b) (bgImgRotate b) v
    (_bgImgObject b) (originalSize b) (onRevokeStackChange b) (onPaintEnd b)
    (paintCount b) (el b) (ctx b) (canvases b) (nextCanvas b) (pending b)
    (notices b).

Definition set_bgImgObject (v : JsVal) (b : Board) : Board :=
  Build_Board
    (container b) (options b) (width b) (height b) (manualMount b)
    (revokeStack b) (revokeStackId b) (MAX_REVOKE_STEPS b) (lastPoint b)
    (isPainting b) (interactiveMode b) (bindings b) (eventList b)
    (penColor b) (penWidth b) (bgImgURL b) (bgColor b) (bgImgRotate b)
    (className b) v (originalSize b) (onRevokeStackChange b) (onPaintEnd b)
    (paintCount b) (el b) (ctx b) (canvases b) (nextCanvas b) (pending b)
    (notices b).

Definition set_originalSize (v : option (JsVal * JsVal)) (b : Board) : Board :=
  Build_Board
    (container b) (options b) (width b) (height b) (manualMount b)
    (revokeStack b) (revokeStackId b) (MAX_REVOKE_STEPS b) (lastPoint b)
    (isPainting b) (interactiveMode b) (bindings b) (eventList b)
    (penColor b) (penWidth b) (bgImgURL b) (bgColor b) (bgImgRotate b)
    (className b) (_bgImgObject b) v (onRevokeStackChange b) (onPaintEnd b)
    (paintCount b) (el b) (ctx b) (canvases b) (nextCanvas b) (pending b)
    (notices b).

Definition set_onRevokeStackChange (v : JsVal) (b : Board) : Board :=
  Build_Board
    (container b) (options b) (width b) (height b) (manualMount b)
    (revokeStack b) (revokeStackId b) (MAX_REVOKE_STEPS b) (lastPoint b)
    (isPainting b) (interactiveMode b) (bindings b) (eventList b)
    (penColor b) (penWidth b) (bgImgURL b) (bgColor b) (bgImgRotate b)
    (className b) (_bgImgObject b) (originalSize b) v (onPaintEnd b)
    (paintCount b) (el b) (ctx b) (canvases b) (nextCanvas b) (pending b)
    (notices b).

Definition set_onPaintEnd (v : JsVal) (b : Board) : Board :=
  Build_Board
    (container b) (options b) (width b) (height b) (manualMount b)
    (revokeStack b) (revokeStackId b) (MAX_REVOKE_STEPS b) (lastPoint b)
    (isPainting b) (interactiveMode b) (bindings b) (eventList b)
    (penColor b) (penWidth b) (bgImgURL b) (bgColor b) (bgImgRotate b)
    (className b) (_bgImgObject b) (originalSize b) (onRevokeStackChange b) v
    (paintCount b) (el b) (ctx b) (canvases b) (nextCanvas b) (pending b)
    (notices b).

Definition set_paintCount (v : nat) (b : Board) : Board :=
  Build_Board
    (container b) (options b) (width b) (height b) (manualMount b)
    (revokeStack b) (revokeStackId b) (MAX_REVOKE_STEPS b) (lastPoint b)
    (isPainting b) (interactiveMode b) (bindings b) (eventList b)
    (penColor b) (penWidth b) (bgImgURL b) (bgColor b) (bgImgRotate b)
    (className b) (_bgImgObject b) (originalSize b) (onRevokeStackChange b)
    (onPaintEnd b) v (el b) (ctx b) (canvases b) (nextCanvas b) (pending b)
    (notices b).

Definition set_el (v : option nat) (b : Board) : Board :=
  Build_Board
    (container b) (options b) (width b) (height b) (manualMount b)
    (revokeStack b) (revokeStackId b) (MAX_REVOKE_STEPS b) (lastPoint b)
    (isPainting b) (interactiveMode b) (bindings b) (eventList b)
    (penColor b) (penWidth b) (bgImgURL b) (bgColor b) (bgImgRotate b)
    (className b) (_bgImgObject b) (originalSize b) (onRevokeStackChange b)
    (onPaintEnd b) (paintCount b) v (ctx b) (canvases b) (nextCanvas b)
    (pending b) (notices b).

Definition set_ctx (v : option nat) (b : Board) : Board :=
  Build_Board
    (container b) (options b) (width b) (height b) (manualMount b)
    (revokeStack b) (revokeStackId b) (MAX_REVOKE_STEPS b) (lastPoint b)
    (isPainting b) (interactiveMode b) (bindings b) (eventList b)
    (penColor b) (penWidth b) (bgImgURL b) (bgColor b) (bgImgRotate b)
    (className b) (_bgImgObject b) (originalSize b) (onRevokeStackChange b)
    (onPaintEnd b) (paintCount b) (el b) v (canvases b) (nextCanvas b)
    (pending b) (notices b).

Definition set_canvases (v : nat -> CanvasEl) (b : Board) : Board :=
  Build_Board
    (container b) (options b) (width b) (height b) (manualMount b)
    (revokeStack b) (revokeStackId b) (MAX_REVOKE_STEPS b) (lastPoint b)
    (isPainting b) (interactiveMode b) (bindings b) (eventList b)
    (penColor b) (penWidth b) (bgImgURL b) (bgColor b) (bgImgRotate b)
    (className b) (_bgImgObject b) (originalSize b) (onRevokeStackChange b)
    (onPaintEnd b) (paintCount b) (el b) (ctx b) v (nextCanvas b) (pending b)
    (notices b).

Definition set_nextCanvas (v : nat) (b : Board) : Board :=
  Build_Board
    (container b) (options b) (width b) (height b) (manualMount b)
    (revokeStack b) (revokeStackId b) (MAX_REVOKE_STEPS b) (lastPoint b)
    (isPainting b) (interactiveMode b) (bindings b) (eventList b)
    (penColor b) (penWidth b) (bgImgURL b) (bgColor b) (bgImgRotate b)
    (className b) (_bgImgObject b) (originalSize b) (onRevokeStackChange b)
    (onPaintEnd b) (paintCount b) (el b) (ctx b) (canvases b) v (pending b)
    (notices b).

Definition set_pending (v : list Pending) (b : Board) : Board :=
  Build_Board
    (container b) (options b) (width b) (height b) (manualMount b)
    (revokeStack b) (revokeStackId b) (MAX_REVOKE_STEPS b) (lastPoint b)
    (isPainting b) (interactiveMode b) (bindings b) (eventList b)
    (penColor b) (penWidth b) (bgImgURL b) (bgColor b) (bgImgRotate b)
    (className b) (_bgImgObject b) (originalSize b) (onRevokeStackChange b)
    (onPaintEnd b) (paintCount b) (el b) (ctx b) (canvases b) (nextCanvas b)
    v (notices b).

Definition set_notices (v : list Notice) (b : Board) : Board :=
  Build_Board
    (container b) (options b) (width b) (height b) (manualMount b)
    (revokeStack b) (revokeStackId b) (MAX_REVOKE_STEPS b) (lastPoint b)
    (isPainting b) (interactiveMode b) (bindings b) (eventList b)
    (penColor b) (penWidth b) (bgImgURL b) (bgColor b) (bgImgRotate b)
    (className b) (_bgImgObject b) (originalSize b) (onRevokeStackChange b)
    (onPaintEnd b) (paintCount b) (el b) (ctx b) (canvases b) (nextCanvas b)
    (pending b) v.

(** *** Access to the canvases *)

Definition upd (i : nat) (f : CanvasEl -> CanvasEl) (m : nat -> CanvasEl)
  : nat -> CanvasEl :=
  fun j => if Nat.eqb j i then f (m j) else m j.

(** A write to [this.el], skipped when [this.el] is empty. *)
Definition on_el (f : CanvasEl -> CanvasEl) (b : Board) : Board :=
  match el b with
  | Some i => set_canvases (upd i f (canvases b)) b
  | None => b
  end.

(** A drawing call on [this.ctx], skipped when [this.ctx] is empty. *)
Definition on_ctx (f : Surface -> Surface) (b : Board) : Board :=
  match ctx b with
  | Some c => set_canvases (upd c (cv_draw f) (canvases b)) b
  | None => b
  end.

(** The pixels of the canvas with this number. *)
Definition bitmap (c : nat) (b : Board) : Surface := cv_bitmap (canvases b c).

(** The pixels [this.ctx] draws on. *)
Definition surface (b : Board) : option Surface :=
  match ctx b with
  | Some c => Some (bitmap c b)
  | None => None
  end.

(** The listeners on [this.el]. *)
Definition listeners (b : Board) : list (string * FunRef) :=
  match el b with
  | Some i => cv_listeners (canvases b i)
  | None => []
  end.

(** *** Size, class name, pen *)

(** [_setDOMSize([width, height])]. *)
Definition _setDOMSize (w h : JsVal) (b : Board) : Board :=
  let b1 := if negb (nullish w) then on_el (cv_set_width w) b else b in
  if negb (nullish h) then on_el (cv_set_height h) b1 else b1.

(** [setSize([width, height])]. *)
Definition setSize (w h : JsVal) (b : Board) : Board :=
  let b1 := if truthy w then set_width w b else b in
  let b2 := if truthy h then set_height h b1 else b1 in
  _setDOMSize w h b2.

(** [setClassName(name)]. *)
Definition setClassName (name : JsVal) (b : Board) : Board :=
  if negb (truthy name) then b else on_el (cv_set_className name) b.

(** [setPenStyle({ color, width })]. *)
Definition setPenStyle (color w : JsVal) (b : Board) : Board :=
  let b1 := if lawful_pen_color color then set_penColor color b else b in
  if lawful_pen_width w then set_penWidth w b1 else b1.

(** [getPaintCount()]. *)
Definition getPaintCount (b : Board) : nat := paintCount b.

(** *** Binding and unbinding *)

(** [_bindEvent(condition)]. *)
Definition _bindEvent (condition : gmap string JsVal) (b : Board) : Board :=
  on_el (cv_listen (for_each_item addEventListener
                      (_getEventItems (eventList b) condition))) b.

(** [_cleanEvent(condition)]. *)
Definition _cleanEvent (condition : gmap string JsVal) (b : Board) : Board :=
  on_el (cv_listen (for_each_item removeEventListener
                      (_getEventItems (eventList b) condition))) b.

(** [_cleanCurModeEvents({ action })]. *)
Definition _cleanCurModeEvents (action : JsVal) (b : Board) : Board :=
  match el b with
  | None => b
  | Some _ =>
      let pointerType := _getPointerType (interactiveMode b) in
      let condition := condition_of pointerType action in
      _cleanEvent condition b
  end.

(** [_bindCurModeEvents({ action })]. *)
Definition _bindCurModeEvents (action : JsVal) (b : Board) : Board :=
  match el b with
  | None => b
  | Some _ =>
      let pointerType := _getPointerType (interactiveMode b) in
      let condition := condition_of pointerType action in
      let b1 := _cleanCurModeEvents (prop condition "action") b in
      _bindEvent condition b1
  end.

(** *** Callbacks *)

(** [this.onRevokeStackChange && typeof this.onRevokeStackChange ===
    'function' && this.onRevokeStackChange(this.revokeStack)]. *)
Definition call_onRevokeStackChange (b : Board) : Board :=
  match onRevokeStackChange b with
  | VFun f =>
      set_notices
        (notices b ++ [RevokeStackChange f (revokeStackId b) (revokeStack b)]) b
  | _ => b
  end.

(** The same for [this.onPaintEnd(this.paintCount)]. *)
Definition call_onPaintEnd (b : Board) : Board :=
  match onPaintEnd b with
  | VFun f => set_notices (notices b ++ [PaintEnd f (paintCount b)]) b
  | _ => b
  end.

(** *** History *)

(** [this.revokeStack.shift()] and [this.revokeStack.pop()]. *)
Definition shift (l : list HistoryEntry) : list HistoryEntry := tail l.

Definition pop (l : list HistoryEntry)
  : option (HistoryEntry * list HistoryEntry) :=
  match last l with
  | Some e => Some (e, removelast l)
  | None => None
  end.

(** [this.revokeStack = []]: a new array. *)
Definition fresh_revokeStack (b : Board) : Board :=
  set_revokeStackId (S (revokeStackId b)) (set_revokeStack [] b).

(** [_saveImageData(type = 'paint', paintCount, imageData)].  [None] for
    [paintCount] is a [null] or [undefined] argument, [None] for [imageData]
    one that is not an [ImageData]. *)
Definition _saveImageData (type : JsVal) (count : option nat)
    (imageData : option ImageData) (b : Board) : Board :=
  let type := default_arg type (VStr "paint") in
  match count, imageData with
  | Some count, Some imageData =>
      if negb (includes [VStr "paint"; VStr "clear"] type) then b
      else
        let b1 :=
          if num_ge (num (Z.of_nat (length (revokeStack b)))) (MAX_REVOKE_STEPS b)
          then set_revokeStack (shift (revokeStack b)) b
          else b in
        let b2 :=
          set_revokeStack
            (revokeStack b1 ++
               [{| he_type := type; he_paintCount := count;
                   he_imageData := imageData |}]) b1 in
        call_onRevokeStackChange b2
  | _, _ => b
  end.

(** [_revoke()]. *)
Definition _revoke (b : Board) : Board :=
  match ctx b with
  | None => b
  | Some _ =>
      match pop (revokeStack b) with
      | None => b
      | Some (entry, rest) =>
          let b1 := set_revokeStack rest b in
          let b2 := on_ctx (putImageData (he_imageData entry)) b1 in
          let b3 := set_paintCount (he_paintCount entry) b2 in
          call_onRevokeStackChange b3
      end
  end.

(** [revoke()]. *)
Definition revoke (b : Board) : Board := _revoke b.

(** *** Drawing *)

(** [_drawCircle(x, y, radius = 3, color = 'red')]. *)
Definition _drawCircle (cx cy : JsNum) (radius color : JsVal) (b : Board)
  : Board :=
  on_ctx (fillCircle cx cy (default_arg radius (VNum (num 3)))
            (default_arg color (VStr "red"))) b.

(** [_drawLine(x1, y1, x2, y2, width = 6, color = 'red')]. *)
Definition _drawLine (x1 y1 x2 y2 : JsNum) (w color : JsVal) (b : Board)
  : Board :=
  on_ctx (strokeLine x1 y1 x2 y2 (default_arg w (VNum (num 6)))
            (default_arg color (VStr "red"))) b.

Definition rotate_is (deg : Z) (b : Board) : bool :=
  match bgImgRotate b with
  | Some r => num_eq r (num deg)
  | None => false
  end.

(** [_drawBg(imgObject, w, h)]. *)
Definition _drawBg (imgObject w h : JsVal) (b : Board) : Board :=
  if negb (truthy imgObject)
     || match ctx b with Some _ => false | None => true end
     || negb (truthy w) || negb (truthy h)
     || num_le (ToNumber w) (num 0) || num_le (ToNumber h) (num 0)
  then b
  else
    let upright := rotate_is 0 b || rotate_is 180 b in
    let halfW := num_div (ToNumber (width b)) (num 2) in
    let halfH := num_div (ToNumber (height b)) (num 2) in
    let dx := if upright then num_div (num_opp (ToNumber (width b))) (num 2)
              else num_div (num_opp (ToNumber (height b))) (num 2) in
    let dy := if upright then num_div (num_opp (ToNumber (height b))) (num 2)
              else num_div (num_opp (ToNumber (width b))) (num 2) in
    let dWidth := if upright then width b else height b in
    let dHeight := if upright then height b else width b in
    on_ctx (drawImage imgObject w h dx dy dWidth dHeight halfW halfH
              (bgImgRotate b)) b.

(** [this._drawBg(imgObject, ...this.originalSize)]: spreading [undefined]
    raises a [TypeError] before [_drawBg] is entered. *)
Definition _drawBg_spread (imgObject : JsVal) (b : Board) : Completion :=
  match originalSize b with
  | Some (w, h) => Returned (_drawBg imgObject w h b)
  | None => Threw b
  end.

(** *** Pointer handlers *)

(** [_handlePointerStart(e)].  With an event that is neither a mouse nor a
    touch event [this.lastPoint.x] raises, after the snapshot was saved. *)
Definition _handlePointerStart (e : PointerEvt) (b : Board) : Completion :=
  let b1 := set_isPainting true b in
  let b2 := set_lastPoint (_getPointOffset e) b1 in
  let b3 :=
    match ctx b2 with
    | Some c =>
        _saveImageData (VStr "paint") (Some (paintCount b2))
          (Some (getImageData (width b2) (height b2) (bitmap c b2))) b2
    | None => b2
    end in
  match lastPoint b3 with
  | None => Threw b3
  | Some p =>
      let b4 :=
        _drawCircle (pt_x p) (pt_y p)
          (VNum (num_div (ToNumber (penWidth b3)) (num 2))) (penColor b3) b3 in
      let b5 := _bindCurModeEvents (VStr "move") b4 in
      let b6 := _bindCurModeEvents (VStr "end") b5 in
      Returned (_bindCurModeEvents (VStr "leave") b6)
  end.

(** [_handlePointerMove(e)]. *)
Definition _handlePointerMove (e : PointerEvt) (b : Board) : Completion :=
  if negb (isPainting b) then Returned b
  else
    match _getPointOffset e, lastPoint b with
    | Some p, Some l =>
        let b1 :=
          _drawLine (pt_x l) (pt_y l) (pt_x p) (pt_y p)
            (penWidth b) (penColor b) b in
        Returned (set_lastPoint (Some {| pt_x := pt_x p; pt_y := pt_y p |}) b1)
    | _, _ => Threw b
    end.

(** [_handlePointerEnd(e)]. *)
Definition _handlePointerEnd (e : PointerEvt) (b : Board) : Completion :=
  let b1 := set_isPainting false b in
  let b2 := set_paintCount (S (paintCount b1)) b1 in
  let b3 := call_onPaintEnd b2 in
  let b4 := _cleanCurModeEvents (VStr "move") b3 in
  let b5 := _cleanCurModeEvents (VStr "end") b4 in
  Returned (_cleanCurModeEvents (VStr "leave") b5).

(** [_handlePointerLeave(e)] and [_handlePointerCancel(e)]. *)
Definition _handlePointerLeave (e : PointerEvt) (b : Board) : Completion :=
  if isPainting b then _handlePointerEnd e b else Returned b.

Definition _handlePointerCancel (e : PointerEvt) (b : Board) : Completion :=
  if isPainting b then _handlePointerEnd e b else Returned b.

Definition call_handler (h : Handler) (e : PointerEvt) (b : Board)
  : Completion :=
  match h with
  | HStart => _handlePointerStart e b
  | HMove => _handlePointerMove e b
  | HEnd => _handlePointerEnd e b
  | HLeave => _handlePointerLeave e b
  | HCancel => _handlePointerCancel e b
  end.

(** The page delivers an event named [name] to [this.el]: the listeners
    registered under that name run in turn; an exception in one is reported
    and does not stop the others. *)
Definition dispatch (name : string) (e : PointerEvt) (b : Board) : Board :=
  fold_left
    (fun acc l =>
       match l with
       | (n, Bound _ h) =>
           if String.eqb n name then state_of (call_handler h e acc) else acc
       | (_, UserFn _) => acc
       end)
    (listeners b) b.

(** *** Public operations *)

(** [rotate(direction = 1)]. *)
Definition rotate (direction : JsVal) (b : Board) : Completion :=
  let direction := default_arg direction (VNum (num 1)) in
  if negb (includes [VNum (num 1); VNum (num (-1))] direction) then Returned b
  else
    let current := match bgImgRotate b with Some r => r | None => NaN end in
    let b1 :=
      set_bgImgRotate
        (_getLawfulRotateAngle
           (VNum (num_add current (num_mul (ToNumber direction) (num 90))))) b in
    let b2 := setSize (height b1) (width b1) b1 in
    match _drawBg_spread (_bgImgObject b2) b2 with
    | Threw b3 => Threw b3
    | Returned b3 =>
        let b4 := set_paintCount 0%nat b3 in
        Returned (fresh_revokeStack b4)
    end.

(** [clear()]. *)
Definition clear (b : Board) : Completion :=
  match ctx b, el b with
  | Some c, Some _ =>
      let b1 :=
        _saveImageData (VStr "clear") (Some (paintCount b))
          (Some (getImageData (width b) (height b) (bitmap c b))) b in
      let b2 := on_ctx (clearRect (width b1) (height b1)) b1 in
      let b3 := set_paintCount 0%nat b2 in
      if truthy (_bgImgObject b3) then _drawBg_spread (_bgImgObject b3) b3
      else Returned b3
  | _, _ => Returned b
  end.

(** [mount()].  [_makeCanvas] gives a canvas nobody else holds, and
    [_getCtx] the context of the canvas in [this.el]. *)
Definition mount (b : Board) : Board :=
  let b1 :=
    match el b with
    | Some _ => b
    | None =>
        let i := nextCanvas b in
        set_el (Some i)
          (set_nextCanvas (S i)
             (set_canvases (upd i (fun _ => _makeCanvas) (canvases b)) b))
    end in
  let b2 := match ctx b1 with Some _ => b1 | None => set_ctx (el b1) b1 end in
  let b3 := _setDOMSize (width b2) (height b2) b2 in
  let b4 := setClassName (className b3) b3 in
  _bindCurModeEvents (VStr "start") b4.

(** [destory()]: [removeChild] raises when [this.el] is empty. *)
Definition destory (b : Board) : Completion :=
  match el b with
  | None => Threw b
  | Some _ => Returned (set_bgImgObject VNull (set_el None b))
  end.

(** The test [/^(http[s]?)|(data:image)/] of [_getImageFromURL] and
    [setBgImg]: the text starts with [http] or contains [data:image]. *)
Definition url_test (s : string) : bool :=
  String.prefix "http" s
  || match String.index 0 "data:image" s with Some _ => true | None => false end.

(** [_init(container, options)], for a container that exists and a [size]
    that is an array. *)
Definition _init (opts : OptionsObj) (b : Board) : Board :=
  let o := spread _defaultOptions opts in
  let b := set_options o b in
  let size := match opt_size o with Some s => s | None => [] end in
  let w := nth 0 size VUndefined in
  let h := nth 1 size VUndefined in
  let b :=
    setSize (if nullish w then VNum (fst (container b)) else w)
            (if nullish h then VNum (snd (container b)) else h) b in
  let b := set_manualMount (prop (opt_props o) "manualMount") b in
  let b := fresh_revokeStack b in
  let b :=
    set_MAX_REVOKE_STEPS
      (_getLawfulMaxRevokeSteps (prop (opt_props o) "maxRevokeSteps")) b in
  let b := set_lastPoint None b in
  let b := set_isPainting false b in
  let interactive := prop (opt_props o) "interactiveMode" in
  let b :=
    set_interactiveMode
      (if includes INTERACTIVE_MODE_ENUM interactive then interactive
       else VStr "mouse") b in
  let b := set_bindings (S (bindings b)) b in
  let b := set_eventList (event_table (bindings b)) b in
  let b :=
    setPenStyle (prop (opt_props o) "penColor") (prop (opt_props o) "penWidth") b in
  let url := prop (opt_props o) "bgImgURL" in
  let b := set_bgImgURL url b in
  let b := set_bgColor (prop (opt_props o) "bgColor") b in
  let b :=
    set_bgImgRotate (_getLawfulRotateAngle (prop (opt_props o) "bgImgRotate")) b in
  let b := set_className (prop (opt_props o) "className") b in
  let b :=
    if truthy url
    then set_pending (pending b ++ [{| ld_url := url; ld_kind := InitLoad |}]) b
    else set_bgImgObject VNull b in
  let b := set_onRevokeStackChange (prop (opt_props o) "onRevokeStackChange") b in
  let b := set_onPaintEnd (prop (opt_props o) "onPaintEnd") b in
  set_paintCount 0%nat b.

(** [reInit(options)]: [options || this.options]. *)
Definition reInit (opts : option OptionsObj) (b : Board) : Board :=
  mount (_init (match opts with Some o => o | None => options b end) b).

(** The object before the constructor has assigned anything. *)
Definition uninitialised (rect : JsNum * JsNum) : Board := {|
  container := rect;
  options := {| opt_size := None; opt_props := ∅ |};
  width := VUndefined; height := VUndefined; manualMount := VUndefined;
  revokeStack := []; revokeStackId := 0%nat; MAX_REVOKE_STEPS := NaN;
  lastPoint := None; isPainting := false; interactiveMode := VUndefined;
  bindings := 0%nat; eventList := []; penColor := VUndefined; penWidth := VUndefined;
  bgImgURL := VUndefined; bgColor := VUndefined; bgImgRotate := None;
  className := VUndefined; _bgImgObject := VUndefined; originalSize := None;
  onRevokeStackChange := VUndefined; onPaintEnd := VUndefined;
  paintCount := 0%nat; el := None; ctx := None;
  canvases := fun _ => _makeCanvas; nextCanvas := 0%nat;
  pending := []; notices := []
|}.

(** [new DrawingBoard(container, options)]. *)
Definition new_DrawingBoard (rect : JsNum * JsNum) (opts : OptionsObj) : Board :=
  let b := _init opts (uninitialised rect) in
  if negb (truthy (manualMount b)) then mount b else b.

(** [setBgImg(urlOrObject, originalWidth, originalHeight)]. *)
Definition setBgImg (urlOrObject originalWidth originalHeight : JsVal)
    (b : Board) : Board :=
  let direct :=
    let b1 :=
      if negb (strict_eq urlOrObject (_bgImgObject b))
      then set_bgImgObject urlOrObject b else b in
    let ow := js_or originalWidth (width b1) in
    let oh := js_or originalHeight (height b1) in
    let b2 := set_originalSize (Some (ow, oh)) b1 in
    _drawBg urlOrObject ow oh b2 in
  match urlOrObject with
  | VStr s =>
      if url_test s
      then set_pending
             (pending b ++
                [{| ld_url := urlOrObject;
                    ld_kind := SetBgLoad originalWidth originalHeight |}]) b
      else direct
  | _ => direct
  end.

(** A load settles.  The promise is rejected when the address fails the
    test of [_getImageFromURL] or the image fails to load; the [catch]
    callback then empties [_bgImgObject]. *)
Definition load_rejected (i : nat) (b : Board) : Board :=
  match pending b !! i with
  | None => b
  | Some _ => set_bgImgObject VNull (set_pending (delete i (pending b)) b)
  end.

Definition load_resolved (i : nat) (image : Image) (b : Board) : Board :=
  match pending b !! i with
  | None => b
  | Some p =>
      match ld_url p with
      | VStr s =>
          if url_test s then
            let b1 := set_pending (delete i (pending b)) b in
            let b2 := set_bgImgObject (VObj (img_obj image)) b1 in
            let iw := VNum (img_width image) in
            let ih := VNum (img_height image) in
            let size :=
              match ld_kind p with
              | InitLoad => (iw, ih)
              | SetBgLoad originalWidth originalHeight =>
                  (js_or originalWidth iw, js_or originalHeight ih)
              end in
            let b3 := set_originalSize (Some size) b2 in
            _drawBg (VObj (img_obj image)) (fst size) (snd size) b3
          else load_rejected i b
      | _ => load_rejected i b
      end
  end.

(** *** Runs of the board *)

Inductive Op : Type :=
| OMount
| OSetSize (w h : JsVal)
| OSetClassName (name : JsVal)
| OSetPenStyle (color w : JsVal)
| OSetBgImg (urlOrObject originalWidth originalHeight : JsVal)
| ORotate (direction : JsVal)
| OClear
| ORevoke
| OReInit (opts : option OptionsObj)
| ODestory
| OEvent (name : string) (e : PointerEvt)
| OLoadResolved (i : nat) (image : Image)
| OLoadRejected (i : nat).

(** The state an operation leaves, whether it returned or raised. *)
Definition step (op : Op) (b : Board) : Board :=
  match op with
  | OMount => mount b
  | OSetSize w h => setSize w h b
  | OSetClassName name => setClassName name b
  | OSetPenStyle color w => setPenStyle color w b
  | OSetBgImg u ow oh => setBgImg u ow oh b
  | ORotate direction => state_of (rotate direction b)
  | OClear => state_of (clear b)
  | ORevoke => revoke b
  | OReInit opts => reInit opts b
  | ODestory => state_of (destory b)
  | OEvent name e => dispatch name e b
  | OLoadResolved i image => load_resolved i image b
  | OLoadRejected i => load_rejected i b
  end.

Definition run (ops : list Op) (b : Board) : Board :=
  fold_left (fun acc op => step op acc) ops b.

(** The boards a program can hold: a new one, and what the operations
    make of it. *)
Inductive reachable : Board -> Prop :=
| reach_new rect opts : reachable (new_DrawingBoard rect opts)
| reach_step op b : reachable b -> reachable (step op b).

(** Whether an operation raises.  An exception in a listener is reported
    by the page and does not reach the program. *)
Definition raises (op : Op) (b : Board) : bool :=
  match op with
  | ORotate direction => negb (returned (rotate direction b))
  | OClear => negb (returned (clear b))
  | ODestory => negb (returned (destory b))
  | _ => false
  end.

Fixpoint run_raises (ops : list Op) (b : Board) : bool :=
  match ops with
  | [] => false
  | op :: rest => raises op b || run_raises rest (step op b)
  end.

(** *** What the history depends on *)

Definition core (b : Board) :=
  (revokeStack b, revokeStackId b, MAX_REVOKE_STEPS b, ctx b, paintCount b,
   onRevokeStackChange b, notices b).

Definition entry_of (type : JsVal) (count : nat) (imageData : ImageData)
  : HistoryEntry :=
  {| he_type := type; he_paintCount := count; he_imageData := imageData |}.

(** The stack after a push of [e] on the board [b]. *)
Definition pushed (b : Board) (e : HistoryEntry) : list HistoryEntry :=
  (if num_ge (num (Z.of_nat (length (revokeStack b)))) (MAX_REVOKE_STEPS b)
   then shift (revokeStack b) else revokeStack b) ++ [e].

(** The stack is empty as long as there is no context, the maximum is a
    positive number up to 50, and the stack is no longer than the maximum
    rounded up. *)
Definition stack_ok (b : Board) : Prop :=
  (revokeStack b <> [] -> ctx b <> None) /\
  exists q, MAX_REVOKE_STEPS b = Fin q /\ (0 < q)%Q /\ (q <= 50)%Q /\
            Z.of_nat (length (revokeStack b)) <= Qceiling q.

End Board.

(** ** Boards to run the operations on *)

Definition with_props (size : option (list JsVal)) (props : list (string * JsVal))
  : OptionsObj :=
  {| opt_size := size; opt_props := list_to_map props |}.

(** One stroke with the mouse: down at (10, 10), a move to (20, 20), up. *)
Definition stroke : list Op :=
  [ OEvent "mousedown" (MouseEvt (num 10) (num 10));
    OEvent "mousemove" (MouseEvt (num 20) (num 20));
    OEvent "mouseup" (MouseEvt (num 20) (num 20)) ].

(** [new DrawingBoard(el)] in a container of 100 by 80. *)
Definition plain_board : @Board MarkCanvas :=
  @new_DrawingBoard MarkCanvas (num 100, num 80) (with_props None []).

(** The same after one stroke. *)
Definition stroked_board : @Board MarkCanvas :=
  @run PlainHost MarkCanvas stroke plain_board.

(** [new DrawingBoard(el, { onRevokeStackChange: f })] after one stroke. *)
Definition watched_board : @Board MarkCanvas :=
  @run PlainHost MarkCanvas stroke
    (@new_DrawingBoard MarkCanvas (num 100, num 80)
       (with_props None [("onRevokeStackChange", VFun (UserFn 0))])).

(** [new DrawingBoard(el, { maxRevokeSteps: 0.5 })] after a pointer went
    down. *)
Definition half_board : @Board MarkCanvas :=
  @run PlainHost MarkCanvas [OEvent "mousedown" (MouseEvt (num 10) (num 10))]
    (@new_DrawingBoard MarkCanvas (num 100, num 80)
       (with_props None [("maxRevokeSteps", VNum (Fin (1 # 2)))])).

(** [new DrawingBoard(el, { size: [0, 100] })] after [setBgImg(picture)]
    with a picture that is already decoded. *)
Definition narrow_board : @Board MarkCanvas :=
  @step PlainHost MarkCanvas (OSetBgImg (VObj 0) VUndefined VUndefined)
    (@new_DrawingBoard MarkCanvas (num 100, num 80)
       (with_props (Some [VNum (num 0); VNum (num 100)]) [])).

(** [new DrawingBoard(el, { interactiveMode: mode })]. *)
Definition board_in_mode (mode : string) : @Board MarkCanvas :=
  @new_DrawingBoard MarkCanvas (num 100, num 80)
    (with_props None [("interactiveMode", VStr mode)]).

(** ** The specification's wording, where the code departs from it *)

(** The stack is no longer than [maxRevokeSteps]. *)
Definition within_max `{Canvas2D} (b : Board) : Prop :=
  num_le (num (Z.of_nat (length (revokeStack b)))) (MAX_REVOKE_STEPS b) = true.

(** A number in the range from 1 to 50. *)
Definition in_1_50 (n : JsNum) : bool := num_le (num 1) n && num_le n (num 50).

(** The clamp in words: a number greater than 0 is kept up to 50 and cut to
    50 above; anything else gives 10. *)
Definition clamp_steps (steps : JsVal) : JsNum :=
  match steps with
  | VNum n =>
      if num_gt n (num 0)
      then (if num_gt n (num 50) then num 50 else n)
      else num 10
  | _ => num 10
  end.

(** A string that is not empty; a positive number; a positive finite
    number. *)
Definition non_empty_string (v : JsVal) : bool :=
  match v with VStr s => negb (String.eqb s EmptyString) | _ => false end.

Definition positive_number (v : JsVal) : bool :=
  match v with VNum n => num_gt n (num 0) | _ => false end.

Definition positive_finite_number (v : JsVal) : bool :=
  match v with VNum n => num_isFinite n && num_gt n (num 0) | _ => false end.

(** The rotation [rotate] stores. *)
Definition turned (d : Z) (r : option JsNum) : option JsNum :=
  _getLawfulRotateAngle
    (VNum (num_add (match r with Some r => r | None => NaN end)
             (num_mul (num d) (num 90)))).

(** Four calls of [rotate] in a row. *)
Definition four_rotations (direction : JsVal) : list Op :=
  [ORotate direction; ORotate direction; ORotate direction; ORotate direction].

Definition rotate4 `{Host} `{Canvas2D} (direction : JsVal) (b : Board) : Board :=
  run (four_rotations direction) b.


(** ** Export

    [getDataUrl], [getBlob], [getFile] and [download] end in a call of the
    canvas element ([toDataURL], [toBlob]); what such a call returns is the
    page's business, so each function is given by the call it makes, or by
    [None] where the source returns [undefined]. *)

Definition IMG_TYPE_ENUM : list JsVal :=
  [VStr "jpg"; VStr "jpeg"; VStr "png"; VStr "webp"].

(** The literal [0.3]. *)
Definition LOWEST_RATE : JsNum := Fin (3 # 10).

(** [!IMG_TYPE_ENUM.includes(type) || typeof compressRate !== 'number' ||
    isNaN(compressRate)]. *)
Definition unlawful_export (type compressRate : JsVal) : bool :=
  negb (includes IMG_TYPE_ENUM type)
  || match compressRate with
     | VNum r => num_isNaN r
     | _ => true
     end.

(** [if (compressRate < 0.3) compressRate = 0.3] and then
    [if (compressRate > 1) compressRate = 1]. *)
Definition clamp_rate (compressRate : JsNum) : JsNum :=
  let r := if num_lt compressRate LOWEST_RATE then LOWEST_RATE else compressRate in
  if num_gt r (num 1) then num 1 else r.

(** [`image/${type}`]. *)
Definition resource_type (type : JsVal) : string :=
  match type with
  | VStr t => String.append "image/" t
  | _ => "image/"
  end.

(** The arguments of [toDataURL] or [toBlob], and the canvas called. *)
Record ExportCall : Type := {
  ex_canvas : nat;
  ex_resourceType : string;
  ex_compressRate : JsNum
}.

(** A value, or a raised exception. *)
Inductive Outcome (A : Type) : Type :=
| Gave (a : A)
| Raised.

Arguments Gave {A} a.
Arguments Raised {A}.

Section ExportCalls.

Context `{Canvas2D}.

Definition export_call (type compressRate : JsVal) (b : Board)
  : option ExportCall :=
  match el b with
  | None => None
  | Some i =>
      if unlawful_export type compressRate then None
      else
        match compressRate with
        | VNum r =>
            Some {| ex_canvas := i; ex_resourceType := resource_type type;
                    ex_compressRate := clamp_rate r |}
        | _ => None
        end
  end.

(** [getDataUrl(type = 'png', compressRate = 1)]: the call of
    [this.el.toDataURL]. *)
Definition getDataUrl (type compressRate : JsVal) (b : Board)
  : option ExportCall :=
  export_call (default_arg type (VStr "png"))
    (default_arg compressRate (VNum (num 1))) b.

(** [getBlob(type = 'png', compressRate = 1)]: the call of
    [this.el.toBlob] inside the promise. *)
Definition getBlob (type compressRate : JsVal) (b : Board)
  : option ExportCall :=
  export_call (default_arg type (VStr "png"))
    (default_arg compressRate (VNum (num 1))) b.

(** [getFile(name = 'drawingBoard', type = 'png', compressRate = 1)]:
    [this.getBlob(type, compressRate).then(...)] raises when [getBlob] has
    returned [undefined]. *)
Definition getFile (name type compressRate : JsVal) (b : Board)
  : Outcome (ExportCall * JsVal) :=
  match getBlob (default_arg type (VStr "png"))
          (default_arg compressRate (VNum (num 1))) b with
  | Some call => Gave (call, default_arg name (VStr "drawingBoard"))
  | None => Raised
  end.

(** [download(type = 'png', compressRate = 1, name = 'drawing-board')]: the
    call behind the address of the link, and the name the link is given
    (before the time is appended).  The address [toDataURL] returns is a
    string that is not empty. *)
Definition download (type compressRate name : JsVal) (b : Board)
  : option (ExportCall * JsVal) :=
  let type := default_arg type (VStr "png") in
  let compressRate := default_arg compressRate (VNum (num 1)) in
  let name := default_arg name (VStr "drawing-board") in
  if unlawful_export type compressRate then None
  else
    match compressRate with
    | VNum r =>
        match getDataUrl type (VNum (clamp_rate r)) b with
        | Some call => Some (call, name)
        | None => None
        end
    | _ => None
    end.

End ExportCalls.

(** ** Strokes, repeated undo, and what stays put *)

(** What the provider promises about drawing: a dot and a segment keep the
    size of the surface. *)
Class Canvas2DDrawLaws `{Canvas2D} : Prop := {
  fillCircle_size : forall cx cy r c s, same_size s (fillCircle cx cy r c s);
  strokeLine_size : forall x1 y1 x2 y2 w c s,
    same_size s (strokeLine x1 y1 x2 y2 w c s)
}.

Section Strokes.

Context `{Host} `{Canvas2D}.

(** The move handler run on each event in turn. *)
Definition moves (es : list PointerEvt) (b : Board) : Board :=
  fold_left (fun acc e => state_of (_handlePointerMove e acc)) es b.

(** A whole stroke: the start handler, the move handler on each event, the
    end handler. *)
Definition stroke_on (down : PointerEvt) (es : list PointerEvt)
    (up : PointerEvt) (b : Board) : Board :=
  state_of (_handlePointerEnd up (moves es (state_of (_handlePointerStart down b)))).

(** [revoke()] called [n] times. *)
Fixpoint revoke_times (n : nat) (b : Board) : Board :=
  match n with
  | O => b
  | S n => revoke_times n (revoke b)
  end.

(** [b'] is [b] up to the fields drawing and undo write: the canvases, the
    notices, the stack, the last point, the painting flag and the count. *)
Definition drawn (b b' : Board) : Prop :=
  exists cs ns st lp ip pc,
    b' = set_canvases cs (set_notices ns (set_revokeStack st
           (set_lastPoint lp (set_isPainting ip (set_paintCount pc b))))).

(** [b'] is [b] up to the canvases. *)
Definition recanvased (b b' : Board) : Prop :=
  exists cs, b' = set_canvases cs b.

(** What an operation other than [_init] writes outside those six fields:
    one of these, by the operation. *)
Inductive written (b : Board) : Board -> Prop :=
| w_same : written b b
| w_size (w h : JsVal) :
    written b
      (set_height (if truthy h then h else height b)
         (set_width (if truthy w then w else width b) b))
| w_pen (color w : JsVal) :
    written b
      (set_penWidth (if lawful_pen_width w then w else penWidth b)
         (set_penColor (if lawful_pen_color color then color else penColor b) b))
| w_pending (ps : list Pending) :
    written b (set_pending ps b)
| w_background (o : JsVal) (size : JsVal * JsVal) (ps : list Pending) :
    written b
      (set_pending ps (set_originalSize (Some size) (set_bgImgObject o b)))
| w_no_background (ps : list Pending) :
    written b (set_bgImgObject VNull (set_pending ps b))
| w_destroyed :
    written b (set_bgImgObject VNull (set_el None b))
| w_rotated (id : nat) (angle : JsVal) :
    written b
      (set_revokeStackId id
         (set_height (if truthy (width b) then width b else height b)
            (set_width (if truthy (height b) then height b else width b)
               (set_bgImgRotate (_getLawfulRotateAngle angle) b))))
| w_mounted :
    written b
      (set_ctx
         (match ctx b with
          | Some c => Some c
          | None => Some (match el b with Some i => i | None => nextCanvas b end)
          end)
         (set_el (Some (match el b with Some i => i | None => nextCanvas b end))
            (set_nextCanvas
               (match el b with
                | Some _ => nextCanvas b
                | None => S (nextCanvas b)
                end) b))).

(** The pairs [forEach] hands to [addEventListener] and
    [removeEventListener]. *)
Definition item_pairs (items : list (gmap string JsVal))
  : list (string * FunRef) :=
  omap (fun item =>
          match prop item "name", prop item "handler" with
          | VStr name, VFun handler => Some (name, handler)
          | _, _ => None
          end) items.

(** The pairs bound for an action on this board. *)
Definition action_pairs (action : JsVal) (b : Board) : list (string * FunRef) :=
  item_pairs
    (_getEventItems (eventList b)
       (condition_of (_getPointerType (interactiveMode b)) action)).

Definition is_bound (ps : list (string * FunRef)) (p : string * FunRef) : bool :=
  existsb (listener_eqb p) ps.

(** [addEventListener] and [removeEventListener] on each pair in turn. *)
Definition add_pairs (ps ls : list (string * FunRef)) : list (string * FunRef) :=
  fold_left (fun acc p => addEventListener (fst p) (snd p) acc) ps ls.

Definition remove_pairs (ps ls : list (string * FunRef))
  : list (string * FunRef) :=
  fold_left (fun acc p => removeEventListener (fst p) (snd p) acc) ps ls.

(** The listeners that are not among [ps], in their order. *)
Definition without (ps ls : list (string * FunRef)) : list (string * FunRef) :=
  List.filter (fun q => negb (is_bound ps q)) ls.

(** The rotations a board can hold. *)
Definition lawful_rotation (r : option JsNum) : Prop :=
  r = None \/ r = Some NaN \/ exists j, 0 <= j <= 3 /\ r = Some (num (90 * j)).

Definition unset_or_truthy (v : JsVal) : Prop :=
  v = VUndefined \/ truthy v = true.

(** What [_init], [setSize], [setPenStyle] and [rotate] keep true of the
    fields they store. *)
Definition setup_ok (b : Board) : Prop :=
  lawful_rotation (bgImgRotate b) /\
  includes INTERACTIVE_MODE_ENUM (interactiveMode b) = true /\
  (penColor b = VUndefined \/ non_empty_string (penColor b) = true) /\
  (penWidth b = VUndefined \/ positive_number (penWidth b) = true) /\
  unset_or_truthy (width b) /\ unset_or_truthy (height b) /\
  eventList b = event_table (bindings b).

(** A background object comes with its size. *)
Definition backdrop_ok (b : Board) : Prop :=
  truthy (_bgImgObject b) = true -> originalSize b <> None.

(** [el] and [ctx] name canvases that were created. *)
Definition canvases_ok (b : Board) : Prop :=
  (forall i, el b = Some i -> (i < nextCanvas b)%nat) /\
  (forall c, ctx b = Some c -> (c < nextCanvas b)%nat).

End Strokes.

(** What [_drawBg] can hand to [ctx.drawImage]: nothing, since a falsy value
    stops [_drawBg] at its first test, or an object, which is taken to be an
    image the context can draw.  A truthy text or number, as
    [setBgImg('images/bg.png')] stores, makes [drawImage] raise. *)
Definition drawable (imgObject : JsVal) : bool :=
  match imgObject with
  | VObj _ => true
  | _ => negb (truthy imgObject)
  end.

(** ** A provider that tells the rectangles apart

    As [MarkCanvas], but a snapshot taken over a rectangle with a side that
    is not a positive finite number holds none of the marks: the rectangle of
    [getImageData(0, 0, -100, 80)] lies left of the origin, off the
    surface. *)
Definition SignCanvas : Canvas2D := {|
  Surface := list Mark;
  ImageData := list Mark;
  blank := fun _ _ => [];
  getImageData := fun w h s =>
    if positive_finite_number w && positive_finite_number h then s else [];
  putImageData := fun d _ => d;
  clearRect := fun _ _ _ => [];
  fillCircle := fun cx cy r c s => s ++ [Dot cx cy r c];
  strokeLine := fun x1 y1 x2 y2 w c s => s ++ [Segment x1 y1 x2 y2 w c];
  drawImage := fun img _ _ _ _ _ _ _ _ deg s => s ++ [Picture img deg];
  spans := fun w h _ =>
    positive_finite_number w && positive_finite_number h = true;
  same_size := fun _ _ => True
|}.

(** [new DrawingBoard(el)] in a container of 100 by 80, then
    [setSize([-100, 80])] and one stroke. *)
Definition signed_board : @Board SignCanvas :=
  @run PlainHost SignCanvas
    (OSetSize (VNum (num (-100))) (VNum (num 80)) :: stroke)
    (@new_DrawingBoard SignCanvas (num 100, num 80) (with_props None [])).
(** * Facts

    ** Numbers *)

Section NumberFacts.

Local Open Scope Q_scope.

Lemma Qltb_true (a b : Q) : Qltb a b = true <-> a < b.
Proof.
  unfold Qltb. rewrite negb_true_iff, <- not_true_iff_false, Qle_bool_iff.
  split; [apply Qnot_le_lt | apply Qlt_not_le].
Qed.

Lemma Qltb_false (a b : Q) : Qltb a b = false <-> b <= a.
Proof.
  unfold Qltb. rewrite negb_false_iff. apply Qle_bool_iff.
Qed.

Lemma Qle_bool_false (a b : Q) : Qle_bool a b = false <-> b < a.
Proof.
  rewrite <- not_true_iff_false, Qle_bool_iff.
  split; [apply Qnot_le_lt | apply Qlt_not_le].
Qed.

(** The remainder of a division by a positive whole number stays strictly
    between the divisor and its opposite. *)
Lemma Qtrunc_rem_bounds (q : Q) (d : Z) :
  (0 < d)%Z ->
  let t := q - inject_Z d * inject_Z (Qtrunc (q / inject_Z d)) in
  - inject_Z d < t /\ t < inject_Z d.
Proof.
  intros Hd t. subst t.
  assert (Hd' : 0 < inject_Z d) by (change 0 with (inject_Z 0); now rewrite <- Zlt_Qlt).
  set (D := inject_Z d) in *.
  assert (Hq : q == (q / D) * D) by (field; lra).
  set (r := q / D) in *.
  unfold Qtrunc. destruct (Qle_bool 0 r) eqn:E.
  - pose proof (Qfloor_le r) as H1. pose proof (Qlt_floor r) as H2.
    rewrite inject_Z_plus in H2. change (inject_Z 1) with 1 in H2.
    set (z := inject_Z (Qfloor r)) in *.
    assert (P1 : 0 <= D * (r - z)) by (apply Qmult_le_0_compat; lra).
    assert (P2 : 0 < D * (z + 1 - r)) by (apply Qmult_lt_0_compat; lra).
    split; lra.
  - pose proof (Qle_ceiling r) as H1. pose proof (Qceiling_lt r) as H2.
    unfold Z.sub in H2. rewrite inject_Z_plus, inject_Z_opp in H2.
    change (inject_Z 1) with 1 in H2.
    set (z := inject_Z (Qceiling r)) in *.
    assert (P1 : 0 <= D * (z - r)) by (apply Qmult_le_0_compat; lra).
    assert (P2 : 0 < D * (r - (z - 1))) by (apply Qmult_lt_0_compat; lra).
    split; lra.
Qed.

Lemma Qeq_bool_pos (d : Z) : (0 < d)%Z -> Qeq_bool (inject_Z d) 0 = false.
Proof.
  intros Hd. apply not_true_iff_false. rewrite Qeq_bool_iff.
  unfold Qeq. simpl. lia.
Qed.

Lemma num_rem_fin (q : Q) (d : Z) :
  (0 < d)%Z ->
  exists t, num_rem (Fin q) (num d) = Fin t /\ - inject_Z d < t /\ t < inject_Z d.
Proof.
  intros Hd. unfold num_rem, num, fin. rewrite (Qeq_bool_pos d Hd).
  eexists. split; [reflexivity |].
  rewrite Qred_correct. now apply Qtrunc_rem_bounds.
Qed.

Lemma quarter_turns_range (k : Z) :
  (0 <= k <= 4)%Z ->
  exists j, (0 <= j <= 3)%Z /\ quarter_turns k = num (90 * j).
Proof.
  intros Hk.
  assert (C : k = 0%Z \/ k = 1%Z \/ k = 2%Z \/ k = 3%Z \/ k = 4%Z) by lia.
  destruct C as [-> | [-> | [-> | [-> | ->]]]];
    [exists 0%Z | exists 1%Z | exists 2%Z | exists 3%Z | exists 0%Z];
    (split; [lia | vm_compute; reflexivity]).
Qed.

Lemma Qfloor_quarters (n : Q) :
  0 <= n -> n < 360 -> (0 <= Qfloor (Qred (n / 90)) <= 3)%Z.
Proof.
  intros H0 H1. rewrite (Qfloor_comp _ _ (Qred_correct _)).
  assert (A : 0 <= n / 90) by (apply Qle_shift_div_l; lra).
  assert (B : n / 90 < 4) by (apply Qlt_shift_div_r; lra).
  split.
  - change 0%Z with (Qfloor 0). now apply Qfloor_resp_le.
  - pose proof (Qfloor_le (n / 90)) as F.
    assert (L : inject_Z (Qfloor (n / 90)) < inject_Z 4) by (change (inject_Z 4) with 4; lra).
    rewrite <- Zlt_Qlt in L. lia.
Qed.

Lemma Qceiling_quarters (n : Q) :
  0 <= n -> n < 360 -> (0 <= Qceiling (Qred (n / 90)) <= 4)%Z.
Proof.
  intros H0 H1. rewrite (Qceiling_comp _ _ (Qred_correct _)).
  assert (A : 0 <= n / 90) by (apply Qle_shift_div_l; lra).
  assert (B : n / 90 <= 4) by (apply Qle_shift_div_r; lra).
  split.
  - change 0%Z with (Qceiling 0). now apply Qceiling_resp_le.
  - change 4%Z with (Qceiling 4). now apply Qceiling_resp_le.
Qed.

(** On a finite number the result is one of 0, 90, 180, 270. *)
Lemma angle_of_finite (q : Q) :
  exists j, (0 <= j <= 3)%Z /\
    _getLawfulRotateAngle (VNum (Fin q)) = Some (num (90 * j)).
Proof.
  unfold _getLawfulRotateAngle. change (num_isNaN (Fin q)) with false. cbv iota.
  destruct (num_rem_fin q 360) as (t & -> & Ht1 & Ht2); [lia |].
  change (inject_Z 360) with 360 in *.
  assert (N : exists n,
             (if num_lt (Fin t) (num 0) then num_add (Fin t) (num 360) else Fin t)
             = Fin n /\ 0 <= n /\ n < 360).
  { destruct (num_lt (Fin t) (num 0)) eqn:E; simpl in E.
    - apply Qltb_true in E. exists (Qred (t + 360)). split; [reflexivity |].
      rewrite Qred_correct. change (inject_Z 0) with 0 in E. lra.
    - apply Qltb_false in E. exists t. change (inject_Z 0) with 0 in E.
      split; [reflexivity | lra]. }
  destruct N as (n & -> & Hn0 & Hn1). cbv zeta.
  assert (D : num_div (Fin n) (num 90) = Fin (Qred (n / 90))) by reflexivity.
  rewrite D. unfold num_ceil, num_floor.
  destruct (num_ge (num_rem (Fin n) (num 90)) (num 45)).
  - destruct (quarter_turns_range _ (Qceiling_quarters n Hn0 Hn1)) as (j & Hj & E).
    exists j. split; [exact Hj | f_equal; exact E].
  - pose proof (Qfloor_quarters n Hn0 Hn1) as F.
    destruct (quarter_turns_range (Qfloor (Qred (n / 90)))) as (j & Hj & E); [lia |].
    exists j. split; [exact Hj | f_equal; exact E].
Qed.

Lemma angle_of_quarter (j : Z) :
  (0 <= j <= 3)%Z ->
  _getLawfulRotateAngle (VNum (num (90 * j))) = Some (num (90 * j)).
Proof.
  intros Hj.
  assert (C : j = 0%Z \/ j = 1%Z \/ j = 2%Z \/ j = 3%Z) by lia.
  destruct C as [-> | [-> | [-> | ->]]]; vm_compute; reflexivity.
Qed.

End NumberFacts.

(** ** Frames and the bound of the stack *)

Section BoardFacts.

Context `{Host} `{Canvas2D}.

Ltac frame :=
  intros; unfold core; repeat case_match; cbn; congruence.

Lemma core_on_el f b : core (on_el f b) = core b.
Proof. unfold on_el. frame. Qed.

Lemma core_on_ctx f b : core (on_ctx f b) = core b.
Proof. unfold on_ctx. frame. Qed.

Lemma core_setDOMSize w h b : core (_setDOMSize w h b) = core b.
Proof. unfold _setDOMSize. repeat case_match; rewrite ?core_on_el; reflexivity. Qed.

Lemma core_setSize w h b : core (setSize w h b) = core b.
Proof. unfold setSize. rewrite core_setDOMSize. frame. Qed.

Lemma core_setClassName n b : core (setClassName n b) = core b.
Proof. unfold setClassName. case_match; rewrite ?core_on_el; reflexivity. Qed.

Lemma core_setPenStyle c w b : core (setPenStyle c w b) = core b.
Proof. unfold setPenStyle. frame. Qed.

Lemma core_bindEvent c b : core (_bindEvent c b) = core b.
Proof. apply core_on_el. Qed.

Lemma core_cleanEvent c b : core (_cleanEvent c b) = core b.
Proof. apply core_on_el. Qed.

Lemma core_cleanCurModeEvents a b : core (_cleanCurModeEvents a b) = core b.
Proof. unfold _cleanCurModeEvents. case_match; rewrite ?core_cleanEvent; reflexivity. Qed.

Lemma core_bindCurModeEvents a b : core (_bindCurModeEvents a b) = core b.
Proof.
  unfold _bindCurModeEvents. case_match; [| reflexivity].
  now rewrite core_bindEvent, core_cleanCurModeEvents.
Qed.

Lemma core_drawCircle cx cy r c b : core (_drawCircle cx cy r c b) = core b.
Proof. apply core_on_ctx. Qed.

Lemma core_drawLine x1 y1 x2 y2 w c b : core (_drawLine x1 y1 x2 y2 w c b) = core b.
Proof. apply core_on_ctx. Qed.

Lemma core_drawBg img w h b : core (_drawBg img w h b) = core b.
Proof. unfold _drawBg. case_match; rewrite ?core_on_ctx; reflexivity. Qed.


Lemma core_setBgImg u ow oh b : core (setBgImg u ow oh b) = core b.
Proof.
  unfold setBgImg. repeat case_match; rewrite ?core_drawBg; try reflexivity.
Qed.

Lemma core_load_rejected i b : core (load_rejected i b) = core b.
Proof. unfold load_rejected. frame. Qed.

Lemma core_load_resolved i img b : core (load_resolved i img b) = core b.
Proof.
  unfold load_resolved.
  repeat case_match; rewrite ?core_drawBg, ?core_load_rejected; reflexivity.
Qed.

(** *** The stack and its bound *)

Lemma saveImageData_valid type count imageData b :
  includes [VStr "paint"; VStr "clear"] (default_arg type (VStr "paint")) = true ->
  _saveImageData type (Some count) (Some imageData) b =
  call_onRevokeStackChange
    (set_revokeStack
       (pushed b (entry_of (default_arg type (VStr "paint")) count imageData)) b).
Proof.
  intros E. unfold _saveImageData, pushed. rewrite E. cbn [negb].
  now destruct (num_ge _ _).
Qed.

Lemma saveImageData_invalid type count imageData b :
  includes [VStr "paint"; VStr "clear"] (default_arg type (VStr "paint")) = false
  \/ count = None \/ imageData = None ->
  _saveImageData type count imageData b = b.
Proof.
  unfold _saveImageData. intros [E | [-> | ->]].
  - rewrite E. now repeat case_match.
  - reflexivity.
  - now case_match.
Qed.

Lemma stack_ok_frame b b' :
  revokeStack b' = revokeStack b -> ctx b' = ctx b ->
  MAX_REVOKE_STEPS b' = MAX_REVOKE_STEPS b ->
  stack_ok b -> stack_ok b'.
Proof. unfold stack_ok. intros -> -> ->. auto. Qed.

Lemma core_fields b b' :
  core b' = core b ->
  revokeStack b' = revokeStack b /\ ctx b' = ctx b /\
  MAX_REVOKE_STEPS b' = MAX_REVOKE_STEPS b /\ paintCount b' = paintCount b /\
  revokeStackId b' = revokeStackId b /\ notices b' = notices b /\
  onRevokeStackChange b' = onRevokeStackChange b.
Proof. unfold core. intros E. injection E. auto 10. Qed.

Lemma stack_ok_core b b' : core b' = core b -> stack_ok b -> stack_ok b'.
Proof.
  intros E. apply core_fields in E as (E1 & E2 & E3 & _).
  now apply stack_ok_frame.
Qed.

Lemma length_pushed b e q :
  MAX_REVOKE_STEPS b = Fin q -> (0 < q)%Q ->
  Z.of_nat (length (revokeStack b)) <= Qceiling q ->
  Z.of_nat (length (pushed b e)) <= Qceiling q.
Proof.
  intros EM Hq Hl. unfold pushed. rewrite EM.
  rewrite length_app. cbn [length]. unfold num_ge, num_le, num.
  destruct (Qle_bool q _) eqn:E.
  - destruct (revokeStack b) as [| e0 l]; cbn [shift tail length] in *; [| lia].
    apply Qle_bool_iff in E. change (inject_Z (Z.of_nat 0)) with 0%Q in E.
    exfalso. apply (Qlt_not_le _ _ Hq E).
  - apply Qle_bool_false in E.
    pose proof (Qle_ceiling q) as C.
    assert (L : (inject_Z (Z.of_nat (length (revokeStack b))) < inject_Z (Qceiling q))%Q)
      by (eapply Qlt_le_trans; eauto).
    rewrite <- Zlt_Qlt in L. lia.
Qed.

Lemma pop_snoc l e : pop (l ++ [e]) = Some (e, l).
Proof. unfold pop. now rewrite last_snoc, removelast_last. Qed.

Lemma pop_Some l e rest : pop l = Some (e, rest) -> l = rest ++ [e].
Proof.
  unfold pop. destruct (last l) as [e' |] eqn:E; [| discriminate].
  apply last_Some in E as (l' & ->). rewrite removelast_last. congruence.
Qed.

Lemma pop_None l : pop l = None -> l = [].
Proof.
  unfold pop. destruct (last l) eqn:E; [discriminate |].
  intros _. now apply last_None.
Qed.

Lemma Qceiling_pos q : (0 < q)%Q -> 0 <= Qceiling q.
Proof.
  intros Hq. change 0 with (Qceiling 0). apply Qceiling_resp_le.
  now apply Qlt_le_weak.
Qed.

(** The maximum [_init] stores is a positive number up to 50. *)
Lemma lawful_max_range steps :
  exists q, _getLawfulMaxRevokeSteps steps = Fin q /\ (0 < q)%Q /\ (q <= 50)%Q.
Proof.
  assert (T : exists q, num 10 = Fin q /\ (0 < q)%Q /\ (q <= 50)%Q)
    by (eexists; split; [reflexivity | split; reflexivity || discriminate]).
  assert (F : exists q, num 50 = Fin q /\ (0 < q)%Q /\ (q <= 50)%Q)
    by (eexists; split; [reflexivity | split; reflexivity || discriminate]).
  destruct steps as [| | | n | | |]; try exact T.
  unfold _getLawfulMaxRevokeSteps, LIMIT_MAX_REVOKE_STEPS.
  destruct n as [| [|] | q]; try exact T; try exact F.
  cbn [num_le num_isNaN num_gt num_lt num orb].
  destruct (Qle_bool q (inject_Z 0)) eqn:E0; [exact T |]. cbn [orb].
  destruct (Qltb (inject_Z 50) q) eqn:E1; [exact F |].
  apply Qle_bool_false in E0. apply Qltb_false in E1.
  exists q. auto.
Qed.

Lemma stack_ok_call b : stack_ok b -> stack_ok (call_onRevokeStackChange b).
Proof. unfold call_onRevokeStackChange. now repeat case_match. Qed.

Lemma stack_ok_call_paint b : stack_ok b -> stack_ok (call_onPaintEnd b).
Proof. unfold call_onPaintEnd. now repeat case_match. Qed.

Lemma stack_ok_save type count imageData b :
  ctx b <> None -> stack_ok b ->
  stack_ok (_saveImageData type count imageData b).
Proof.
  intros Hc Hok.
  destruct (includes [VStr "paint"; VStr "clear"] (default_arg type (VStr "paint")))
    eqn:E; [| now rewrite saveImageData_invalid by auto].
  destruct count as [count |]; [| now rewrite saveImageData_invalid by auto].
  destruct imageData as [imageData |]; [| now rewrite saveImageData_invalid by auto].
  rewrite saveImageData_valid by exact E. apply stack_ok_call.
  destruct Hok as (_ & q & EM & Hq & Hq' & Hl).
  split; [intros _; exact Hc |].
  exists q. repeat split; auto. cbn. now apply length_pushed.
Qed.

Lemma stack_ok_revoke b : stack_ok b -> stack_ok (_revoke b).
Proof.
  intros Hok. unfold _revoke.
  destruct (ctx b) as [c |] eqn:Ec; [| exact Hok].
  destruct (pop (revokeStack b)) as [[e rest] |] eqn:Ep; [| exact Hok].
  apply pop_Some in Ep. apply stack_ok_call.
  destruct Hok as (_ & q & EM & Hq & Hq' & Hl).
  unfold on_ctx. cbn. rewrite Ec. split; [cbn; congruence |].
  exists q. cbn. repeat split; auto.
  rewrite Ep, length_app in Hl. cbn in Hl. lia.
Qed.

Lemma stack_ok_fresh b : stack_ok b -> stack_ok (fresh_revokeStack b).
Proof.
  intros (_ & q & EM & Hq & Hq' & _). split; [now cbn |].
  exists q. cbn. repeat split; auto. now apply Qceiling_pos.
Qed.

Lemma stack_ok_drawBg_spread img b :
  stack_ok b -> stack_ok (state_of (_drawBg_spread img b)).
Proof.
  intros Hok. unfold _drawBg_spread. destruct (originalSize b) as [[w h] |]; cbn.
  - eapply stack_ok_core; [apply core_drawBg | exact Hok].
  - exact Hok.
Qed.

Lemma stack_ok_rotate d b : stack_ok b -> stack_ok (state_of (rotate d b)).
Proof.
  intros Hok. unfold rotate. case_match; [exact Hok |].
  match goal with
  | |- context [_drawBg_spread ?i ?s] =>
      assert (Hs : stack_ok s)
        by (eapply stack_ok_core; [apply core_setSize | exact Hok]);
      pose proof (stack_ok_drawBg_spread i s Hs) as Hd;
      destruct (_drawBg_spread i s) as [b3 | b3]
  end; cbn in *; [| exact Hd].
  apply stack_ok_fresh. exact Hd.
Qed.

Lemma stack_ok_clear b : stack_ok b -> stack_ok (state_of (clear b)).
Proof.
  intros Hok. unfold clear.
  destruct (ctx b) as [c |] eqn:Ec; [| exact Hok].
  destruct (el b) as [i |] eqn:Ee; [| exact Hok].
  match goal with
  | |- context [_saveImageData ?t ?n ?d b] =>
      assert (Hs : stack_ok (_saveImageData t n d b))
        by (apply stack_ok_save; [congruence | exact Hok]);
      set (b1 := _saveImageData t n d b) in *
  end.
  assert (H3 : stack_ok (set_paintCount 0 (on_ctx (clearRect (width b1) (height b1)) b1)))
    by (destruct (core_fields _ _ (core_on_ctx (clearRect (width b1) (height b1)) b1))
          as (E1 & E2 & E3 & _);
        apply (stack_ok_frame b1); cbn; auto).
  cbv zeta. case_match; [now apply stack_ok_drawBg_spread | exact H3].
Qed.

Lemma stack_ok_mount b : stack_ok b -> stack_ok (mount b).
Proof.
  intros Hok. unfold mount.
  eapply stack_ok_core; [apply core_bindCurModeEvents |].
  eapply stack_ok_core; [apply core_setClassName |].
  eapply stack_ok_core; [apply core_setDOMSize |].
  destruct Hok as (Hc & Hm).
  destruct (el b) as [i |] eqn:Ee; destruct (ctx b) as [c |] eqn:Ec; cbn;
    rewrite ?Ee, ?Ec; cbn; (split; [cbn; rewrite ?Ec; try congruence | exact Hm]).
  all: intros Hne; specialize (Hc Hne); congruence.
Qed.

Lemma stack_ok_destory b : stack_ok b -> stack_ok (state_of (destory b)).
Proof. intros Hok. unfold destory. now case_match. Qed.

(** What [_init] leaves in the fields of the history. *)
Lemma init_history opts b :
  revokeStack (_init opts b) = [] /\
  revokeStackId (_init opts b) = S (revokeStackId b) /\
  ctx (_init opts b) = ctx b /\
  paintCount (_init opts b) = 0%nat /\
  MAX_REVOKE_STEPS (_init opts b) =
    _getLawfulMaxRevokeSteps
      (prop (opt_props (spread _defaultOptions opts)) "maxRevokeSteps").
Proof.
  unfold _init. cbv zeta.
  set (o := spread _defaultOptions opts).
  match goal with
  | |- context [setSize ?w ?h (set_options o b)] =>
      destruct (core_fields _ _ (core_setSize w h (set_options o b)))
        as (S1 & S2 & S3 & S4 & S5 & _);
      set (b1 := setSize w h (set_options o b)) in *
  end.
  match goal with
  | |- context [setPenStyle ?c ?w ?s] =>
      destruct (core_fields _ _ (core_setPenStyle c w s))
        as (P1 & P2 & P3 & P4 & P5 & _);
      set (b2 := setPenStyle c w s) in *
  end.
  cbn in P1, P2, P3, P4, P5, S1, S2, S3, S4, S5.
  destruct (truthy (prop (opt_props o) "bgImgURL")); cbn;
    rewrite ?P1, ?P2, ?P3, ?P5, ?S5; auto.
Qed.

Lemma stack_ok_init opts b : stack_ok (_init opts b).
Proof.
  destruct (init_history opts b) as (E1 & _ & _ & _ & E5).
  destruct (lawful_max_range
              (prop (opt_props (spread _defaultOptions opts)) "maxRevokeSteps"))
    as (q & Eq & Hq & Hq').
  split; [now rewrite E1 |].
  exists q. rewrite E5, E1. repeat split; auto. now apply Qceiling_pos.
Qed.

Lemma stack_ok_reInit opts b : stack_ok (reInit opts b).
Proof. apply stack_ok_mount, stack_ok_init. Qed.

Lemma stack_ok_new rect opts : stack_ok (new_DrawingBoard rect opts).
Proof.
  unfold new_DrawingBoard. cbv zeta.
  case_match; [apply stack_ok_mount |]; apply stack_ok_init.
Qed.

Lemma stack_ok_start e b : stack_ok b -> stack_ok (state_of (_handlePointerStart e b)).
Proof.
  intros Hok. unfold _handlePointerStart. cbv zeta.
  match goal with
  | |- context [match lastPoint ?s with _ => _ end] =>
      assert (Hs : stack_ok s); [| set (b3 := s) in * ]
  end.
  { cbn [ctx set_lastPoint set_isPainting].
    destruct (ctx b) eqn:Ec; [| exact Hok].
    apply stack_ok_save; [cbn; congruence | exact Hok]. }
  destruct (lastPoint b3); [| exact Hs]. cbn [state_of].
  repeat (eapply stack_ok_core; [apply core_bindCurModeEvents |]).
  eapply stack_ok_core; [apply core_drawCircle | exact Hs].
Qed.

Lemma stack_ok_move e b : stack_ok b -> stack_ok (state_of (_handlePointerMove e b)).
Proof.
  intros Hok. unfold _handlePointerMove.
  destruct (isPainting b); cbn [negb state_of]; [| exact Hok].
  destruct (_getPointOffset e) as [p |]; [| exact Hok].
  destruct (lastPoint b) as [l |]; cbn [state_of]; [| exact Hok].
  destruct (core_fields _ _ (core_drawLine (pt_x l) (pt_y l) (pt_x p) (pt_y p)
                               (penWidth b) (penColor b) b)) as (E1 & E2 & E3 & _).
  apply (stack_ok_frame b); cbn; auto.
Qed.

Lemma stack_ok_end e b : stack_ok b -> stack_ok (state_of (_handlePointerEnd e b)).
Proof.
  intros Hok. unfold _handlePointerEnd. cbv zeta. cbn [state_of].
  repeat (eapply stack_ok_core; [apply core_cleanCurModeEvents |]).
  apply stack_ok_call_paint. exact Hok.
Qed.

Lemma stack_ok_handler h e b :
  stack_ok b -> stack_ok (state_of (call_handler h e b)).
Proof.
  intros Hok. destruct h; cbn [call_handler].
  - now apply stack_ok_start.
  - now apply stack_ok_move.
  - now apply stack_ok_end.
  - unfold _handlePointerLeave. case_match; [now apply stack_ok_end | exact Hok].
  - unfold _handlePointerCancel. case_match; [now apply stack_ok_end | exact Hok].
Qed.

Lemma stack_ok_dispatch name e b : stack_ok b -> stack_ok (dispatch name e b).
Proof.
  unfold dispatch. generalize (listeners b). intros ls. revert b.
  induction ls as [| [n f] ls IH]; intros b Hok; cbn [fold_left]; [exact Hok |].
  apply IH. destruct f as [g h | i]; [| exact Hok].
  case_match; [now apply stack_ok_handler | exact Hok].
Qed.

Lemma stack_ok_step op b : stack_ok b -> stack_ok (step op b).
Proof.
  intros Hok. destruct op; cbn [step].
  - now apply stack_ok_mount.
  - eapply stack_ok_core; [apply core_setSize | exact Hok].
  - eapply stack_ok_core; [apply core_setClassName | exact Hok].
  - eapply stack_ok_core; [apply core_setPenStyle | exact Hok].
  - eapply stack_ok_core; [apply core_setBgImg | exact Hok].
  - now apply stack_ok_rotate.
  - now apply stack_ok_clear.
  - now apply stack_ok_revoke.
  - apply stack_ok_reInit.
  - now apply stack_ok_destory.
  - now apply stack_ok_dispatch.
  - eapply stack_ok_core; [apply core_load_resolved | exact Hok].
  - eapply stack_ok_core; [apply core_load_rejected | exact Hok].
Qed.

(** Every board a program can hold keeps the stack within its bound. *)
Lemma reachable_stack_ok b : reachable b -> stack_ok b.
Proof.
  induction 1 as [rect opts | op b _ IH].
  - apply stack_ok_new.
  - now apply stack_ok_step.
Qed.
End BoardFacts.

(** * The specification against the code *)

(** ** The pure helpers *)

Lemma lawful_max_cases (steps : JsVal) :
  _getLawfulMaxRevokeSteps steps = clamp_steps steps.
Proof.
  destruct steps as [| | | n | | |]; try reflexivity.
  unfold _getLawfulMaxRevokeSteps, clamp_steps, LIMIT_MAX_REVOKE_STEPS.
  destruct n as [| [|] | q]; try reflexivity.
  cbn [num_le num_isNaN num_gt num_lt num orb]. rewrite orb_false_r.
  unfold Qltb. now destruct (Qle_bool q (inject_Z 0)).
Qed.

(** C6 as the specification words it fails: one half is a positive number,
    it is kept as it is, and it is not in the range from 1 to 50. *)
Lemma max_steps_not_clamped_to_1 :
  _getLawfulMaxRevokeSteps (VNum (Fin (1 # 2))) = Fin (1 # 2) /\
  in_1_50 (_getLawfulMaxRevokeSteps (VNum (Fin (1 # 2)))) = false.
Proof. split; reflexivity. Qed.

(** C6, as amended.  The effective maximum is a number greater than 0 and at
    most 50: a value that is not a number greater than 0 (among them 0, -5,
    the string "abc" and NaN) gives 10, a number above 50 (among them 999)
    gives 50, and every other number, whole or not, is kept unchanged. *)
Theorem lawful_max_revoke_steps (steps : JsVal) :
  (exists q, _getLawfulMaxRevokeSteps steps = Fin q /\ (0 < q)%Q /\ (q <= 50)%Q) /\
  _getLawfulMaxRevokeSteps steps = clamp_steps steps /\
  _getLawfulMaxRevokeSteps (VNum (num 0)) = num 10 /\
  _getLawfulMaxRevokeSteps (VNum (num (-5))) = num 10 /\
  _getLawfulMaxRevokeSteps (VStr "abc") = num 10 /\
  _getLawfulMaxRevokeSteps (VNum NaN) = num 10 /\
  _getLawfulMaxRevokeSteps (VNum (num 999)) = num 50.
Proof.
  split; [apply lawful_max_range |].
  split; [apply lawful_max_cases |].
  repeat apply conj; reflexivity.
Qed.

(** C7.  On every finite number the normalisation is idempotent, and it
    sends -90 to 270, 450 to 90, 10 to 0 and 55 to 90. *)
Theorem normalize_angle_idempotent (q : Q) :
  (exists r, _getLawfulRotateAngle (VNum (Fin q)) = Some r /\
             _getLawfulRotateAngle (VNum r) = Some r) /\
  _getLawfulRotateAngle (VNum (num (-90))) = Some (num 270) /\
  _getLawfulRotateAngle (VNum (num 450)) = Some (num 90) /\
  _getLawfulRotateAngle (VNum (num 10)) = Some (num 0) /\
  _getLawfulRotateAngle (VNum (num 55)) = Some (num 90).
Proof.
  split.
  - destruct (angle_of_finite q) as (j & Hj & E).
    exists (num (90 * j)). split; [exact E | now apply angle_of_quarter].
  - repeat apply conj; reflexivity.
Qed.

(** The parts of C8 that hold: a value that is not a number, and NaN, give
    [undefined]; a finite number gives a multiple of 90 from 0 up to 270. *)
Lemma normalize_angle_not_a_number (v : JsVal) :
  typeof v <> "number" -> _getLawfulRotateAngle v = None.
Proof. destruct v; cbn; congruence. Qed.

Lemma normalize_angle_NaN : _getLawfulRotateAngle (VNum NaN) = None.
Proof. reflexivity. Qed.

Lemma normalize_angle_finite (q : Q) :
  exists j, 0 <= j <= 3 /\
    _getLawfulRotateAngle (VNum (Fin q)) = Some (num (90 * j)).
Proof. apply angle_of_finite. Qed.

(** C8 at the infinities: they are numbers and are not NaN, so the first
    line lets them through, the remainder by 360 is NaN, and the function
    returns NaN where the claim has [undefined]. *)
Theorem normalize_angle_infinity :
  _getLawfulRotateAngle (VNum (Inf false)) = Some NaN /\
  _getLawfulRotateAngle (VNum (Inf true)) = Some NaN.
Proof. split; reflexivity. Qed.

(** ** The pen *)

Lemma lawful_pen_color_spec (color : JsVal) :
  lawful_pen_color color = non_empty_string color.
Proof. now destruct color. Qed.

Lemma lawful_pen_width_spec (w : JsVal) :
  lawful_pen_width w = positive_number w.
Proof.
  destruct w as [| | | n | | |]; try reflexivity.
  destruct n as [| [|] | q]; try reflexivity.
  cbn. rewrite andb_true_r.
  destruct (Qltb (inject_Z 0) q) eqn:E; [| apply andb_false_r].
  apply Qltb_true in E. rewrite andb_true_r. apply negb_true_iff.
  apply not_true_iff_false. rewrite Qeq_bool_iff. intros E0.
  rewrite E0 in E. now apply (Qlt_irrefl 0).
Qed.

(** C9 as the specification words it fails: positive infinity is not a
    finite number, and [setPenStyle] takes it as the pen width. *)
Lemma pen_width_accepts_infinity :
  positive_finite_number (VNum (Inf false)) = false /\
  penWidth plain_board = VNum (num 6) /\
  penWidth (setPenStyle VUndefined (VNum (Inf false)) plain_board)
  = VNum (Inf false).
Proof. repeat apply conj; vm_compute; reflexivity. Qed.

(** C9, as amended.  [setPenStyle] replaces the pen color exactly when
    [color] is a string that is not empty, and the pen width exactly when
    [width] is a number greater than 0, positive infinity included; a field
    whose argument fails the test keeps its value, and the call always
    returns. *)
Theorem setPenStyle_spec `{Canvas2D} (b : Board) (color w : JsVal) :
  penColor (setPenStyle color w b)
  = (if non_empty_string color then color else penColor b) /\
  penWidth (setPenStyle color w b)
  = (if positive_number w then w else penWidth b).
Proof.
  unfold setPenStyle.
  rewrite lawful_pen_color_spec, lawful_pen_width_spec.
  destruct (non_empty_string color), (positive_number w); split; reflexivity.
Qed.

(** ** Binding *)

(** The filter never sees the pointer type: the condition carries it under
    the key [pointerType], the filter reads the key [mode]. *)
Lemma getEventItems_ignores_pointerType
    (eventList : list (gmap string JsVal)) (pointerType pointerType' action : JsVal) :
  _getEventItems eventList (condition_of pointerType action)
  = _getEventItems eventList (condition_of pointerType' action).
Proof. reflexivity. Qed.

(** C4 on the code: in each of the three modes, mounting binds the start
    handler to [mousedown] and to [touchstart]. *)
Theorem mount_binds_both_families :
  listeners (board_in_mode "mouse")
  = [("mousedown", Bound 1 HStart); ("touchstart", Bound 1 HStart)] /\
  listeners (board_in_mode "touch")
  = [("mousedown", Bound 1 HStart); ("touchstart", Bound 1 HStart)] /\
  listeners (board_in_mode "both")
  = [("mousedown", Bound 1 HStart); ("touchstart", Bound 1 HStart)].
Proof. repeat apply conj; vm_compute; reflexivity. Qed.

(** ** Rotation without a background *)

(** C10 on the code: on a board that never had a background, with one entry
    in the stack and a callback registered, [rotate(1)] raises at the spread
    of [this.originalSize]; the stack and the paint count stay as they
    were. *)
Theorem rotate_without_background_keeps_stack :
  originalSize watched_board = None /\
  onRevokeStackChange watched_board = VFun (UserFn 0) /\
  length (revokeStack watched_board) = 1%nat /\
  returned (@rotate PlainHost MarkCanvas (VNum (num 1)) watched_board) = false /\
  revokeStack (state_of (@rotate PlainHost MarkCanvas (VNum (num 1)) watched_board))
  = revokeStack watched_board /\
  paintCount (state_of (@rotate PlainHost MarkCanvas (VNum (num 1)) watched_board))
  = 1%nat.
Proof. repeat apply conj; vm_compute; reflexivity. Qed.

(** ** Counterexamples on boards *)

(** C2 as the specification words it fails: with [maxRevokeSteps: 0.5] the
    first snapshot makes the stack one entry long. *)
Lemma half_board_exceeds_max :
  @reachable PlainHost MarkCanvas half_board /\
  MAX_REVOKE_STEPS half_board = Fin (1 # 2) /\
  length (revokeStack half_board) = 1%nat /\
  ~ within_max half_board.
Proof.
  split; [apply (reach_step (H := PlainHost)), reach_new |].
  split; [vm_compute; reflexivity |].
  split; [vm_compute; reflexivity |].
  unfold within_max. vm_compute. discriminate.
Qed.

(** C5 as the specification words it fails: with [size: [0, 100]] the
    stored width is never set; the four rotations return, and leave the
    width at 100. *)
Lemma narrow_board_not_restored :
  @reachable PlainHost MarkCanvas narrow_board /\
  bgImgRotate narrow_board = Some (num 0) /\
  width narrow_board = VUndefined /\
  height narrow_board = VNum (num 100) /\
  @run_raises PlainHost MarkCanvas (four_rotations (VNum (num 1))) narrow_board
  = false /\
  bgImgRotate (@rotate4 PlainHost MarkCanvas (VNum (num 1)) narrow_board)
  = Some (num 0) /\
  width (@rotate4 PlainHost MarkCanvas (VNum (num 1)) narrow_board)
  = VNum (num 100).
Proof.
  split; [apply (reach_step (H := PlainHost)), reach_new |].
  repeat apply conj; vm_compute; reflexivity.
Qed.

(** ** Undo *)

Section Undo.

Context `{Host} `{Canvas2D}.

Lemma reachable_run ops b : reachable b -> reachable (run ops b).
Proof.
  unfold run. revert b. induction ops as [| op ops IH]; intros b Hb; cbn.
  - exact Hb.
  - apply IH. now apply reach_step.
Qed.

Lemma on_ctx_bitmap f b c :
  ctx b = Some c ->
  ctx (on_ctx f b) = Some c /\ bitmap c (on_ctx f b) = f (bitmap c b).
Proof.
  intros Ec. unfold on_ctx. rewrite Ec. cbn. split; [exact Ec |].
  unfold bitmap, upd. cbn. now rewrite Nat.eqb_refl.
Qed.

Lemma call_cases b :
  call_onRevokeStackChange b = b \/
  exists n, call_onRevokeStackChange b = set_notices n b.
Proof. unfold call_onRevokeStackChange. repeat case_match; eauto. Qed.

(** A pop on a board with a context: the entry leaves the stack, its
    snapshot is written to the surface, its count becomes the paint count. *)
Lemma revoke_pop b c rest e :
  ctx b = Some c -> revokeStack b = rest ++ [e] ->
  revokeStack (_revoke b) = rest /\
  ctx (_revoke b) = Some c /\
  bitmap c (_revoke b) = putImageData (he_imageData e) (bitmap c b) /\
  paintCount (_revoke b) = he_paintCount e.
Proof.
  intros Ec Es. unfold _revoke. rewrite Ec, Es, pop_snoc.
  destruct (on_ctx_bitmap (putImageData (he_imageData e)) (set_revokeStack rest b) c Ec)
    as (C1 & C2).
  destruct (core_fields _ _ (core_on_ctx (putImageData (he_imageData e))
                               (set_revokeStack rest b))) as (F1 & _).
  cbn in F1.
  match goal with
  | |- context [call_onRevokeStackChange ?s] =>
      destruct (call_cases s) as [-> | [n ->]]
  end; cbn; unfold bitmap in *; cbn; auto.
Qed.

Lemma revoke_empty b : revokeStack b = [] -> _revoke b = b.
Proof. intros Es. unfold _revoke. rewrite Es. now case_match. Qed.

(** C1.  On every board a program can hold, [revoke()] on a stack that is
    not empty removes its last entry, writes the snapshot of that entry to
    the surface and sets [paintCount] to the count stored in it; on an empty
    stack it changes nothing. *)
Theorem revoke_spec (b : Board) :
  reachable b ->
  (forall rest e, revokeStack b = rest ++ [e] ->
     exists c, ctx b = Some c /\
       revokeStack (revoke b) = rest /\
       surface (revoke b) = Some (putImageData (he_imageData e) (bitmap c b)) /\
       paintCount (revoke b) = he_paintCount e) /\
  (revokeStack b = [] -> revoke b = b).
Proof.
  intros Hr. split; [| apply revoke_empty].
  intros rest e Es.
  destruct (reachable_stack_ok b Hr) as (Hc & _).
  destruct (ctx b) as [c |] eqn:Ec.
  - exists c. split; [reflexivity |].
    destruct (revoke_pop b c rest e Ec Es) as (R1 & R2 & R3 & R4).
    unfold revoke, surface. rewrite R2, R3. auto.
  - exfalso. apply Hc; [| reflexivity]. rewrite Es. now destruct rest.
Qed.

Lemma drawBg_bitmap `{!Canvas2DLaws} img w h b c :
  ctx b = Some c ->
  ctx (_drawBg img w h b) = Some c /\
  same_size (bitmap c b) (bitmap c (_drawBg img w h b)).
Proof.
  intros Ec. unfold _drawBg. case_match.
  - split; [exact Ec | apply same_size_refl].
  - match goal with
    | |- context [on_ctx ?f b] => destruct (on_ctx_bitmap f b c Ec) as (-> & ->)
    end.
    split; [reflexivity | apply drawImage_size].
Qed.

(** The board [clear()] leaves when it has a context and an element. *)
Lemma clear_state `{!Canvas2DLaws} b c :
  ctx b = Some c -> el b <> None ->
  let e := entry_of (VStr "clear") (paintCount b)
             (getImageData (width b) (height b) (bitmap c b)) in
  ctx (state_of (clear b)) = Some c /\
  revokeStack (state_of (clear b)) = pushed b e /\
  same_size (bitmap c b) (bitmap c (state_of (clear b))).
Proof.
  intros Ec Ee e. unfold clear. rewrite Ec.
  destruct (el b) as [i |]; [| contradiction].
  rewrite saveImageData_valid by reflexivity.
  change (default_arg (VStr "clear") (VStr "paint")) with (VStr "clear").
  fold e. cbv zeta.
  set (b1 := call_onRevokeStackChange (set_revokeStack (pushed b e) b)).
  assert (B1 : ctx b1 = Some c /\ revokeStack b1 = pushed b e /\
               bitmap c b1 = bitmap c b).
  { unfold b1. destruct (call_cases (set_revokeStack (pushed b e) b))
      as [-> | [n ->]]; cbn; auto. }
  destruct B1 as (C1 & S1 & P1).
  set (f := clearRect (width b1) (height b1)).
  destruct (on_ctx_bitmap f b1 c C1) as (C2 & P2).
  destruct (core_fields _ _ (core_on_ctx f b1)) as (S2 & _).
  set (b3 := set_paintCount 0 (on_ctx f b1)).
  assert (B3 : ctx b3 = Some c /\ revokeStack b3 = pushed b e /\
               same_size (bitmap c b) (bitmap c b3)).
  { unfold b3. cbn. split; [exact C2 |]. split; [congruence |].
    change (bitmap c (set_paintCount 0 (on_ctx f b1))) with (bitmap c (on_ctx f b1)).
    rewrite P2, P1. apply clearRect_size. }
  destruct B3 as (C3 & S3 & P3).
  destruct (truthy (_bgImgObject b3)); [| cbn [state_of]; auto].
  unfold _drawBg_spread.
  destruct (originalSize b3) as [[w h] |]; cbn [state_of]; [| auto].
  destruct (drawBg_bitmap (_bgImgObject b3) w h b3 c C3) as (C4 & P4).
  destruct (core_fields _ _ (core_drawBg (_bgImgObject b3) w h b3)) as (S4 & _).
  split; [exact C4 |]. split; [now rewrite S4 |].
  eapply same_size_trans; eauto.
Qed.


End Undo.

(** ** The bound of the stack *)

Section Bound.

Context `{Host} `{Canvas2D}.

Lemma saveImageData_stack type count imageData b :
  includes [VStr "paint"; VStr "clear"] (default_arg type (VStr "paint")) = true ->
  revokeStack (_saveImageData type (Some count) (Some imageData) b)
  = pushed b (entry_of (default_arg type (VStr "paint")) count imageData).
Proof.
  intros E. rewrite saveImageData_valid by exact E.
  match goal with
  | |- context [call_onRevokeStackChange ?s] =>
      destruct (call_cases s) as [-> | [n ->]]
  end; reflexivity.
Qed.

(** C2, as amended.  On every board a program can hold the maximum is a
    positive number [q] and the stack has at most as many entries as [q]
    rounded up to a whole number, hence at most [q] when [q] is whole.  A
    push on a stack with [q] entries or more drops the entry at index 0 and
    appends the new one after the others in their order; a push on a shorter
    stack appends only. *)
Theorem revoke_stack_bounded (b : Board) :
  reachable b ->
  exists q, MAX_REVOKE_STEPS b = Fin q /\ (0 < q)%Q /\
    0 <= Z.of_nat (length (revokeStack b)) <= Qceiling q /\
    (forall m : Z, (q == inject_Z m)%Q -> within_max b) /\
    forall type count imageData,
      includes [VStr "paint"; VStr "clear"] (default_arg type (VStr "paint")) = true ->
      let e := entry_of (default_arg type (VStr "paint")) count imageData in
      let after := revokeStack (_saveImageData type (Some count) (Some imageData) b) in
      ((q <= inject_Z (Z.of_nat (length (revokeStack b))))%Q ->
       after = tail (revokeStack b) ++ [e]) /\
      ((inject_Z (Z.of_nat (length (revokeStack b))) < q)%Q ->
       after = revokeStack b ++ [e]).
Proof.
  intros Hr. destruct (reachable_stack_ok b Hr) as (_ & q & Eq & Hq & _ & Hl).
  exists q. split; [exact Eq |]. split; [exact Hq |]. split; [lia |]. split.
  - intros m Em. unfold within_max. rewrite Eq. cbn [num_le num].
    apply Qle_bool_iff. rewrite Em.
    rewrite (Qceiling_comp _ _ Em), Qceiling_Z in Hl.
    now rewrite <- Zle_Qle.
  - intros type count imageData E e after. subst after.
    rewrite saveImageData_stack by exact E. fold e.
    unfold pushed, shift. rewrite Eq. cbn [num_ge num_le num]. split; intros Hc.
    + apply Qle_bool_iff in Hc. now rewrite Hc.
    + apply Qle_bool_false in Hc. now rewrite Hc.
Qed.

End Bound.

(** ** Rotation *)

Section Rotation.

Context `{Host} `{Canvas2D}.

Lemma shape_on_el f b :
  width (on_el f b) = width b /\ height (on_el f b) = height b /\
  bgImgRotate (on_el f b) = bgImgRotate b /\
  originalSize (on_el f b) = originalSize b.
Proof. unfold on_el. now case_match. Qed.

Lemma shape_on_ctx f b :
  width (on_ctx f b) = width b /\ height (on_ctx f b) = height b /\
  bgImgRotate (on_ctx f b) = bgImgRotate b /\
  originalSize (on_ctx f b) = originalSize b.
Proof. unfold on_ctx. now case_match. Qed.

Lemma shape_drawBg img w h b :
  width (_drawBg img w h b) = width b /\ height (_drawBg img w h b) = height b /\
  bgImgRotate (_drawBg img w h b) = bgImgRotate b /\
  originalSize (_drawBg img w h b) = originalSize b.
Proof.
  unfold _drawBg. case_match; [auto |].
  match goal with
  | |- context [on_ctx ?f b] => destruct (shape_on_ctx f b) as (-> & -> & -> & ->)
  end. auto.
Qed.

Lemma shape_setDOMSize w h b :
  width (_setDOMSize w h b) = width b /\ height (_setDOMSize w h b) = height b /\
  bgImgRotate (_setDOMSize w h b) = bgImgRotate b /\
  originalSize (_setDOMSize w h b) = originalSize b.
Proof.
  unfold _setDOMSize.
  repeat case_match;
    repeat match goal with
      | |- context [on_el ?f ?s] =>
          destruct (shape_on_el f s) as (-> & -> & -> & ->)
      end; auto.
Qed.

(** [setSize] stores a value that is truthy and keeps the field otherwise. *)
Lemma setSize_shape w h b :
  width (setSize w h b) = (if truthy w then w else width b) /\
  height (setSize w h b) = (if truthy h then h else height b) /\
  bgImgRotate (setSize w h b) = bgImgRotate b /\
  originalSize (setSize w h b) = originalSize b.
Proof.
  unfold setSize.
  match goal with
  | |- context [_setDOMSize w h ?s] =>
      destruct (shape_setDOMSize w h s) as (-> & -> & -> & ->)
  end.
  destruct (truthy w), (truthy h); auto.
Qed.

Lemma includes_direction (d : Z) :
  d = 1 \/ d = -1 ->
  includes [VNum (num 1); VNum (num (-1))] (VNum (num d)) = true.
Proof. intros [-> | ->]; reflexivity. Qed.

(** One call of [rotate] in a lawful direction, whether it returns or
    raises: the rotation is turned, and the stored sides are exchanged where
    the incoming side is truthy. *)
Lemma rotate_shape d b :
  d = 1 \/ d = -1 ->
  let b' := state_of (rotate (VNum (num d)) b) in
  bgImgRotate b' = turned d (bgImgRotate b) /\
  width b' = (if truthy (height b) then height b else width b) /\
  height b' = (if truthy (width b) then width b else height b).
Proof.
  intros Hd. unfold rotate. cbv zeta.
  change (default_arg (VNum (num d)) (VNum (num 1))) with (VNum (num d)).
  rewrite (includes_direction d Hd). cbn [negb].
  change (ToNumber (VNum (num d))) with (num d). fold (turned d (bgImgRotate b)).
  set (b1 := set_bgImgRotate (turned d (bgImgRotate b)) b).
  destruct (setSize_shape (height b1) (width b1) b1) as (W & Hh & R & _).
  set (b2 := setSize (height b1) (width b1) b1) in *.
  change (width b1) with (width b) in *. change (height b1) with (height b) in *.
  change (bgImgRotate b1) with (turned d (bgImgRotate b)) in R.
  unfold _drawBg_spread. destruct (originalSize b2) as [[w h] |]; cbn [state_of].
  - destruct (shape_drawBg (_bgImgObject b2) w h b2) as (W' & H' & R' & _).
    cbn. rewrite W', H', R'. auto.
  - auto.
Qed.

(** With [originalSize] assigned the call returns and keeps it. *)
Lemma rotate_returns d b :
  d = 1 \/ d = -1 -> originalSize b <> None ->
  returned (rotate (VNum (num d)) b) = true /\
  originalSize (state_of (rotate (VNum (num d)) b)) <> None.
Proof.
  intros Hd Ho. unfold rotate. cbv zeta.
  change (default_arg (VNum (num d)) (VNum (num 1))) with (VNum (num d)).
  rewrite (includes_direction d Hd). cbn [negb].
  match goal with
  | |- context [setSize ?x ?y ?s] =>
      destruct (setSize_shape x y s) as (_ & _ & _ & So);
      set (b2 := setSize x y s) in *
  end.
  cbn in So. unfold _drawBg_spread.
  destruct (originalSize b2) as [[w h] |] eqn:E2; [| congruence].
  destruct (shape_drawBg (_bgImgObject b2) w h b2) as (_ & _ & _ & O').
  cbn. rewrite O', E2. split; [reflexivity | discriminate].
Qed.

Lemma turned_four_times (d r : Z) :
  d = 1 \/ d = -1 -> r = 0 \/ r = 90 \/ r = 180 \/ r = 270 ->
  turned d (turned d (turned d (turned d (Some (num r))))) = Some (num r).
Proof.
  intros [-> | ->] [-> | [-> | [-> | ->]]]; vm_compute; reflexivity.
Qed.

(** C5, as amended.  From a rotation of 0, 90, 180 or 270 and a stored
    width and height that are both truthy or both not, four calls of
    [rotate] in one lawful direction bring the rotation, the width and the
    height back to what they were.  The state is the one each call leaves;
    on a board whose [originalSize] has been assigned none of the four calls
    raises. *)
Theorem four_rotations_restore (b : Board) (d r : Z) :
  d = 1 \/ d = -1 ->
  r = 0 \/ r = 90 \/ r = 180 \/ r = 270 ->
  bgImgRotate b = Some (num r) ->
  truthy (width b) = truthy (height b) ->
  bgImgRotate (rotate4 (VNum (num d)) b) = bgImgRotate b /\
  width (rotate4 (VNum (num d)) b) = width b /\
  height (rotate4 (VNum (num d)) b) = height b /\
  (originalSize b <> None ->
   run_raises (four_rotations (VNum (num d))) b = false).
Proof.
  intros Hd Hr Er Et. unfold rotate4, run, four_rotations.
  cbn [fold_left step run_raises raises].
  set (b1 := state_of (rotate (VNum (num d)) b)).
  set (b2 := state_of (rotate (VNum (num d)) b1)).
  set (b3 := state_of (rotate (VNum (num d)) b2)).
  destruct (rotate_shape d b3 Hd) as (R4 & W4 & H4).
  destruct (rotate_shape d b2 Hd) as (R3 & W3 & H3).
  destruct (rotate_shape d b1 Hd) as (R2 & W2 & H2).
  destruct (rotate_shape d b Hd) as (R1 & W1 & H1).
  fold b1 in R1, W1, H1. fold b2 in R2, W2, H2. fold b3 in R3, W3, H3.
  split; [rewrite R4, R3, R2, R1, Er; now apply turned_four_times |].
  assert (WH : width (state_of (rotate (VNum (num d)) b3)) = width b /\
               height (state_of (rotate (VNum (num d)) b3)) = height b).
  { destruct (truthy (width b)) eqn:Tw; symmetry in Et;
      rewrite ?Et in W1;
      rewrite ?W1, ?H1, ?Et, ?Tw in W2, H2;
      rewrite ?W2, ?H2, ?Et, ?Tw in W3, H3;
      rewrite ?W3, ?H3, ?Et, ?Tw in W4, H4;
      rewrite W4, H4; repeat rewrite ?W1, ?H1, ?W2, ?H2, ?W3, ?H3;
      rewrite ?Tw, ?Et; auto. }
  destruct WH as (Wf & Hf). split; [exact Wf |]. split; [exact Hf |].
  intros O0.
  destruct (rotate_returns d b Hd O0) as (Q1 & O1). fold b1 in O1.
  destruct (rotate_returns d b1 Hd O1) as (Q2 & O2). fold b2 in O2.
  destruct (rotate_returns d b2 Hd O2) as (Q3 & O3). fold b3 in O3.
  destruct (rotate_returns d b3 Hd O3) as (Q4 & _).
  now rewrite Q1, Q2, Q3, Q4.
Qed.

End Rotation.

(** ** Notices *)

Section Notices.

Context `{Host} `{Canvas2D}.

(** A push calls the callback, when there is one, with the array and what
    it holds after the push. *)
Lemma saveImageData_notifies type count imageData f b :
  includes [VStr "paint"; VStr "clear"] (default_arg type (VStr "paint")) = true ->
  onRevokeStackChange b = VFun f ->
  notices (_saveImageData type (Some count) (Some imageData) b)
  = notices b ++
    [RevokeStackChange f (revokeStackId b)
       (pushed b (entry_of (default_arg type (VStr "paint")) count imageData))].
Proof.
  intros E Ef. rewrite saveImageData_valid by exact E.
  unfold call_onRevokeStackChange. cbn. now rewrite Ef.
Qed.

(** So does a pop. *)
Lemma revoke_notifies b c rest e f :
  ctx b = Some c -> revokeStack b = rest ++ [e] ->
  onRevokeStackChange b = VFun f ->
  notices (_revoke b) = notices b ++ [RevokeStackChange f (revokeStackId b) rest].
Proof.
  intros Ec Es Ef. unfold _revoke. rewrite Ec, Es, pop_snoc.
  unfold call_onRevokeStackChange, on_ctx. cbn. rewrite Ec. cbn. now rewrite Ef.
Qed.

(** Once a background has set [originalSize], [rotate] in a lawful
    direction returns, leaves an empty array that was not there before, and
    calls nothing. *)
Lemma rotate_with_background d w h b :
  d = 1 \/ d = -1 -> originalSize b = Some (w, h) ->
  exists b', rotate (VNum (num d)) b = Returned b' /\
    revokeStack b' = [] /\ revokeStackId b' = S (revokeStackId b) /\
    paintCount b' = 0%nat /\ notices b' = notices b.
Proof.
  intros Hd Eo. unfold rotate. cbv zeta.
  change (default_arg (VNum (num d)) (VNum (num 1))) with (VNum (num d)).
  rewrite (includes_direction d Hd). cbn [negb].
  match goal with
  | |- context [setSize ?x ?y ?s] =>
      destruct (setSize_shape x y s) as (_ & _ & _ & So);
      destruct (core_fields _ _ (core_setSize x y s)) as (_ & _ & _ & _ & Si & Sn & _);
      set (b2 := setSize x y s) in *
  end.
  cbn in So, Si, Sn. unfold _drawBg_spread. rewrite So, Eo.
  destruct (core_fields _ _ (core_drawBg (_bgImgObject b2) w h b2))
    as (_ & _ & _ & _ & Di & Dn & _).
  eexists. split; [reflexivity |]. cbn. rewrite Di, Dn, Si, Sn. auto.
Qed.

End Notices.

(** ** The theorems on the boards above *)

Lemma MarkCanvas_laws : @Canvas2DLaws MarkCanvas.
Proof. split; cbn; auto. Qed.

Lemma stroked_board_reachable : @reachable PlainHost MarkCanvas stroked_board.
Proof. apply reachable_run, reach_new. Qed.

Lemma revoke_spec_witness :
  @reachable PlainHost MarkCanvas stroked_board /\
  revokeStack stroked_board
  = [@entry_of MarkCanvas (VStr "paint") 0 (@nil Mark)] /\
  revokeStack (revoke stroked_board) = [] /\
  surface (revoke stroked_board) = Some (@nil Mark) /\
  paintCount (revoke stroked_board) = 0%nat.
Proof.
  split; [exact stroked_board_reachable |].
  assert (Es : revokeStack stroked_board
               = [] ++ [@entry_of MarkCanvas (VStr "paint") 0 (@nil Mark)])
    by (vm_compute; reflexivity).
  split; [exact Es |].
  destruct (@revoke_spec PlainHost MarkCanvas stroked_board stroked_board_reachable)
    as [Hpop _].
  destruct (Hpop [] _ Es) as (c & Ec & R1 & R2 & R3).
  split; [exact R1 |]. split; [exact R2 | exact R3].
Defined.

Lemma revoke_stack_bounded_witness :
  @reachable PlainHost MarkCanvas stroked_board /\
  MAX_REVOKE_STEPS stroked_board = num 10 /\
  within_max stroked_board.
Proof.
  split; [exact stroked_board_reachable |].
  assert (Em : MAX_REVOKE_STEPS stroked_board = num 10) by (vm_compute; reflexivity).
  split; [exact Em |].
  destruct (@revoke_stack_bounded PlainHost MarkCanvas stroked_board
              stroked_board_reachable) as (q & Eq & _ & _ & Hw & _).
  apply (Hw 10). rewrite Em in Eq. injection Eq as <-. reflexivity.
Defined.


Lemma four_rotations_restore_witness :
  bgImgRotate plain_board = Some (num 0) /\
  truthy (width plain_board) = truthy (height plain_board) /\
  bgImgRotate (@rotate4 PlainHost MarkCanvas (VNum (num 1)) plain_board)
  = bgImgRotate plain_board /\
  width (@rotate4 PlainHost MarkCanvas (VNum (num 1)) plain_board)
  = width plain_board /\
  height (@rotate4 PlainHost MarkCanvas (VNum (num 1)) plain_board)
  = height plain_board.
Proof.
  assert (Er : bgImgRotate plain_board = Some (num 0)) by (vm_compute; reflexivity).
  assert (Et : truthy (width plain_board) = truthy (height plain_board))
    by (vm_compute; reflexivity).
  split; [exact Er |]. split; [exact Et |].
  destruct (@four_rotations_restore PlainHost MarkCanvas plain_board 1 0)
    as (R & W & Hh & _);
    [left; reflexivity | left; reflexivity | exact Er | exact Et |].
  split; [exact R |]. split; [exact W | exact Hh].
Defined.

(** * More of the board

    ** What drawing and undo leave alone *)

Section Drawn.

Context `{Host} `{Canvas2D}.

Lemma drawn_refl b : drawn b b.
Proof. exists (canvases b), (notices b), (revokeStack b), (lastPoint b),
         (isPainting b), (paintCount b). now destruct b. Qed.

Lemma drawn_trans b1 b2 b3 : drawn b1 b2 -> drawn b2 b3 -> drawn b1 b3.
Proof.
  intros (cs & ns & st & lp & ip & pc & ->) (cs' & ns' & st' & lp' & ip' & pc' & ->).
  now exists cs', ns', st', lp', ip', pc'.
Qed.

Lemma drawn_set_canvases cs b : drawn b (set_canvases cs b).
Proof. now exists cs, (notices b), (revokeStack b), (lastPoint b),
         (isPainting b), (paintCount b). Qed.

Lemma drawn_set_notices ns b : drawn b (set_notices ns b).
Proof. now exists (canvases b), ns, (revokeStack b), (lastPoint b),
         (isPainting b), (paintCount b). Qed.

Lemma drawn_set_revokeStack st b : drawn b (set_revokeStack st b).
Proof. now exists (canvases b), (notices b), st, (lastPoint b),
         (isPainting b), (paintCount b). Qed.

Lemma drawn_set_lastPoint lp b : drawn b (set_lastPoint lp b).
Proof. now exists (canvases b), (notices b), (revokeStack b), lp,
         (isPainting b), (paintCount b). Qed.

Lemma drawn_set_isPainting ip b : drawn b (set_isPainting ip b).
Proof. now exists (canvases b), (notices b), (revokeStack b), (lastPoint b),
         ip, (paintCount b). Qed.

Lemma drawn_set_paintCount pc b : drawn b (set_paintCount pc b).
Proof. now exists (canvases b), (notices b), (revokeStack b), (lastPoint b),
         (isPainting b), pc. Qed.

(** The fields outside the six are the same on both sides. *)
Lemma drawn_fields b b' :
  drawn b b' ->
  options b' = options b /\ width b' = width b /\ height b' = height b /\
  revokeStackId b' = revokeStackId b /\
  MAX_REVOKE_STEPS b' = MAX_REVOKE_STEPS b /\
  interactiveMode b' = interactiveMode b /\ bindings b' = bindings b /\
  eventList b' = eventList b /\ penColor b' = penColor b /\
  penWidth b' = penWidth b /\ bgImgRotate b' = bgImgRotate b /\
  _bgImgObject b' = _bgImgObject b /\ originalSize b' = originalSize b /\
  onRevokeStackChange b' = onRevokeStackChange b /\
  onPaintEnd b' = onPaintEnd b /\ el b' = el b /\ ctx b' = ctx b /\
  nextCanvas b' = nextCanvas b /\ pending b' = pending b.
Proof. intros (cs & ns & st & lp & ip & pc & ->). cbn. auto 20. Qed.

Lemma drawn_on_el f b : drawn b (on_el f b).
Proof. unfold on_el. case_match; [apply drawn_set_canvases | apply drawn_refl]. Qed.

Lemma drawn_on_ctx f b : drawn b (on_ctx f b).
Proof. unfold on_ctx. case_match; [apply drawn_set_canvases | apply drawn_refl]. Qed.

Lemma drawn_setDOMSize w h b : drawn b (_setDOMSize w h b).
Proof.
  unfold _setDOMSize.
  repeat case_match;
    repeat (eapply drawn_trans; [| apply drawn_on_el]); apply drawn_refl.
Qed.

Lemma drawn_setClassName n b : drawn b (setClassName n b).
Proof. unfold setClassName. case_match; [apply drawn_refl | apply drawn_on_el]. Qed.

Lemma drawn_cleanCurModeEvents a b : drawn b (_cleanCurModeEvents a b).
Proof.
  unfold _cleanCurModeEvents, _cleanEvent.
  case_match; [apply drawn_on_el | apply drawn_refl].
Qed.

Lemma drawn_bindCurModeEvents a b : drawn b (_bindCurModeEvents a b).
Proof.
  unfold _bindCurModeEvents, _bindEvent. case_match; [| apply drawn_refl].
  eapply drawn_trans; [apply drawn_cleanCurModeEvents | apply drawn_on_el].
Qed.

Lemma drawn_call b : drawn b (call_onRevokeStackChange b).
Proof.
  unfold call_onRevokeStackChange.
  repeat case_match; first [apply drawn_refl | apply drawn_set_notices].
Qed.

Lemma drawn_call_paint b : drawn b (call_onPaintEnd b).
Proof.
  unfold call_onPaintEnd.
  repeat case_match; first [apply drawn_refl | apply drawn_set_notices].
Qed.

Lemma drawn_save type count imageData b :
  drawn b (_saveImageData type count imageData b).
Proof.
  unfold _saveImageData.
  repeat case_match; try apply drawn_refl;
    (eapply drawn_trans; [| apply drawn_call]);
    (eapply drawn_trans; [| apply drawn_set_revokeStack]);
    first [apply drawn_set_revokeStack | apply drawn_refl].
Qed.

Lemma drawn_revoke b : drawn b (_revoke b).
Proof.
  unfold _revoke. repeat case_match; try apply drawn_refl.
  eapply drawn_trans; [| apply drawn_call].
  eapply drawn_trans; [| apply drawn_set_paintCount].
  eapply drawn_trans; [| apply drawn_on_ctx].
  apply drawn_set_revokeStack.
Qed.

Lemma drawn_drawBg img w h b : drawn b (_drawBg img w h b).
Proof. unfold _drawBg. case_match; [apply drawn_refl | apply drawn_on_ctx]. Qed.

Lemma drawn_drawBg_spread img b : drawn b (state_of (_drawBg_spread img b)).
Proof.
  unfold _drawBg_spread. destruct (originalSize b) as [[w h] |]; cbn.
  - apply drawn_drawBg.
  - apply drawn_refl.
Qed.

Lemma drawn_start e b : drawn b (state_of (_handlePointerStart e b)).
Proof.
  unfold _handlePointerStart. cbv zeta.
  match goal with
  | |- context [match lastPoint ?s with _ => _ end] =>
      assert (D : drawn b s); [| destruct (lastPoint s) ]
  end.
  - cbn [ctx set_lastPoint set_isPainting].
    assert (D0 : drawn b (set_lastPoint (_getPointOffset e) (set_isPainting true b)))
      by (eapply drawn_trans; [apply drawn_set_isPainting | apply drawn_set_lastPoint]).
    destruct (ctx b); [| exact D0].
    eapply drawn_trans; [exact D0 | apply drawn_save].
  - cbn [state_of].
    repeat (eapply drawn_trans; [| apply drawn_bindCurModeEvents]).
    eapply drawn_trans; [exact D | apply drawn_on_ctx].
  - exact D.
Qed.

Lemma drawn_move e b : drawn b (state_of (_handlePointerMove e b)).
Proof.
  unfold _handlePointerMove.
  destruct (isPainting b); cbn [negb state_of]; [| apply drawn_refl].
  destruct (_getPointOffset e) as [p |]; [| apply drawn_refl].
  destruct (lastPoint b) as [l |]; cbn [state_of]; [| apply drawn_refl].
  eapply drawn_trans; [apply drawn_on_ctx | apply drawn_set_lastPoint].
Qed.

Lemma drawn_end e b : drawn b (state_of (_handlePointerEnd e b)).
Proof.
  unfold _handlePointerEnd. cbv zeta. cbn [state_of].
  repeat (eapply drawn_trans; [| apply drawn_cleanCurModeEvents]).
  eapply drawn_trans; [| apply drawn_call_paint].
  eapply drawn_trans; [apply drawn_set_isPainting | apply drawn_set_paintCount].
Qed.

Lemma drawn_handler h e b : drawn b (state_of (call_handler h e b)).
Proof.
  destruct h; cbn [call_handler].
  - apply drawn_start.
  - apply drawn_move.
  - apply drawn_end.
  - unfold _handlePointerLeave. case_match; [apply drawn_end | apply drawn_refl].
  - unfold _handlePointerCancel. case_match; [apply drawn_end | apply drawn_refl].
Qed.

Lemma drawn_dispatch name e b : drawn b (dispatch name e b).
Proof.
  unfold dispatch. generalize (listeners b) at 1. intros ls.
  assert (G : forall b0, drawn b b0 ->
            drawn b (fold_left
              (fun acc l =>
                 match l with
                 | (n, Bound _ h) =>
                     if String.eqb n name then state_of (call_handler h e acc) else acc
                 | (_, UserFn _) => acc
                 end) ls b0)).
  { induction ls as [| [n f] ls IH]; intros b0 D; cbn [fold_left]; [exact D |].
    apply IH. destruct f as [g h | i]; [| exact D].
    case_match; [| exact D].
    eapply drawn_trans; [exact D | apply drawn_handler]. }
  apply G, drawn_refl.
Qed.

Lemma drawn_clear b : drawn b (state_of (clear b)).
Proof.
  unfold clear. repeat case_match; try apply drawn_refl.
  - eapply drawn_trans; [| apply drawn_drawBg_spread].
    eapply drawn_trans; [| apply drawn_set_paintCount].
    eapply drawn_trans; [apply drawn_save | apply drawn_on_ctx].
  - cbn [state_of].
    eapply drawn_trans; [| apply drawn_set_paintCount].
    eapply drawn_trans; [apply drawn_save | apply drawn_on_ctx].
Qed.

Lemma drawn_moves es b : drawn b (moves es b).
Proof.
  unfold moves. revert b. induction es as [| e es IH]; intros b; cbn [fold_left].
  - apply drawn_refl.
  - eapply drawn_trans; [apply drawn_move | apply IH].
Qed.

End Drawn.

(** ** What each operation writes *)

Section Forms.

Context `{Host} `{Canvas2D}.

Lemma set_width_same b : set_width (width b) b = b.
Proof. now destruct b. Qed.

Lemma set_height_same b : set_height (height b) b = b.
Proof. now destruct b. Qed.

Lemma set_penColor_same b : set_penColor (penColor b) b = b.
Proof. now destruct b. Qed.

Lemma set_penWidth_same b : set_penWidth (penWidth b) b = b.
Proof. now destruct b. Qed.

Lemma set_revokeStackId_same b : set_revokeStackId (revokeStackId b) b = b.
Proof. now destruct b. Qed.

Lemma drawn_under_revokeStackId id b b' :
  drawn b b' -> drawn (set_revokeStackId id b) (set_revokeStackId id b').
Proof.
  intros (cs & ns & st & lp & ip & pc & ->).
  now exists cs, ns, st, lp, ip, pc.
Qed.

(** [setSize] writes the two sides, and the element. *)
Lemma setSize_form w h b :
  drawn (set_height (if truthy h then h else height b)
           (set_width (if truthy w then w else width b) b))
        (setSize w h b).
Proof.
  unfold setSize. eapply drawn_trans; [| apply drawn_setDOMSize].
  destruct (truthy w), (truthy h); rewrite ?set_width_same, ?set_height_same;
    apply drawn_refl.
Qed.

(** [setPenStyle] writes the two fields of the pen and nothing else. *)
Lemma setPenStyle_form color w b :
  setPenStyle color w b
  = set_penWidth (if lawful_pen_width w then w else penWidth b)
      (set_penColor (if lawful_pen_color color then color else penColor b) b).
Proof.
  unfold setPenStyle.
  destruct (lawful_pen_color color), (lawful_pen_width w);
    rewrite ?set_penColor_same, ?set_penWidth_same; reflexivity.
Qed.

(** [mount] writes [el], [ctx] and the canvases: an element is made only
    when there is none, and the context is taken only when there is none. *)
Lemma mount_form b :
  let i := match el b with Some i => i | None => nextCanvas b end in
  drawn (set_ctx (match ctx b with Some c => Some c | None => Some i end)
           (set_el (Some i)
              (set_nextCanvas
                 (match el b with Some _ => nextCanvas b | None => S (nextCanvas b) end)
                 b)))
        (mount b).
Proof.
  intros i. unfold mount. cbv zeta.
  eapply drawn_trans; [| apply drawn_bindCurModeEvents].
  eapply drawn_trans; [| apply drawn_setClassName].
  eapply drawn_trans; [| apply drawn_setDOMSize].
  subst i. destruct (el b) as [i |] eqn:Ee; destruct (ctx b) as [c |] eqn:Ec;
    cbn; rewrite ?Ee, ?Ec; cbn.
  - destruct b. cbn in *. subst. apply drawn_refl.
  - destruct b. cbn in *. subst. apply drawn_refl.
  - exists (upd (nextCanvas b) (fun _ => _makeCanvas) (canvases b)), (notices b),
      (revokeStack b), (lastPoint b), (isPainting b), (paintCount b).
    destruct b. cbn in *. subst. reflexivity.
  - exists (upd (nextCanvas b) (fun _ => _makeCanvas) (canvases b)), (notices b),
      (revokeStack b), (lastPoint b), (isPainting b), (paintCount b).
    reflexivity.
Qed.

(** [rotate] in a direction other than 1 and -1 changes nothing; otherwise
    it writes the rotation and the two sides, and, when it returns, the
    count and a new stack. *)
Lemma rotate_form d b :
  let direction := default_arg d (VNum (num 1)) in
  if includes [VNum (num 1); VNum (num (-1))] direction then
    exists id,
      drawn (set_revokeStackId id
               (set_height (if truthy (width b) then width b else height b)
                  (set_width (if truthy (height b) then height b else width b)
                     (set_bgImgRotate
                        (_getLawfulRotateAngle
                           (VNum (num_add
                                    (match bgImgRotate b with Some r => r | None => NaN end)
                                    (num_mul (ToNumber direction) (num 90)))))
                        b))))
            (state_of (rotate d b))
  else rotate d b = Returned b.
Proof.
  intros direction. unfold rotate. fold direction.
  destruct (includes _ direction); cbn [negb]; [| reflexivity].
  cbv zeta.
  match goal with
  | |- context [setSize ?x ?y ?s] =>
      pose proof (setSize_form x y s) as F; set (b2 := setSize x y s) in *
  end.
  cbn [width height set_bgImgRotate] in F.
  unfold _drawBg_spread. destruct (originalSize b2) as [[w h] |]; cbn [state_of].
  - exists (S (revokeStackId b)).
    destruct (drawn_fields _ _ F) as (_ & _ & _ & Ei & _). cbn in Ei.
    assert (D : drawn b2 (_drawBg (_bgImgObject b2) w h b2)) by apply drawn_drawBg.
    destruct (drawn_fields _ _ D) as (_ & _ & _ & Ei' & _).
    unfold fresh_revokeStack. cbn [revokeStackId set_revokeStack set_paintCount].
    rewrite Ei', Ei. apply drawn_under_revokeStackId.
    eapply drawn_trans; [exact F |].
    eapply drawn_trans; [exact D |].
    eapply drawn_trans; [apply drawn_set_paintCount | apply drawn_set_revokeStack].
  - exists (revokeStackId b).
    match type of F with
    | drawn ?T _ =>
        change (revokeStackId b) with (revokeStackId T);
        rewrite (set_revokeStackId_same T)
    end.
    exact F.
Qed.

Lemma destory_form b :
  state_of (destory b) = b \/
  state_of (destory b) = set_bgImgObject VNull (set_el None b).
Proof. unfold destory. case_match; auto. Qed.

Lemma load_rejected_form i b :
  load_rejected i b = b \/
  exists ps, load_rejected i b = set_bgImgObject VNull (set_pending ps b).
Proof. unfold load_rejected. case_match; eauto. Qed.

(** A load that resolves stores the picture together with a size. *)
Lemma load_resolved_form i image b :
  load_resolved i image b = b \/
  (exists ps, load_resolved i image b = set_bgImgObject VNull (set_pending ps b)) \/
  exists ps size,
    drawn (set_originalSize (Some size)
             (set_bgImgObject (VObj (img_obj image)) (set_pending ps b)))
          (load_resolved i image b).
Proof.
  unfold load_resolved. destruct (pending b !! i) as [p |] eqn:Ep; [| auto].
  destruct (load_rejected_form i b) as [R | R].
  - repeat case_match; auto; right; right; eexists _, _; apply drawn_drawBg.
  - repeat case_match; auto; right; right; eexists _, _; apply drawn_drawBg.
Qed.

(** [setBgImg] with an address to load only queues the load; otherwise it
    stores the object, unless the very same is stored already, together
    with a size. *)
Lemma setBgImg_form u ow oh b :
  (exists ps, setBgImg u ow oh b = set_pending ps b) \/
  exists o,
    (o = u \/ o = _bgImgObject b) /\
    drawn (set_originalSize
             (Some (js_or ow (width b), js_or oh (height b)))
             (set_bgImgObject o b))
          (setBgImg u ow oh b).
Proof.
  assert (D : exists o,
             (o = u \/ o = _bgImgObject b) /\
             drawn (set_originalSize
                      (Some (js_or ow (width b), js_or oh (height b)))
                      (set_bgImgObject o b))
                   (let b1 :=
                      if negb (strict_eq u (_bgImgObject b))
                      then set_bgImgObject u b else b in
                    let ow' := js_or ow (width b1) in
                    let oh' := js_or oh (height b1) in
                    let b2 := set_originalSize (Some (ow', oh')) b1 in
                    _drawBg u ow' oh' b2)).
  { cbv zeta. destruct (strict_eq u (_bgImgObject b)); cbn [negb].
    - exists (_bgImgObject b). split; [auto |].
      eapply drawn_trans; [| apply drawn_drawBg].
      destruct b. apply drawn_refl.
    - exists u. split; [auto |].
      eapply drawn_trans; [| apply drawn_drawBg]. apply drawn_refl. }
  cbv zeta in D. unfold setBgImg. cbv zeta.
  destruct u as [| | | | s | |]; try (right; exact D).
  destruct (url_test s); [left; eauto | right; exact D].
Qed.

End Forms.

(** ** What every board keeps *)

Ltac fields :=
  cbn [container options width height manualMount revokeStack revokeStackId
       MAX_REVOKE_STEPS lastPoint isPainting interactiveMode bindings
       eventList penColor penWidth bgImgURL bgColor bgImgRotate className
       _bgImgObject originalSize onRevokeStackChange onPaintEnd paintCount el
       ctx canvases nextCanvas pending notices set_options set_width
       set_height set_manualMount set_revokeStack set_revokeStackId
       set_MAX_REVOKE_STEPS set_lastPoint set_isPainting set_interactiveMode
       set_bindings set_eventList set_penColor set_penWidth set_bgImgURL
       set_bgColor set_bgImgRotate set_className set_bgImgObject
       set_originalSize set_onRevokeStackChange set_onPaintEnd set_paintCount
       set_el set_ctx set_canvases set_nextCanvas set_pending set_notices
       fresh_revokeStack].

Ltac fields_in H :=
  cbn [container options width height manualMount revokeStack revokeStackId
       MAX_REVOKE_STEPS lastPoint isPainting interactiveMode bindings
       eventList penColor penWidth bgImgURL bgColor bgImgRotate className
       _bgImgObject originalSize onRevokeStackChange onPaintEnd paintCount el
       ctx canvases nextCanvas pending notices set_options set_width
       set_height set_manualMount set_revokeStack set_revokeStackId
       set_MAX_REVOKE_STEPS set_lastPoint set_isPainting set_interactiveMode
       set_bindings set_eventList set_penColor set_penWidth set_bgImgURL
       set_bgColor set_bgImgRotate set_className set_bgImgObject
       set_originalSize set_onRevokeStackChange set_onPaintEnd set_paintCount
       set_el set_ctx set_canvases set_nextCanvas set_pending set_notices
       fresh_revokeStack] in H.

Section Kept.

Context `{Host} `{Canvas2D}.

(** The fields [_init] leaves, beside those of the history. *)
Lemma init_fields opts b :
  let o := spread _defaultOptions opts in
  let w := nth 0 (match opt_size o with Some s => s | None => [] end) VUndefined in
  let h := nth 1 (match opt_size o with Some s => s | None => [] end) VUndefined in
  let w' := if nullish w then VNum (fst (container b)) else w in
  let h' := if nullish h then VNum (snd (container b)) else h in
  let b' := _init opts b in
  bgImgRotate b' = _getLawfulRotateAngle (prop (opt_props o) "bgImgRotate") /\
  interactiveMode b'
  = (if includes INTERACTIVE_MODE_ENUM (prop (opt_props o) "interactiveMode")
     then prop (opt_props o) "interactiveMode" else VStr "mouse") /\
  penColor b'
  = (if lawful_pen_color (prop (opt_props o) "penColor")
     then prop (opt_props o) "penColor" else penColor b) /\
  penWidth b'
  = (if lawful_pen_width (prop (opt_props o) "penWidth")
     then prop (opt_props o) "penWidth" else penWidth b) /\
  width b' = (if truthy w' then w' else width b) /\
  height b' = (if truthy h' then h' else height b) /\
  bindings b' = S (bindings b) /\
  eventList b' = event_table (S (bindings b)) /\
  el b' = el b /\ ctx b' = ctx b /\ nextCanvas b' = nextCanvas b /\
  originalSize b' = originalSize b /\
  _bgImgObject b'
  = (if truthy (prop (opt_props o) "bgImgURL") then _bgImgObject b else VNull) /\
  isPainting b' = false.
Proof.
  intros o w h w' h' b'. subst b'. unfold _init. cbv zeta.
  rewrite setPenStyle_form. fields.
  fold o. fold w. fold h. fold w'. fold h'.
  pose proof (drawn_fields _ _ (setSize_form w' h' (set_options o b))) as F.
  fields_in F.
  set (b1 := setSize w' h' (set_options o b)) in *.
  destruct F as (_ & F1 & F2 & _ & _ & _ & F3 & _ & F4 & F5 & _ & F6 & F7 & _ & _ & F8 & F9 & F10 & _).
  destruct (truthy (prop (opt_props o) "bgImgURL")); fields;
    rewrite ?F1, ?F2, ?F3, ?F4, ?F5, ?F6, ?F7, ?F8, ?F9, ?F10;
    repeat apply conj; reflexivity.
Qed.

Lemma lawful_rotation_angle v : lawful_rotation (_getLawfulRotateAngle v).
Proof.
  destruct v as [| | | n | | |]; try (left; reflexivity).
  destruct n as [| neg | q].
  - left. reflexivity.
  - right. left. now destruct neg.
  - right. right. apply angle_of_finite.
Qed.

Lemma unset_or_truthy_if (v old : JsVal) :
  unset_or_truthy old -> unset_or_truthy (if truthy v then v else old).
Proof. intros Ho. destruct (truthy v) eqn:E; [right; exact E | exact Ho]. Qed.

Lemma pen_color_if (v old : JsVal) :
  old = VUndefined \/ non_empty_string old = true ->
  let new := if lawful_pen_color v then v else old in
  new = VUndefined \/ non_empty_string new = true.
Proof.
  intros Ho. cbv zeta. rewrite lawful_pen_color_spec.
  destruct (non_empty_string v) eqn:E; auto.
Qed.

Lemma pen_width_if (v old : JsVal) :
  old = VUndefined \/ positive_number old = true ->
  let new := if lawful_pen_width v then v else old in
  new = VUndefined \/ positive_number new = true.
Proof.
  intros Ho. cbv zeta. rewrite lawful_pen_width_spec.
  destruct (positive_number v) eqn:E; auto.
Qed.

Lemma setup_ok_drawn b b' : drawn b b' -> setup_ok b -> setup_ok b'.
Proof.
  intros D. destruct (drawn_fields _ _ D)
    as (_ & E1 & E2 & _ & _ & E3 & E4 & E5 & E6 & E7 & E8 & _).
  unfold setup_ok. now rewrite E1, E2, E3, E4, E5, E6, E7, E8.
Qed.

Lemma backdrop_ok_drawn b b' : drawn b b' -> backdrop_ok b -> backdrop_ok b'.
Proof.
  intros D. destruct (drawn_fields _ _ D)
    as (_ & _ & _ & _ & _ & _ & _ & _ & _ & _ & _ & E1 & E2 & _).
  unfold backdrop_ok. now rewrite E1, E2.
Qed.

Lemma canvases_ok_drawn b b' : drawn b b' -> canvases_ok b -> canvases_ok b'.
Proof.
  intros D. destruct (drawn_fields _ _ D)
    as (_ & _ & _ & _ & _ & _ & _ & _ & _ & _ & _ & _ & _ & _ & _ & E1 & E2 & E3 & _).
  unfold canvases_ok. now rewrite E1, E2, E3.
Qed.

Lemma set_pending_same b : set_pending (pending b) b = b.
Proof. now destruct b. Qed.

(** Every operation is [_init] or not, then one of the writes above, then
    drawing. *)
Lemma step_written op b :
  exists b0 T,
    (b0 = b \/ exists opts, b0 = _init opts b) /\
    written b0 T /\ drawn T (step op b).
Proof.
  destruct op; cbn [step].
  - exists b. eexists. split; [auto |]. split; [apply w_mounted | apply mount_form].
  - exists b. eexists. split; [auto |]. split; [apply (w_size b w h) | apply setSize_form].
  - exists b, b. split; [auto |]. split; [apply w_same | apply drawn_setClassName].
  - exists b. eexists. split; [auto |]. rewrite setPenStyle_form.
    split; [apply (w_pen b color w) | apply drawn_refl].
  - exists b.
    destruct (setBgImg_form urlOrObject originalWidth originalHeight b)
      as [(ps & ->) | (o & _ & D)].
    + exists (set_pending ps b). split; [auto |].
      split; [apply w_pending | apply drawn_refl].
    + eexists. split; [auto |]. split; [| exact D].
      rewrite <- (set_pending_same b) at 2.
      apply (w_background b o _ (pending b)).
  - exists b. pose proof (rotate_form direction b) as F. cbv zeta in F.
    destruct (includes _ _).
    + destruct F as (id & D). eexists. split; [auto |]. split; [| exact D].
      apply w_rotated.
    + rewrite F. exists b. split; [auto |]. split; [apply w_same | apply drawn_refl].
  - exists b, b. split; [auto |]. split; [apply w_same | apply drawn_clear].
  - exists b, b. split; [auto |]. split; [apply w_same | apply drawn_revoke].
  - unfold reInit. eexists _, _. split; [right; eauto |].
    split; [apply w_mounted | apply mount_form].
  - exists b. destruct (destory_form b) as [-> | ->].
    + exists b. split; [auto |]. split; [apply w_same | apply drawn_refl].
    + eexists. split; [auto |]. split; [apply w_destroyed | apply drawn_refl].
  - exists b, b. split; [auto |]. split; [apply w_same | apply drawn_dispatch].
  - exists b. destruct (load_resolved_form i image b) as [-> | [(ps & ->) | (ps & size & D)]].
    + exists b. split; [auto |]. split; [apply w_same | apply drawn_refl].
    + eexists. split; [auto |]. split; [apply w_no_background | apply drawn_refl].
    + eexists. split; [auto |]. split; [| exact D].
      apply (w_background b _ size ps).
  - exists b. destruct (load_rejected_form i b) as [-> | (ps & ->)].
    + exists b. split; [auto |]. split; [apply w_same | apply drawn_refl].
    + eexists. split; [auto |]. split; [apply w_no_background | apply drawn_refl].
Qed.

End Kept.
(** ** Invariants of the stored settings *)

Section Invariants.

Context `{Host} `{Canvas2D}.

Lemma setup_ok_written b T : written b T -> setup_ok b -> setup_ok T.
Proof.
  intros W (R & M & C & Wd & Sw & Sh & E).
  destruct W; unfold setup_ok; fields; repeat apply conj;
    auto using unset_or_truthy_if, lawful_rotation_angle.
  - now apply pen_color_if.
  - now apply pen_width_if.
Qed.

Lemma setup_ok_init opts b :
  (penColor b = VUndefined \/ non_empty_string (penColor b) = true) ->
  (penWidth b = VUndefined \/ positive_number (penWidth b) = true) ->
  unset_or_truthy (width b) -> unset_or_truthy (height b) ->
  setup_ok (_init opts b).
Proof.
  intros C Wd Sw Sh.
  pose proof (init_fields opts b) as F. cbv zeta in F.
  destruct F as (F1 & F2 & F3 & F4 & F5 & F6 & F7 & F8 & _).
  unfold setup_ok. rewrite F1, F2, F3, F4, F5, F6, F7, F8.
  repeat apply conj;
    auto using unset_or_truthy_if, lawful_rotation_angle.
  - destruct (includes INTERACTIVE_MODE_ENUM _) eqn:E; [exact E | reflexivity].
  - now apply pen_color_if.
  - now apply pen_width_if.
Qed.

Lemma backdrop_ok_written b T : written b T -> backdrop_ok b -> backdrop_ok T.
Proof.
  intros W B. destruct W; unfold backdrop_ok in *; fields; auto; discriminate.
Qed.

Lemma backdrop_ok_init opts b : backdrop_ok b -> backdrop_ok (_init opts b).
Proof.
  intros B. pose proof (init_fields opts b) as F. cbv zeta in F.
  destruct F as (_ & _ & _ & _ & _ & _ & _ & _ & _ & _ & _ & F1 & F2 & _).
  unfold backdrop_ok in *. rewrite F1, F2.
  destruct (truthy (prop _ "bgImgURL")); [exact B | discriminate].
Qed.

Lemma canvases_ok_written b T : written b T -> canvases_ok b -> canvases_ok T.
Proof.
  intros W (E & C). destruct W; unfold canvases_ok; fields; auto.
  - split; [discriminate | exact C].
  - destruct (el b) as [i |] eqn:Ee, (ctx b) as [c |] eqn:Ec; split; intros k [= <-];
      try specialize (E _ eq_refl); try specialize (C _ eq_refl); lia.
Qed.

Lemma canvases_ok_init opts b : canvases_ok b -> canvases_ok (_init opts b).
Proof.
  intros B. pose proof (init_fields opts b) as F. cbv zeta in F.
  destruct F as (_ & _ & _ & _ & _ & _ & _ & _ & F1 & F2 & F3 & _).
  unfold canvases_ok in *. now rewrite F1, F2, F3.
Qed.

Lemma originalSize_written b T :
  written b T -> originalSize b <> None -> originalSize T <> None.
Proof. intros W B. destruct W; fields; auto; discriminate. Qed.

Lemma ctx_written b T c : written b T -> ctx b = Some c -> ctx T = Some c.
Proof. intros W B. destruct W; fields; auto. now rewrite B. Qed.

Lemma uninitialised_kept rect opts :
  let b := _init opts (uninitialised rect) in
  setup_ok b /\ backdrop_ok b /\ canvases_ok b.
Proof.
  cbv zeta. split; [| split].
  - apply setup_ok_init; (left; reflexivity).
  - apply backdrop_ok_init. intros T. discriminate.
  - apply canvases_ok_init. split; intros k E; discriminate.
Qed.

Lemma written_kept b T :
  written b T ->
  setup_ok b /\ backdrop_ok b /\ canvases_ok b ->
  setup_ok T /\ backdrop_ok T /\ canvases_ok T.
Proof.
  intros W (S1 & S2 & S3).
  split; [| split];
    eauto using setup_ok_written, backdrop_ok_written, canvases_ok_written.
Qed.

Lemma drawn_kept b b' :
  drawn b b' ->
  setup_ok b /\ backdrop_ok b /\ canvases_ok b ->
  setup_ok b' /\ backdrop_ok b' /\ canvases_ok b'.
Proof.
  intros D (S1 & S2 & S3).
  split; [| split];
    eauto using setup_ok_drawn, backdrop_ok_drawn, canvases_ok_drawn.
Qed.

Lemma init_kept opts b :
  setup_ok b /\ backdrop_ok b /\ canvases_ok b ->
  setup_ok (_init opts b) /\ backdrop_ok (_init opts b) /\
  canvases_ok (_init opts b).
Proof.
  intros ((_ & _ & C & Wd & Sw & Sh & _) & S2 & S3).
  split; [| split];
    auto using setup_ok_init, backdrop_ok_init, canvases_ok_init.
Qed.

(** The three invariants, on every board a program can hold. *)
Lemma reachable_kept b :
  reachable b -> setup_ok b /\ backdrop_ok b /\ canvases_ok b.
Proof.
  induction 1 as [rect opts | op b R IH].
  - unfold new_DrawingBoard. cbv zeta.
    pose proof (uninitialised_kept rect opts) as K. cbv zeta in K.
    destruct (negb _); [| exact K].
    eapply drawn_kept; [apply mount_form |].
    eapply written_kept; [apply w_mounted | exact K].
  - destruct (step_written op b) as (b0 & T & [-> | (o & ->)] & W & D).
    + eapply drawn_kept; [exact D |]. eapply written_kept; eauto.
    + eapply drawn_kept; [exact D |]. eapply written_kept; [exact W |].
      now apply init_kept.
Qed.

End Invariants.

(** ** Settings, background and canvases over a whole run *)

Section Settings.

Context `{Host} `{Canvas2D}.

(** [clear()] with a background object that has its size. *)
Lemma clear_returns_when_sized b : backdrop_ok b -> returned (clear b) = true.
Proof.
  intros B. unfold clear. destruct (ctx b) as [c |]; [| reflexivity].
  destruct (el b); [| reflexivity]. cbv zeta.
  match goal with
  | |- context [truthy (_bgImgObject ?s)] =>
      assert (D : drawn b s); [| set (b3 := s) in * ]
  end.
  { eapply drawn_trans; [| apply drawn_set_paintCount].
    eapply drawn_trans; [apply drawn_save | apply drawn_on_ctx]. }
  pose proof (backdrop_ok_drawn _ _ D B) as B3. unfold backdrop_ok in B3.
  destruct (truthy (_bgImgObject b3)); [| reflexivity].
  unfold _drawBg_spread. destruct (originalSize b3) as [[w h] |]; [reflexivity |].
  now destruct B3.
Qed.

(** [rotate] in a lawful direction, by whether a background size is
    stored. *)
Lemma rotate_cases d b :
  includes [VNum (num 1); VNum (num (-1))] (default_arg d (VNum (num 1))) = true ->
  exists b',
    rotate d b
    = (match originalSize b with Some _ => Returned b' | None => Threw b' end) /\
    originalSize b' = originalSize b /\
    notices b' = notices b /\
    match originalSize b with
    | Some _ =>
        revokeStack b' = [] /\ paintCount b' = 0%nat /\
        revokeStackId b' = S (revokeStackId b)
    | None =>
        revokeStack b' = revokeStack b /\ paintCount b' = paintCount b /\
        revokeStackId b' = revokeStackId b
    end.
Proof.
  intros Hd. unfold rotate. cbv zeta. rewrite Hd. cbn [negb].
  match goal with
  | |- context [setSize ?x ?y ?s] =>
      destruct (setSize_shape x y s) as (_ & _ & _ & So);
      pose proof (core_setSize x y s) as Ec;
      set (b2 := setSize x y s) in *
  end.
  apply core_fields in Ec as (E1 & _ & _ & E2 & E3 & E4 & _).
  fields_in So. fields_in E1. fields_in E2. fields_in E3. fields_in E4.
  unfold _drawBg_spread. rewrite So.
  destruct (originalSize b) as [[w h] |] eqn:Eo.
  - eexists. split; [reflexivity |].
    destruct (shape_drawBg (_bgImgObject b2) w h b2) as (_ & _ & _ & O').
    pose proof (core_drawBg (_bgImgObject b2) w h b2) as Ec.
    apply core_fields in Ec as (_ & _ & _ & _ & F3 & F4 & _).
    fields. rewrite O', F3, F4, So, E3, E4. auto.
  - exists b2. auto 10.
Qed.

(** X1. On every board a program can hold, the stored background rotation is
    undefined, NaN, or one of 0, 90, 180 and 270 ([_init] and [rotate] store
    only what [_getLawfulRotateAngle] returns). *)
Theorem stored_rotation_lawful b :
  reachable b ->
  bgImgRotate b = None \/ bgImgRotate b = Some NaN \/
  exists j, 0 <= j <= 3 /\ bgImgRotate b = Some (num (90 * j)).
Proof. intros R. destruct (reachable_kept b R) as ((L & _) & _). exact L. Qed.

(** X2. On every board a program can hold, the interaction mode is one of
    'mouse', 'touch' and 'both', the pen colour is undefined or a string that
    is not empty, and the pen width is undefined or a number above 0. *)
Theorem stored_pen_and_mode_lawful b :
  reachable b ->
  includes INTERACTIVE_MODE_ENUM (interactiveMode b) = true /\
  (penColor b = VUndefined \/ non_empty_string (penColor b) = true) /\
  (penWidth b = VUndefined \/ positive_number (penWidth b) = true).
Proof.
  intros R. destruct (reachable_kept b R) as ((_ & M & C & W & _) & _). auto.
Qed.

(** X3. On every board a program can hold, the stored width and the stored
    height are each undefined or truthy: [setSize] never stores 0, NaN, null
    or the empty string, through the constructor, [setSize] or [rotate]. *)
Theorem stored_size_unset_or_truthy b :
  reachable b ->
  (width b = VUndefined \/ truthy (width b) = true) /\
  (height b = VUndefined \/ truthy (height b) = true).
Proof.
  intros R. destruct (reachable_kept b R) as ((_ & _ & _ & _ & W & Hh & _) & _).
  auto.
Qed.

(** X4. On every board a program can hold, [clear()] returns (the calls on
    the context being taken to return): whenever a background object is
    stored its size is stored too, so the spread of [this.originalSize]
    inside [clear] never raises. *)
Theorem clear_never_raises b :
  reachable b -> returned (clear b) = true /\ raises OClear b = false.
Proof.
  intros R. destruct (reachable_kept b R) as (_ & B & _).
  pose proof (clear_returns_when_sized b B) as E.
  split; [exact E |]. cbn [raises]. now rewrite E.
Qed.

(** X5. [rotate(direction)] on any board, the calls on the 2D context being
    taken to return.  A direction other than 1 and -1 returns with the board
    as it was.  In a lawful direction the rotation is stored and the sides
    are exchanged where the incoming side is truthy, and no callback is
    invoked.  When no background size is stored the call then raises at the
    spread of [this.originalSize], with the stack and the count as they were.
    When a size is stored and the background is absent or an object the
    context can draw, the call returns, and the stack is a fresh empty array
    and the count is 0; a truthy background that is no image makes
    [drawImage] raise, and nothing is said of that case. *)
Theorem rotate_outcome direction b :
  let r := rotate direction b in
  if includes [VNum (num 1); VNum (num (-1))]
       (default_arg direction (VNum (num 1)))
  then
    notices (state_of r) = notices b /\
    width (state_of r) = (if truthy (height b) then height b else width b) /\
    height (state_of r) = (if truthy (width b) then width b else height b) /\
    match originalSize b with
    | Some _ =>
        drawable (_bgImgObject b) = true ->
        returned r = true /\ revokeStack (state_of r) = [] /\
        paintCount (state_of r) = 0%nat /\
        revokeStackId (state_of r) = S (revokeStackId b)
    | None =>
        returned r = false /\ revokeStack (state_of r) = revokeStack b /\
        paintCount (state_of r) = paintCount b /\
        revokeStackId (state_of r) = revokeStackId b
    end
  else r = Returned b.
Proof.
  cbv zeta. pose proof (rotate_form direction b) as F. cbv zeta in F.
  destruct (includes _ _) eqn:Hd; [| exact F].
  destruct F as (id & D).
  destruct (drawn_fields _ _ D) as (_ & W & Hh & _). fields_in W. fields_in Hh.
  destruct (rotate_cases direction b Hd) as (b' & E & _ & N & C).
  rewrite E in *.
  destruct (originalSize b); cbn [state_of returned] in *; auto 10.
Qed.

(** The background size, once stored, stays. *)
Lemma originalSize_step op b :
  originalSize b <> None -> originalSize (step op b) <> None.
Proof.
  intros O. destruct (step_written op b) as (b0 & T & E & W & D).
  destruct (drawn_fields _ _ D) as (_ & _ & _ & _ & _ & _ & _ & _ & _ & _ & _ & _ & -> & _).
  apply (originalSize_written _ _ W).
  destruct E as [-> | (o & ->)]; [exact O |].
  pose proof (init_fields o b) as F. cbv zeta in F.
  destruct F as (_ & _ & _ & _ & _ & _ & _ & _ & _ & _ & _ & -> & _). exact O.
Qed.

Lemma originalSize_run ops b :
  originalSize b <> None -> originalSize (run ops b) <> None.
Proof.
  unfold run. revert b. induction ops as [| op ops IH]; intros b O; cbn [fold_left].
  - exact O.
  - apply IH, originalSize_step, O.
Qed.

(** X6. Once a background size is stored (by [setBgImg] or a loaded image),
    every later operation keeps one stored, [destory] and [reInit] included,
    so no later [rotate] raises at the spread of [this.originalSize]: the
    calls on the 2D context being taken to return, a later [rotate] returns,
    whatever its argument, whenever the background then stored is absent or
    an object the context can draw. *)
Theorem rotate_safe_once_sized b ops direction :
  originalSize b <> None ->
  originalSize (run ops b) <> None /\
  (drawable (_bgImgObject (run ops b)) = true ->
   returned (rotate direction (run ops b)) = true).
Proof.
  intros O. pose proof (originalSize_run ops b O) as O'.
  split; [exact O' |]. intros _.
  pose proof (rotate_form direction (run ops b)) as F. cbv zeta in F.
  destruct (includes _ _) eqn:Hd; [| now rewrite F].
  destruct (rotate_cases direction (run ops b) Hd) as (b' & E & _).
  rewrite E. destruct (originalSize (run ops b)); [reflexivity | now destruct O'].
Qed.

(** The context is not replaced. *)
Lemma ctx_step op b c : ctx b = Some c -> ctx (step op b) = Some c.
Proof.
  intros O. destruct (step_written op b) as (b0 & T & E & W & D).
  destruct (drawn_fields _ _ D)
    as (_ & _ & _ & _ & _ & _ & _ & _ & _ & _ & _ & _ & _ & _ & _ & _ & -> & _).
  apply (ctx_written _ _ _ W).
  destruct E as [-> | (o & ->)]; [exact O |].
  pose proof (init_fields o b) as F. cbv zeta in F.
  destruct F as (_ & _ & _ & _ & _ & _ & _ & _ & _ & -> & _). exact O.
Qed.

(** X7. The drawing context, once taken by [mount], is never replaced: after
    any sequence of operations, [destory], [mount] and [reInit] included,
    [this.ctx] is the context it was. *)
Theorem context_never_replaced b c ops :
  ctx b = Some c -> ctx (run ops b) = Some c.
Proof.
  unfold run. revert b. induction ops as [| op ops IH]; intros b O; cbn [fold_left].
  - exact O.
  - apply IH, ctx_step, O.
Qed.

(** X8. [destory()] followed by [mount()] puts a new canvas on the page and
    keeps the context of the removed one: [this.el] and [this.ctx] then
    belong to different canvases, and drawing goes to the removed one. *)
Theorem remount_keeps_removed_context b c :
  reachable b -> ctx b = Some c ->
  let b' := mount (state_of (destory b)) in
  ctx b' = Some c /\ el b' = Some (nextCanvas b) /\ nextCanvas b <> c /\
  surface b' = Some (bitmap c b').
Proof.
  intros R Ec. cbv zeta.
  destruct (reachable_kept b R) as (_ & _ & (_ & Cc)).
  specialize (Cc c Ec).
  set (b1 := state_of (destory b)).
  assert (E1 : el b1 = None /\ ctx b1 = Some c /\ nextCanvas b1 = nextCanvas b).
  { unfold b1, destory. destruct (el b) eqn:Ee; cbn [state_of]; fields; auto. }
  destruct E1 as (Ee1 & Ec1 & En1).
  destruct (drawn_fields _ _ (mount_form b1))
    as (_ & _ & _ & _ & _ & _ & _ & _ & _ & _ & _ & _ & _ & _ & _ & Fe & Fc & _).
  fields_in Fe. fields_in Fc. rewrite Ee1, ?Ec1, ?En1 in *.
  unfold surface. rewrite Fc, Fe.
  repeat apply conj; try reflexivity. lia.
Qed.

End Settings.

(** ** Strokes and undo *)

Section StrokeFacts.

Context `{Host} `{Canvas2D}.

Lemma set_canvases_same b : set_canvases (canvases b) b = b.
Proof. now destruct b. Qed.

Lemma set_lastPoint_same b : set_lastPoint (lastPoint b) b = b.
Proof. now destruct b. Qed.

Lemma recanvased_refl b : recanvased b b.
Proof. exists (canvases b). now rewrite set_canvases_same. Qed.

Lemma recanvased_trans b1 b2 b3 :
  recanvased b1 b2 -> recanvased b2 b3 -> recanvased b1 b3.
Proof. intros (cs & ->) (cs' & ->). exists cs'. reflexivity. Qed.

Lemma recanvased_on_el f b : recanvased b (on_el f b).
Proof. unfold on_el. case_match; [eexists; reflexivity | apply recanvased_refl]. Qed.

Lemma recanvased_on_ctx f b : recanvased b (on_ctx f b).
Proof. unfold on_ctx. case_match; [eexists; reflexivity | apply recanvased_refl]. Qed.

Lemma recanvased_clean a b : recanvased b (_cleanCurModeEvents a b).
Proof.
  unfold _cleanCurModeEvents. case_match; [| apply recanvased_refl].
  apply recanvased_on_el.
Qed.

Lemma recanvased_bind a b : recanvased b (_bindCurModeEvents a b).
Proof.
  unfold _bindCurModeEvents. case_match; [| apply recanvased_refl].
  eapply recanvased_trans; [apply recanvased_clean | apply recanvased_on_el].
Qed.

Lemma recanvased_fields b b' :
  recanvased b b' ->
  revokeStack b' = revokeStack b /\ paintCount b' = paintCount b /\
  isPainting b' = isPainting b /\ lastPoint b' = lastPoint b /\
  notices b' = notices b /\ ctx b' = ctx b /\ el b' = el b /\
  width b' = width b /\ height b' = height b /\
  onPaintEnd b' = onPaintEnd b /\ eventList b' = eventList b /\
  interactiveMode b' = interactiveMode b.
Proof. intros (cs & ->). fields. auto 15. Qed.

(** The canvas a listener is put on or taken from keeps its bitmap. *)
Lemma bitmap_listen f b c : bitmap c (on_el (cv_listen f) b) = bitmap c b.
Proof.
  unfold on_el, bitmap. destruct (el b) as [i |]; [| reflexivity].
  fields. unfold upd. now destruct (Nat.eqb c i).
Qed.

Lemma bitmap_clean a b c : bitmap c (_cleanCurModeEvents a b) = bitmap c b.
Proof.
  unfold _cleanCurModeEvents. destruct (el b); [| reflexivity].
  apply bitmap_listen.
Qed.

Lemma bitmap_bind a b c : bitmap c (_bindCurModeEvents a b) = bitmap c b.
Proof.
  unfold _bindCurModeEvents. destruct (el b); [| reflexivity]. cbv zeta.
  unfold _bindEvent. rewrite bitmap_listen. apply bitmap_clean.
Qed.

(** The start handler: the flag, the point and the snapshot, then
    drawing. *)
Lemma start_form e b :
  let b2 := set_lastPoint (_getPointOffset e) (set_isPainting true b) in
  let b3 :=
    match ctx b with
    | Some c =>
        call_onRevokeStackChange
          (set_revokeStack
             (pushed b (entry_of (VStr "paint") (paintCount b)
                          (getImageData (width b) (height b) (bitmap c b)))) b2)
    | None => b2
    end in
  recanvased b3 (state_of (_handlePointerStart e b)).
Proof.
  cbv zeta. unfold _handlePointerStart. cbv zeta. fields.
  destruct (ctx b) as [c |] eqn:Ec.
  - rewrite saveImageData_valid by reflexivity.
    change (default_arg (VStr "paint") (VStr "paint")) with (VStr "paint").
    unfold pushed, bitmap. fields.
    match goal with
    | |- recanvased ?s _ => set (b3 := s); destruct (lastPoint b3)
    end; cbn [state_of]; [| apply recanvased_refl].
    repeat (eapply recanvased_trans; [| apply recanvased_bind]).
    apply recanvased_on_ctx.
  - destruct (_getPointOffset e); cbn [state_of]; [| apply recanvased_refl].
    repeat (eapply recanvased_trans; [| apply recanvased_bind]).
    apply recanvased_on_ctx.
Qed.

Lemma move_form e b :
  exists cs lp,
    state_of (_handlePointerMove e b) = set_canvases cs (set_lastPoint lp b).
Proof.
  assert (Same : exists cs lp, b = set_canvases cs (set_lastPoint lp b)).
  { exists (canvases b), (lastPoint b).
    now rewrite set_lastPoint_same, set_canvases_same. }
  unfold _handlePointerMove.
  destruct (negb (isPainting b)); [exact Same |].
  destruct (_getPointOffset e) as [p |]; [| exact Same].
  destruct (lastPoint b) as [l |]; [| exact Same].
  cbv zeta. cbn [state_of].
  destruct (recanvased_on_ctx
              (strokeLine (pt_x l) (pt_y l) (pt_x p) (pt_y p)
                 (default_arg (penWidth b) (VNum (num 6)))
                 (default_arg (penColor b) (VStr "red"))) b) as (cs & E).
  unfold _drawLine. rewrite E. eexists _, _. reflexivity.
Qed.

Lemma moves_form es b :
  exists cs lp, moves es b = set_canvases cs (set_lastPoint lp b).
Proof.
  unfold moves. revert b. induction es as [| e es IH]; intros b; cbn [fold_left].
  - exists (canvases b), (lastPoint b).
    now rewrite set_lastPoint_same, set_canvases_same.
  - destruct (move_form e b) as (cs & lp & ->).
    destruct (IH (set_canvases cs (set_lastPoint lp b))) as (cs' & lp' & ->).
    exists cs', lp'. reflexivity.
Qed.

Lemma end_form e b :
  recanvased (call_onPaintEnd (set_paintCount (S (paintCount b)) (set_isPainting false b)))
             (state_of (_handlePointerEnd e b)).
Proof.
  unfold _handlePointerEnd. cbv zeta. cbn [state_of]. fields.
  repeat (eapply recanvased_trans; [| apply recanvased_clean]).
  apply recanvased_refl.
Qed.

Lemma call_paint_fields b :
  revokeStack (call_onPaintEnd b) = revokeStack b /\
  paintCount (call_onPaintEnd b) = paintCount b /\
  isPainting (call_onPaintEnd b) = isPainting b /\
  ctx (call_onPaintEnd b) = ctx b /\
  canvases (call_onPaintEnd b) = canvases b /\
  notices (call_onPaintEnd b)
  = match onPaintEnd b with
    | VFun f => notices b ++ [PaintEnd f (paintCount b)]
    | _ => notices b
    end.
Proof. unfold call_onPaintEnd. destruct (onPaintEnd b); fields; auto 10. Qed.

Lemma call_fields b :
  revokeStack (call_onRevokeStackChange b) = revokeStack b /\
  paintCount (call_onRevokeStackChange b) = paintCount b /\
  isPainting (call_onRevokeStackChange b) = isPainting b /\
  ctx (call_onRevokeStackChange b) = ctx b /\
  canvases (call_onRevokeStackChange b) = canvases b /\
  onPaintEnd (call_onRevokeStackChange b) = onPaintEnd b.
Proof.
  unfold call_onRevokeStackChange. destruct (onRevokeStackChange b); fields; auto 10.
Qed.

(** What the start handler leaves of the history. *)
Lemma start_history e b :
  let b' := state_of (_handlePointerStart e b) in
  revokeStack b'
  = match ctx b with
    | Some c =>
        pushed b (entry_of (VStr "paint") (paintCount b)
                    (getImageData (width b) (height b) (bitmap c b)))
    | None => revokeStack b
    end /\
  paintCount b' = paintCount b /\ isPainting b' = true /\ ctx b' = ctx b /\
  onPaintEnd b' = onPaintEnd b.
Proof.
  cbv zeta. pose proof (start_form e b) as F. cbv zeta in F.
  destruct (recanvased_fields _ _ F)
    as (-> & -> & -> & _ & _ & -> & _ & _ & _ & -> & _).
  destruct (ctx b) as [c |] eqn:Ec; [| fields; auto].
  match goal with
  | |- context [call_onRevokeStackChange ?s] =>
      destruct (call_fields s) as (-> & -> & -> & -> & _ & ->)
  end.
  fields. auto.
Qed.

(** What a whole stroke leaves of the history. *)
Lemma stroke_history down es up b :
  let b' := stroke_on down es up b in
  revokeStack b'
  = match ctx b with
    | Some c =>
        pushed b (entry_of (VStr "paint") (paintCount b)
                    (getImageData (width b) (height b) (bitmap c b)))
    | None => revokeStack b
    end /\
  paintCount b' = S (paintCount b) /\ isPainting b' = false /\
  ctx b' = ctx b /\
  forall f, onPaintEnd b = VFun f ->
    exists ns, notices b' = ns ++ [PaintEnd f (S (paintCount b))].
Proof.
  cbv zeta. unfold stroke_on.
  destruct (start_history down b) as (S1 & S2 & _ & S4 & S5).
  set (s1 := state_of (_handlePointerStart down b)) in *.
  destruct (moves_form es s1) as (cs & lp & ->).
  match goal with
  | |- context [_handlePointerEnd up ?s] =>
      pose proof (end_form up s) as F; set (s2 := s) in *
  end.
  destruct (recanvased_fields _ _ F) as (-> & -> & -> & _ & -> & -> & _).
  match goal with
  | |- context [call_onPaintEnd ?s] =>
      destruct (call_paint_fields s) as (-> & -> & -> & -> & _ & ->)
  end.
  unfold s2. fields. rewrite S1, S2, S4, S5.
  repeat apply conj; try reflexivity.
  intros f ->. eexists. reflexivity.
Qed.

(** X9. One stroke (pointer down, any number of moves, pointer up), whatever
    the events carry, on a board whose snapshot rectangle covers the surface
    whenever there is a context, so that [getImageData] returns (the calls on
    the 2D context being taken to return): with a context, exactly one
    snapshot of the surface before the stroke is pushed, holding the count
    before the stroke (the oldest entry is dropped first when the stack is
    full); without a context the stack is untouched.  Either way the count
    goes up by one, the painting flag ends false, and [onPaintEnd], when it
    is a function, is last called with the new count. *)
Theorem stroke_pushes_one_snapshot down es up b :
  (forall c, ctx b = Some c -> spans (width b) (height b) (bitmap c b)) ->
  let b' := stroke_on down es up b in
  revokeStack b'
  = match ctx b with
    | Some c =>
        pushed b (entry_of (VStr "paint") (paintCount b)
                    (getImageData (width b) (height b) (bitmap c b)))
    | None => revokeStack b
    end /\
  paintCount b' = S (paintCount b) /\ isPainting b' = false /\
  forall f, onPaintEnd b = VFun f ->
    exists ns, notices b' = ns ++ [PaintEnd f (S (paintCount b))].
Proof.
  intros _. cbv zeta.
  destruct (stroke_history down es up b) as (S1 & S2 & S3 & _ & S5).
  auto.
Qed.

(** The bitmap keeps its size through a stroke. *)
Lemma start_sized `{!Canvas2DLaws} `{!Canvas2DDrawLaws} e b c :
  ctx b = Some c ->
  same_size (bitmap c b) (bitmap c (state_of (_handlePointerStart e b))).
Proof.
  intros Ec. unfold _handlePointerStart. cbv zeta. fields. rewrite Ec.
  rewrite saveImageData_valid by reflexivity.
  match goal with
  | |- context [call_onRevokeStackChange ?s] =>
      destruct (call_fields s) as (_ & _ & _ & C3 & C4 & _);
      set (b3 := call_onRevokeStackChange s) in *
  end.
  fields_in C3. fields_in C4.
  assert (E3 : bitmap c b3 = bitmap c b) by (unfold bitmap; now rewrite C4).
  destruct (lastPoint b3) as [p |]; cbn [state_of].
  - rewrite !bitmap_bind. unfold _drawCircle.
    match goal with
    | |- context [on_ctx ?f b3] =>
        destruct (on_ctx_bitmap f b3 c) as (_ & ->); [congruence |]
    end.
    rewrite E3. apply fillCircle_size.
  - rewrite E3. apply same_size_refl.
Qed.

Lemma move_sized `{!Canvas2DLaws} `{!Canvas2DDrawLaws} e b c :
  ctx b = Some c ->
  same_size (bitmap c b) (bitmap c (state_of (_handlePointerMove e b))).
Proof.
  intros Ec. unfold _handlePointerMove.
  destruct (negb (isPainting b)); [apply same_size_refl |].
  destruct (_getPointOffset e) as [p |]; [| apply same_size_refl].
  destruct (lastPoint b) as [l |]; [| apply same_size_refl].
  cbv zeta. cbn [state_of]. unfold _drawLine.
  match goal with
  | |- context [on_ctx ?f b] =>
      destruct (on_ctx_bitmap f b c Ec) as (_ & E)
  end.
  unfold bitmap in *. fields. rewrite E. apply strokeLine_size.
Qed.

Lemma moves_sized `{!Canvas2DLaws} `{!Canvas2DDrawLaws} es b c :
  ctx b = Some c -> same_size (bitmap c b) (bitmap c (moves es b)).
Proof.
  unfold moves. revert b. induction es as [| e es IH]; intros b Ec; cbn [fold_left].
  - apply same_size_refl.
  - eapply same_size_trans; [apply (move_sized e b c Ec) |].
    apply IH. destruct (move_form e b) as (cs & lp & ->). exact Ec.
Qed.

Lemma end_bitmap e b c :
  bitmap c (state_of (_handlePointerEnd e b)) = bitmap c b.
Proof.
  unfold _handlePointerEnd. cbv zeta. cbn [state_of]. rewrite !bitmap_clean.
  match goal with
  | |- context [call_onPaintEnd ?s] =>
      destruct (call_paint_fields s) as (_ & _ & _ & _ & C & _)
  end.
  unfold bitmap. rewrite C. reflexivity.
Qed.

Lemma stroke_sized `{!Canvas2DLaws} `{!Canvas2DDrawLaws} down es up b c :
  ctx b = Some c ->
  same_size (bitmap c b) (bitmap c (stroke_on down es up b)).
Proof.
  intros Ec. unfold stroke_on. rewrite end_bitmap.
  eapply same_size_trans; [apply (start_sized down b c Ec) |].
  apply moves_sized.
  destruct (start_history down b) as (_ & _ & _ & -> & _). exact Ec.
Qed.


(** [revoke] called again and again. *)
Lemma revoke_times_empty n b : revokeStack b = [] -> revoke_times n b = b.
Proof.
  intros E. induction n as [| n IH]; [reflexivity |].
  cbn [revoke_times]. unfold revoke. now rewrite (revoke_empty b E).
Qed.

Lemma revoke_times_add n k b :
  revoke_times (n + k) b = revoke_times k (revoke_times n b).
Proof.
  revert b. induction n as [| n IH]; intros b; [reflexivity |].
  cbn [Nat.add revoke_times]. apply IH.
Qed.

Lemma revoke_times_stack l b c :
  ctx b = Some c -> revokeStack b = l ->
  revokeStack (revoke_times (length l) b) = [] /\
  paintCount (revoke_times (length l) b)
  = match l with
    | e :: _ => he_paintCount e
    | [] => paintCount b
    end.
Proof.
  revert b. induction l as [| e rest IH] using rev_ind; intros b Ec Es.
  - cbn [length revoke_times]. auto.
  - rewrite length_app. cbn [length]. rewrite Nat.add_1_r. cbn [revoke_times].
    destruct (revoke_pop b c rest e Ec Es) as (R1 & R2 & _ & R4).
    destruct (IH (revoke b) R2 R1) as (I1 & I2).
    split; [exact I1 |]. rewrite I2.
    destruct rest; [exact R4 | reflexivity].
Qed.

(** X11. On every board a program can hold, calling [revoke()] as many
    times as the stack is long empties the stack and brings the count back to
    the one stored in the oldest entry; further calls change nothing. *)
Theorem revoke_until_empty b n :
  reachable b ->
  (length (revokeStack b) <= n)%nat ->
  revokeStack (revoke_times n b) = [] /\
  paintCount (revoke_times n b)
  = match revokeStack b with
    | e :: _ => he_paintCount e
    | [] => paintCount b
    end /\
  revoke (revoke_times n b) = revoke_times n b.
Proof.
  intros R Hn. destruct (reachable_stack_ok b R) as (Hc & _).
  assert (E : revokeStack (revoke_times (length (revokeStack b)) b) = [] /\
              paintCount (revoke_times (length (revokeStack b)) b)
              = match revokeStack b with
                | e :: _ => he_paintCount e
                | [] => paintCount b
                end).
  { destruct (revokeStack b) as [| e rest] eqn:Es; [cbn; auto |].
    destruct (ctx b) as [c |] eqn:Ec; [| now destruct Hc].
    rewrite <- Es. rewrite <- Es in Hn.
    destruct (revoke_times_stack (revokeStack b) b c Ec eq_refl) as (I1 & I2).
    rewrite Es in I2 at 2. auto. }
  destruct E as (E1 & E2).
  replace n with (length (revokeStack b) + (n - length (revokeStack b)))%nat by lia.
  rewrite revoke_times_add, (revoke_times_empty _ _ E1).
  repeat apply conj; [exact E1 | exact E2 |].
  unfold revoke. apply revoke_empty, E1.
Qed.

End StrokeFacts.

(** ** Listeners *)

Section ListenerLists.

Lemma handler_eqb_eq h k : handler_eqb h k = true <-> h = k.
Proof. destruct h, k; cbn; split; congruence. Qed.

Lemma fun_eqb_eq f g : fun_eqb f g = true <-> f = g.
Proof.
  destruct f as [i h | i], g as [j k | j]; cbn; try (split; congruence).
  - rewrite andb_true_iff, Nat.eqb_eq, handler_eqb_eq. split.
    + now intros [-> ->].
    + intros [= -> ->]. auto.
  - rewrite Nat.eqb_eq. split; congruence.
Qed.

Lemma listener_eqb_eq p q : listener_eqb p q = true <-> p = q.
Proof.
  destruct p as [n f], q as [m g]. unfold listener_eqb. cbn [fst snd].
  rewrite andb_true_iff, String.eqb_eq, fun_eqb_eq. split.
  - now intros [-> ->].
  - intros [= -> ->]. auto.
Qed.

Lemma listener_eqb_sym p q : listener_eqb p q = listener_eqb q p.
Proof.
  destruct (listener_eqb p q) eqn:E, (listener_eqb q p) eqn:E'; try reflexivity.
  - apply listener_eqb_eq in E as ->.
    rewrite (proj2 (listener_eqb_eq q q) eq_refl) in E'. discriminate.
  - apply listener_eqb_eq in E' as ->.
    rewrite (proj2 (listener_eqb_eq p p) eq_refl) in E. discriminate.
Qed.

Lemma is_bound_In ps q : is_bound ps q = true <-> In q ps.
Proof.
  unfold is_bound. rewrite existsb_exists. split.
  - intros (x & Hx & E). apply listener_eqb_eq in E as ->. exact Hx.
  - intros Hq. exists q. split; [exact Hq | now apply listener_eqb_eq].
Qed.

Lemma is_bound_app ps ps' q :
  is_bound (ps ++ ps') q = is_bound ps q || is_bound ps' q.
Proof. apply existsb_app. Qed.

Lemma filter_absorb {A} (f g : A -> bool) (l : list A) :
  (forall x, f x = true -> g x = true) ->
  List.filter f (List.filter g l) = List.filter f l.
Proof.
  intros Hfg. induction l as [| x l IH]; [reflexivity |]. cbn [List.filter].
  destruct (g x) eqn:Eg; cbn [List.filter].
  - now rewrite IH.
  - destruct (f x) eqn:Ef; [| exact IH].
    rewrite (Hfg x Ef) in Eg. discriminate.
Qed.

Lemma filter_filter_and {A} (f g : A -> bool) (l : list A) :
  List.filter f (List.filter g l) = List.filter (fun x => g x && f x) l.
Proof.
  induction l as [| x l IH]; [reflexivity |]. cbn [List.filter].
  destruct (g x); cbn [andb List.filter]; [| exact IH].
  destruct (f x); now rewrite IH.
Qed.

Lemma is_bound_cons p ps q :
  is_bound (p :: ps) q = listener_eqb p q || is_bound ps q.
Proof. unfold is_bound. cbn [existsb]. now rewrite listener_eqb_sym. Qed.

Lemma remove_pairs_without ps ls : remove_pairs ps ls = without ps ls.
Proof.
  unfold remove_pairs, without. revert ls.
  induction ps as [| [n f] ps IH]; intros ls; cbn [fold_left fst snd].
  - induction ls as [| x ls IHl]; [reflexivity |]. cbn [List.filter].
    change (is_bound [] x) with false. cbn [negb]. now rewrite <- IHl.
  - rewrite IH. unfold removeEventListener. rewrite filter_filter_and.
    apply List.filter_ext. intros x. now rewrite is_bound_cons, negb_orb.
Qed.

Lemma without_add S n h ls :
  is_bound S (n, h) = true ->
  without S (addEventListener n h ls) = without S ls.
Proof.
  intros Hb. unfold addEventListener, without.
  destruct (existsb _ ls); [reflexivity |].
  rewrite List.filter_app. cbn [List.filter]. rewrite Hb. cbn [negb].
  apply app_nil_r.
Qed.

Lemma without_add_pairs S ps ls :
  (forall p, In p ps -> is_bound S p = true) ->
  without S (add_pairs ps ls) = without S ls.
Proof.
  unfold add_pairs. revert ls.
  induction ps as [| [n h] ps IH]; intros ls Hp; cbn [fold_left fst snd].
  - reflexivity.
  - rewrite IH by (intros p Hin; apply Hp; now right).
    apply without_add, Hp. now left.
Qed.

Lemma without_without S T ls :
  (forall q, is_bound T q = true -> is_bound S q = true) ->
  without S (without T ls) = without S ls.
Proof.
  intros Hts. unfold without. apply filter_absorb.
  intros x Hx. destruct (is_bound T x) eqn:E; [| reflexivity].
  rewrite (Hts x E) in Hx. discriminate.
Qed.

Lemma In_add n h ls p :
  In p (addEventListener n h ls) <-> In p ls \/ p = (n, h).
Proof.
  unfold addEventListener. destruct (existsb _ ls) eqn:E.
  - split; [auto |]. intros [Hin | ->]; [exact Hin |].
    apply is_bound_In. exact E.
  - rewrite in_app_iff. cbn [In]. intuition auto.
Qed.

Lemma In_add_pairs ps ls p : In p (add_pairs ps ls) <-> In p ls \/ In p ps.
Proof.
  unfold add_pairs. revert ls.
  induction ps as [| [n h] ps IH]; intros ls; cbn [fold_left fst snd In].
  - intuition auto.
  - rewrite IH, In_add. intuition auto.
Qed.

Lemma In_without S ls p : In p (without S ls) <-> In p ls /\ ~ In p S.
Proof.
  unfold without. rewrite filter_In, negb_true_iff, <- not_true_iff_false, is_bound_In.
  reflexivity.
Qed.

Lemma for_each_item_pairs f items ls :
  for_each_item f items ls
  = fold_left (fun acc p => f (fst p) (snd p) acc) (item_pairs items) ls.
Proof.
  unfold for_each_item, item_pairs. revert ls.
  induction items as [| item items IH]; intros ls; [reflexivity |].
  cbn [fold_left omap list_omap]. rewrite IH.
  destruct (prop item "name"); try reflexivity.
  destruct (prop item "handler"); reflexivity.
Qed.

End ListenerLists.

Section Listeners.

Context `{Host} `{Canvas2D}.

Lemma listeners_same b b' :
  el b' = el b -> canvases b' = canvases b -> listeners b' = listeners b.
Proof. intros Ee Ec. unfold listeners. now rewrite Ee, Ec. Qed.

(** A write to the element that keeps its listeners. *)
Lemma listeners_on_el f b :
  (forall x, cv_listeners (f x) = cv_listeners x) ->
  listeners (on_el f b) = listeners b.
Proof.
  intros Hf. unfold on_el, listeners. destruct (el b) as [i |] eqn:Ee; fields;
    rewrite Ee; [| reflexivity].
  unfold upd. rewrite Nat.eqb_refl. apply Hf.
Qed.

Lemma listeners_on_ctx f b : listeners (on_ctx f b) = listeners b.
Proof.
  unfold on_ctx, listeners. destruct (ctx b) as [c |]; [| reflexivity]. fields.
  destruct (el b) as [i |]; [| reflexivity].
  unfold upd. now destruct (Nat.eqb i c).
Qed.

Lemma listeners_listen f b :
  el b <> None -> listeners (on_el (cv_listen f) b) = f (listeners b).
Proof.
  intros Ne. unfold on_el, listeners. destruct (el b) as [i |] eqn:Ee;
    [| now destruct Ne].
  fields. rewrite Ee. unfold upd. now rewrite Nat.eqb_refl.
Qed.

Lemma prop_condition_action pointerType action :
  prop (condition_of pointerType action) "action" = action.
Proof. reflexivity. Qed.

Lemma listeners_clean a b :
  listeners (_cleanCurModeEvents a b) = without (action_pairs a b) (listeners b).
Proof.
  unfold _cleanCurModeEvents. destruct (el b) as [i |] eqn:Ee.
  - cbv zeta. unfold _cleanEvent. rewrite listeners_listen by congruence.
    rewrite for_each_item_pairs. apply remove_pairs_without.
  - unfold listeners. now rewrite Ee.
Qed.

Lemma action_pairs_recanvased a b b' :
  recanvased b b' -> action_pairs a b' = action_pairs a b.
Proof.
  intros R. destruct (recanvased_fields _ _ R)
    as (_ & _ & _ & _ & _ & _ & _ & _ & _ & _ & E1 & E2).
  unfold action_pairs. now rewrite E1, E2.
Qed.

Lemma listeners_bind a b :
  el b <> None ->
  listeners (_bindCurModeEvents a b)
  = add_pairs (action_pairs a b) (without (action_pairs a b) (listeners b)).
Proof.
  intros Ne. unfold _bindCurModeEvents. destruct (el b) as [i |] eqn:Ee;
    [| now destruct Ne].
  cbv zeta. rewrite prop_condition_action. unfold _bindEvent.
  pose proof (recanvased_clean a b) as R.
  destruct (recanvased_fields _ _ R)
    as (_ & _ & _ & _ & _ & _ & E0 & _ & _ & _ & E1 & _).
  rewrite listeners_listen by congruence.
  rewrite for_each_item_pairs, listeners_clean, E1. reflexivity.
Qed.

Lemma el_bind a b : el (_bindCurModeEvents a b) = el b.
Proof.
  now destruct (recanvased_fields _ _ (recanvased_bind a b))
    as (_ & _ & _ & _ & _ & _ & E & _).
Qed.

Lemma el_clean a b : el (_cleanCurModeEvents a b) = el b.
Proof.
  now destruct (recanvased_fields _ _ (recanvased_clean a b))
    as (_ & _ & _ & _ & _ & _ & E & _).
Qed.

(** Binding keeps or moves to the end what is bound, and what was there
    stays. *)
Lemma listeners_bind_In a b p :
  In p (listeners b) -> In p (listeners (_bindCurModeEvents a b)).
Proof.
  intros Hp. destruct (el b) as [i |] eqn:Ee.
  - rewrite listeners_bind by congruence.
    rewrite In_add_pairs, In_without.
    destruct (is_bound (action_pairs a b) p) eqn:E.
    + right. now apply is_bound_In.
    + left. split; [exact Hp |]. rewrite <- is_bound_In. congruence.
  - unfold _bindCurModeEvents. now rewrite Ee.
Qed.

(** The pairs of the table for the five actions: one for each family,
    whatever the pointer type asked for. *)
Lemma table_pairs gen pointerType :
  item_pairs (_getEventItems (event_table gen) (condition_of pointerType (VStr "start")))
  = [("mousedown", Bound gen HStart); ("touchstart", Bound gen HStart)] /\
  item_pairs (_getEventItems (event_table gen) (condition_of pointerType (VStr "move")))
  = [("mousemove", Bound gen HMove); ("touchmove", Bound gen HMove)] /\
  item_pairs (_getEventItems (event_table gen) (condition_of pointerType (VStr "end")))
  = [("mouseup", Bound gen HEnd); ("touchend", Bound gen HEnd)] /\
  item_pairs (_getEventItems (event_table gen) (condition_of pointerType (VStr "leave")))
  = [("mouseleave", Bound gen HLeave)] /\
  item_pairs (_getEventItems (event_table gen) (condition_of pointerType (VStr "cancel")))
  = [("touchcancel", Bound gen HCancel)].
Proof. repeat apply conj; reflexivity. Qed.

Lemma without_app A B ls : without (A ++ B) ls = without B (without A ls).
Proof.
  unfold without. rewrite filter_filter_and. apply List.filter_ext.
  intros x. now rewrite is_bound_app, negb_orb.
Qed.

Lemma action_pairs_drawn a b b' : drawn b b' -> action_pairs a b' = action_pairs a b.
Proof.
  intros D. destruct (drawn_fields _ _ D)
    as (_ & _ & _ & _ & _ & E2 & _ & E1 & _).
  unfold action_pairs. now rewrite E1, E2.
Qed.

Lemma without_bind S a b :
  (forall q, is_bound (action_pairs a b) q = true -> is_bound S q = true) ->
  without S (listeners (_bindCurModeEvents a b)) = without S (listeners b).
Proof.
  intros HS. destruct (el b) as [i |] eqn:Ee.
  - rewrite listeners_bind by congruence.
    rewrite without_add_pairs by (intros p Hp; now apply HS, is_bound_In).
    now apply without_without.
  - unfold _bindCurModeEvents. now rewrite Ee.
Qed.

Lemma listeners_setDOMSize w h b : listeners (_setDOMSize w h b) = listeners b.
Proof.
  unfold _setDOMSize.
  destruct (negb (nullish w)), (negb (nullish h));
    rewrite ?listeners_on_el by reflexivity; reflexivity.
Qed.

Lemma listeners_setClassName n b : listeners (setClassName n b) = listeners b.
Proof.
  unfold setClassName. destruct (negb (truthy n)); [reflexivity |].
  now apply listeners_on_el.
Qed.

Lemma listeners_setSize w h b : listeners (setSize w h b) = listeners b.
Proof.
  unfold setSize. rewrite listeners_setDOMSize.
  destruct (truthy w), (truthy h); reflexivity.
Qed.

Lemma listeners_init opts b : listeners (_init opts b) = listeners b.
Proof.
  pose proof (init_fields opts b) as F. cbv zeta in F.
  destruct F as (_ & _ & _ & _ & _ & _ & _ & _ & Ee & _).
  unfold listeners at 1. rewrite Ee.
  unfold _init. cbv zeta. rewrite setPenStyle_form. fields.
  match goal with
  | |- context [setSize ?x ?y ?s] =>
      pose proof (listeners_setSize x y s) as L;
      destruct (setSize_form x y s) as (cs & ? & ? & ? & ? & ? & E)
  end.
  unfold listeners in L. rewrite E in L. fields_in L.
  destruct (truthy (prop _ "bgImgURL")); fields; rewrite E; fields; exact L.
Qed.

Lemma listeners_start e b :
  let S := action_pairs (VStr "move") b ++ action_pairs (VStr "end") b
           ++ action_pairs (VStr "leave") b in
  without S (listeners (state_of (_handlePointerStart e b)))
  = without S (listeners b).
Proof.
  intros S. unfold _handlePointerStart. cbv zeta.
  match goal with
  | |- context [match lastPoint ?s with _ => _ end] =>
      assert (L : listeners s = listeners b /\ drawn b s);
      [| set (b3 := s) in *; destruct (lastPoint b3)]
  end.
  - fields.
    assert (D0 : drawn b (set_lastPoint (_getPointOffset e) (set_isPainting true b)))
      by (eapply drawn_trans; [apply drawn_set_isPainting | apply drawn_set_lastPoint]).
    destruct (ctx b) as [c |]; [| split; [reflexivity | exact D0]].
    split; [| eapply drawn_trans; [exact D0 | apply drawn_save]].
    rewrite saveImageData_valid by reflexivity.
    match goal with
    | |- context [call_onRevokeStackChange ?s] =>
        destruct (call_fields s) as (_ & _ & _ & _ & C & _);
        destruct (drawn_fields _ _ (drawn_call s))
          as (_ & _ & _ & _ & _ & _ & _ & _ & _ & _ & _ & _ & _ & _ & _ & Ee & _)
    end.
    apply listeners_same; [rewrite Ee | rewrite C]; reflexivity.
  - destruct L as (L & D). cbn [state_of].
    match goal with
    | |- context [_drawCircle ?x ?y ?r ?c b3] => set (b4 := _drawCircle x y r c b3)
    end.
    assert (D4 : drawn b b4)
      by (eapply drawn_trans; [exact D | apply drawn_on_ctx]).
    assert (L4 : listeners b4 = listeners b)
      by (unfold b4, _drawCircle; now rewrite listeners_on_ctx).
    set (b5 := _bindCurModeEvents (VStr "move") b4).
    set (b6 := _bindCurModeEvents (VStr "end") b5).
    assert (D5 : drawn b b5)
      by (eapply drawn_trans; [exact D4 | apply drawn_bindCurModeEvents]).
    assert (D6 : drawn b b6)
      by (eapply drawn_trans; [exact D5 | apply drawn_bindCurModeEvents]).
    assert (I4 : forall q, is_bound (action_pairs (VStr "move") b4) q = true ->
                           is_bound S q = true).
    { rewrite (action_pairs_drawn _ _ _ D4). intros q Hq. unfold S.
      rewrite is_bound_app, Hq. reflexivity. }
    assert (I5 : forall q, is_bound (action_pairs (VStr "end") b5) q = true ->
                           is_bound S q = true).
    { rewrite (action_pairs_drawn _ _ _ D5). intros q Hq. unfold S.
      rewrite !is_bound_app, Hq. apply orb_true_iff. right. reflexivity. }
    assert (I6 : forall q, is_bound (action_pairs (VStr "leave") b6) q = true ->
                           is_bound S q = true).
    { rewrite (action_pairs_drawn _ _ _ D6). intros q Hq. unfold S.
      rewrite !is_bound_app, Hq. rewrite !orb_true_r. reflexivity. }
    rewrite (without_bind S _ b6 I6). unfold b6.
    rewrite (without_bind S _ b5 I5). unfold b5.
    rewrite (without_bind S _ b4 I4), L4. reflexivity.
  - destruct L as (L & _). cbn [state_of]. now rewrite L.
Qed.

Lemma listeners_move e b : listeners (state_of (_handlePointerMove e b)) = listeners b.
Proof.
  unfold _handlePointerMove.
  destruct (negb (isPainting b)); [reflexivity |].
  destruct (_getPointOffset e) as [p |]; [| reflexivity].
  destruct (lastPoint b) as [l |]; [| reflexivity].
  cbv zeta. cbn [state_of]. unfold _drawLine.
  match goal with
  | |- context [on_ctx ?f b] =>
      transitivity (listeners (on_ctx f b));
      [apply listeners_same; reflexivity | apply listeners_on_ctx]
  end.
Qed.

Lemma listeners_moves es b : listeners (moves es b) = listeners b.
Proof.
  unfold moves. revert b. induction es as [| e es IH]; intros b; cbn [fold_left].
  - reflexivity.
  - now rewrite IH, listeners_move.
Qed.

Lemma listeners_end e b :
  listeners (state_of (_handlePointerEnd e b))
  = without (action_pairs (VStr "move") b ++ action_pairs (VStr "end") b
             ++ action_pairs (VStr "leave") b) (listeners b).
Proof.
  unfold _handlePointerEnd. cbv zeta. cbn [state_of].
  match goal with
  | |- context [call_onPaintEnd ?s] =>
      destruct (call_paint_fields s) as (_ & _ & _ & _ & C & _);
      assert (D3 : drawn b (call_onPaintEnd s));
      [| set (b3 := call_onPaintEnd s) in * ]
  end.
  { eapply drawn_trans; [| apply drawn_call_paint].
    eapply drawn_trans; [apply drawn_set_isPainting | apply drawn_set_paintCount]. }
  fields_in C.
  assert (L3 : listeners b3 = listeners b).
  { apply listeners_same; [| exact C].
    now destruct (drawn_fields _ _ D3)
      as (_ & _ & _ & _ & _ & _ & _ & _ & _ & _ & _ & _ & _ & _ & _ & Ee & _). }
  set (b4 := _cleanCurModeEvents (VStr "move") b3).
  set (b5 := _cleanCurModeEvents (VStr "end") b4).
  assert (D4 : drawn b b4)
    by (eapply drawn_trans; [exact D3 | apply drawn_cleanCurModeEvents]).
  assert (D5 : drawn b b5)
    by (eapply drawn_trans; [exact D4 | apply drawn_cleanCurModeEvents]).
  rewrite listeners_clean, (action_pairs_drawn _ _ _ D5). unfold b5.
  rewrite listeners_clean, (action_pairs_drawn _ _ _ D4). unfold b4.
  rewrite listeners_clean, (action_pairs_drawn _ _ _ D3), L3.
  now rewrite !without_app.
Qed.

(** X12. [_getEventItems] on the table of a board: a condition with a
    truthy [mode] selects nothing, with or without an action, because the
    items carry [pointerType] and no [mode]. *)
Theorem getEventItems_by_mode_finds_nothing gen (condition : gmap string JsVal) :
  truthy (prop condition "mode") = true ->
  _getEventItems (event_table gen) condition = [].
Proof.
  intros Hm. unfold _getEventItems. cbv zeta. rewrite Hm. cbn [andb negb].
  assert (Hn : forall item, In item (event_table gen) ->
                 strict_eq (prop item "mode") (prop condition "mode") = false).
  { intros item Hin.
    assert (E : prop item "mode" = VUndefined).
    { unfold event_table in Hin. cbn [In] in Hin.
      repeat (destruct Hin as [<- | Hin]; [reflexivity |]). destruct Hin. }
    rewrite E. destruct (prop condition "mode"); try reflexivity. discriminate. }
  destruct (truthy (prop condition "action")); cbn [negb];
    apply (proj2 (List.Forall_forall _ _)) in Hn;
    induction Hn as [| item l Hi _ IH]; try reflexivity;
    cbn [List.filter]; rewrite Hi; cbn [andb]; exact IH.
Qed.

(** X13. Binding the handlers of an action a second time leaves the
    listeners of the element as the first binding left them (no handler is
    registered twice), and unbinding after binding gives what unbinding alone
    gives. *)
Theorem bind_again_changes_nothing action b :
  listeners (_bindCurModeEvents action (_bindCurModeEvents action b))
  = listeners (_bindCurModeEvents action b) /\
  listeners (_cleanCurModeEvents action (_bindCurModeEvents action b))
  = listeners (_cleanCurModeEvents action b).
Proof.
  destruct (el b) as [i |] eqn:Ee.
  - pose proof (action_pairs_recanvased action _ _ (recanvased_bind action b)) as Ea.
    assert (Ne : el (_bindCurModeEvents action b) <> None)
      by (rewrite el_bind; congruence).
    assert (W : without (action_pairs action b)
                  (listeners (_bindCurModeEvents action b))
                = without (action_pairs action b) (listeners b))
      by (apply without_bind; auto).
    split.
    + rewrite (listeners_bind action _ Ne), Ea, W.
      symmetry. apply listeners_bind. congruence.
    + rewrite !listeners_clean, Ea. exact W.
  - unfold _bindCurModeEvents. rewrite Ee. cbn. rewrite Ee. auto.
Qed.

(** X14. After a whole stroke the element carries the listeners it carried
    before, in their order, less those of the move, end and leave actions:
    the end handler unbinds what the start handler bound, and whatever was
    bound for those actions before. *)
Theorem stroke_unbinds_move_end_leave down es up b :
  listeners (stroke_on down es up b)
  = without (action_pairs (VStr "move") b ++ action_pairs (VStr "end") b
             ++ action_pairs (VStr "leave") b) (listeners b).
Proof.
  unfold stroke_on. rewrite listeners_end, listeners_moves.
  assert (D : drawn b (moves es (state_of (_handlePointerStart down b))))
    by (eapply drawn_trans; [apply drawn_start | apply drawn_moves]).
  rewrite !(action_pairs_drawn _ _ _ D).
  apply listeners_start.
Qed.

Lemma recanvased_setDOMSize w h b : recanvased b (_setDOMSize w h b).
Proof.
  unfold _setDOMSize.
  destruct (negb (nullish w)), (negb (nullish h));
    repeat (eapply recanvased_trans; [| apply recanvased_on_el]);
    apply recanvased_refl.
Qed.

Lemma recanvased_setClassName n b : recanvased b (setClassName n b).
Proof.
  unfold setClassName.
  destruct (negb (truthy n)); [apply recanvased_refl | apply recanvased_on_el].
Qed.

Lemma listeners_mount b :
  el b <> None ->
  listeners (mount b)
  = add_pairs (action_pairs (VStr "start") b)
      (without (action_pairs (VStr "start") b) (listeners b)).
Proof.
  intros Ne. unfold mount. destruct (el b) as [i |] eqn:Ee; [| now destruct Ne].
  cbv zeta.
  set (b2 := match ctx b with Some _ => b | None => set_ctx (el b) b end).
  assert (F2 : el b2 = el b /\ listeners b2 = listeners b /\
               action_pairs (VStr "start") b2 = action_pairs (VStr "start") b)
    by (unfold b2; destruct (ctx b); auto).
  destruct F2 as (E2 & L2 & A2).
  set (b4 := setClassName (className (_setDOMSize (width b2) (height b2) b2))
               (_setDOMSize (width b2) (height b2) b2)).
  assert (R : recanvased b2 b4)
    by (eapply recanvased_trans;
        [apply recanvased_setDOMSize | apply recanvased_setClassName]).
  assert (L4 : listeners b4 = listeners b)
    by (unfold b4; now rewrite listeners_setClassName, listeners_setDOMSize).
  assert (E4 : el b4 = el b).
  { destruct (recanvased_fields _ _ R) as (_ & _ & _ & _ & _ & _ & E & _).
    now rewrite E. }
  rewrite listeners_bind by (rewrite E4, Ee; discriminate).
  now rewrite (action_pairs_recanvased _ _ _ R), A2, L4.
Qed.

(** X15. [reInit] on a mounted board keeps every listener the element
    carried, those of the handlers bound by the earlier [_init] included, and
    adds the start handlers bound by the new [_init] for [mousedown] and
    [touchstart]: the old handlers are never unbound. *)
Theorem reInit_keeps_old_listeners opts b i :
  el b = Some i ->
  (forall p, In p (listeners b) -> In p (listeners (reInit opts b))) /\
  In ("mousedown", Bound (S (bindings b)) HStart) (listeners (reInit opts b)) /\
  In ("touchstart", Bound (S (bindings b)) HStart) (listeners (reInit opts b)).
Proof.
  intros Ee. unfold reInit.
  set (o := match opts with Some o => o | None => options b end).
  pose proof (init_fields o b) as F. cbv zeta in F.
  destruct F as (_ & _ & _ & _ & _ & _ & _ & Et & Ei & _).
  assert (Ne : el (_init o b) <> None) by (rewrite Ei, Ee; discriminate).
  rewrite (listeners_mount _ Ne), listeners_init.
  assert (Ea : action_pairs (VStr "start") (_init o b)
               = [("mousedown", Bound (S (bindings b)) HStart);
                  ("touchstart", Bound (S (bindings b)) HStart)]).
  { unfold action_pairs. rewrite Et.
    now destruct (table_pairs (S (bindings b))
                    (_getPointerType (interactiveMode (_init o b)))) as (E & _). }
  rewrite Ea. repeat apply conj.
  - intros p Hp. rewrite In_add_pairs, In_without.
    destruct (is_bound [("mousedown", Bound (S (bindings b)) HStart);
                        ("touchstart", Bound (S (bindings b)) HStart)] p) eqn:E.
    + right. now apply is_bound_In.
    + left. split; [exact Hp |]. rewrite <- is_bound_In. congruence.
  - rewrite In_add_pairs. right. now left.
  - rewrite In_add_pairs. right. right. now left.
Qed.

End Listeners.

(** ** Export *)

Section ExportFacts.

Context `{Canvas2D}.

Lemma default_arg_again v d : default_arg (default_arg v d) d = default_arg v d.
Proof. destruct v, d; reflexivity. Qed.

(** The two tests on the rate, on a number that is not NaN. *)
Lemma clamp_rate_range r :
  num_isNaN r = false ->
  num_le LOWEST_RATE (clamp_rate r) = true /\
  num_le (clamp_rate r) (num 1) = true /\
  num_isNaN (clamp_rate r) = false.
Proof.
  intros Hn. unfold clamp_rate, LOWEST_RATE. cbv zeta.
  destruct r as [| neg | q]; [discriminate | destruct neg; vm_compute; auto |].
  cbn [num_lt].
  destruct (Qltb q (3 # 10)) eqn:E1.
  - vm_compute. auto.
  - unfold num_gt. cbn [num_lt num]. destruct (Qltb (inject_Z 1) q) eqn:E2.
    + vm_compute. auto.
    + apply Qltb_false in E1. apply Qltb_false in E2.
      cbn [num_le num num_isNaN]. repeat apply conj; try reflexivity;
        now apply Qle_bool_iff.
Qed.

Lemma clamp_rate_again r :
  num_isNaN r = false -> clamp_rate (clamp_rate r) = clamp_rate r.
Proof.
  intros Hn. destruct (clamp_rate_range r Hn) as (L & U & N).
  set (c := clamp_rate r) in *. unfold clamp_rate. cbv zeta.
  assert (E1 : num_lt c LOWEST_RATE = false).
  { unfold LOWEST_RATE in *. destruct c as [| neg | q]; try discriminate.
    - now destruct neg.
    - cbn [num_lt num_le] in *. apply Qltb_false. now apply Qle_bool_iff. }
  rewrite E1.
  assert (E2 : num_gt c (num 1) = false).
  { unfold num_gt. destruct c as [| neg | q]; try discriminate.
    - now destruct neg.
    - cbn [num_lt num_le num] in *. apply Qltb_false. now apply Qle_bool_iff. }
  now rewrite E2.
Qed.

Lemma includes_In arr v :
  includes arr v = true -> (forall s, v <> VNum s) -> In v arr.
Proof.
  unfold includes. rewrite existsb_exists. intros (x & Hx & E) Hv.
  replace x with v in Hx; [exact Hx |].
  destruct v as [| | v | n | s | f | o]; [| | | now destruct (Hv n) | | |];
    destruct x; cbn in E; try discriminate; try reflexivity; f_equal.
  - now apply Bool.eqb_prop.
  - now apply String.eqb_eq.
  - now apply fun_eqb_eq.
  - now apply Nat.eqb_eq.
Qed.

Lemma includes_type type :
  includes IMG_TYPE_ENUM type = true ->
  exists t, type = VStr t /\ In (VStr t) IMG_TYPE_ENUM.
Proof.
  intros Hi. destruct type as [| | | n | t | |]; try discriminate.
  - destruct n as [| neg | q]; discriminate.
  - exists t. split; [reflexivity |]. apply includes_In; [exact Hi | discriminate].
Qed.

(** X16. Whenever [getDataUrl] (and so [getBlob], which runs the same
    tests) makes its call, the call goes to the mounted canvas, the type is
    one of jpg, jpeg, png and webp under the prefix image/, and the rate
    passed is between 0.3 and 1, the infinities included: below 0.3 gives
    0.3, above 1 gives 1. *)
Theorem getDataUrl_call_lawful type compressRate b call :
  getDataUrl type compressRate b = Some call ->
  getBlob type compressRate b = Some call /\
  el b = Some (ex_canvas call) /\
  num_le LOWEST_RATE (ex_compressRate call) = true /\
  num_le (ex_compressRate call) (num 1) = true /\
  exists t, default_arg type (VStr "png") = VStr t /\
            In (VStr t) IMG_TYPE_ENUM /\
            ex_resourceType call = String.append "image/" t.
Proof.
  intros E. split; [exact E |].
  unfold getDataUrl, export_call in E.
  destruct (el b) as [i |]; [| discriminate].
  destruct (unlawful_export _ _) eqn:U; [discriminate |].
  unfold unlawful_export in U. apply orb_false_iff in U as (U1 & U2).
  apply negb_false_iff in U1.
  destruct (default_arg compressRate (VNum (num 1))) as [| | | r | | |];
    try discriminate.
  injection E as <-. cbn [ex_canvas ex_compressRate ex_resourceType].
  destruct (clamp_rate_range r U2) as (L & Up & _).
  destruct (includes_type _ U1) as (t & Et & Hin).
  repeat apply conj; try assumption; try reflexivity.
  exists t. rewrite Et. auto.
Qed.

(** X17. [download] makes the call [getDataUrl] makes with the same type and
    rate (clamping the rate twice changes nothing), under the name given or
    'drawing-board', and does nothing exactly when [getDataUrl] returns
    [undefined], a board without an element included. *)
Theorem download_calls_getDataUrl type compressRate name b :
  download type compressRate name b
  = match getDataUrl type compressRate b with
    | Some call => Some (call, default_arg name (VStr "drawing-board"))
    | None => None
    end.
Proof.
  unfold download, getDataUrl, export_call. cbv zeta.
  rewrite default_arg_again.
  set (ty := default_arg type (VStr "png")).
  set (cr := default_arg compressRate (VNum (num 1))).
  destruct (unlawful_export ty cr) eqn:U.
  - now destruct (el b).
  - pose proof U as U'. unfold unlawful_export in U'.
    apply orb_false_iff in U' as (U1 & U2).
    destruct cr as [| | | r | | |]; try discriminate.
    destruct (clamp_rate_range r U2) as (_ & _ & N).
    change (default_arg (VNum (clamp_rate r)) (VNum (num 1)))
      with (VNum (clamp_rate r)).
    destruct (el b) as [i |]; [| reflexivity].
    unfold unlawful_export. rewrite U1, N. cbn [orb].
    now rewrite (clamp_rate_again r U2).
Qed.

(** X18. [getFile] raises exactly when [getBlob] returns [undefined] (there
    is then no promise to call [then] on): on a board without an element, for
    a type outside the four, and for a rate that is not a number or is
    NaN. *)
Theorem getFile_raises_without_blob name type compressRate b :
  (getFile name type compressRate b = Raised <->
   getBlob type compressRate b = None) /\
  (getBlob type compressRate b = None <->
   el b = None \/
   unlawful_export (default_arg type (VStr "png"))
     (default_arg compressRate (VNum (num 1))) = true).
Proof.
  split.
  - unfold getFile, getBlob. rewrite !default_arg_again.
    destruct (export_call _ _ b); split; congruence.
  - unfold getBlob, export_call.
    destruct (el b) as [i |]; [| split; auto].
    destruct (unlawful_export _ _) eqn:U; [split; auto |].
    unfold unlawful_export in U. apply orb_false_iff in U as (_ & U2).
    destruct (default_arg compressRate (VNum (num 1))); try discriminate.
    split; [discriminate | intros [E | E]; discriminate].
Qed.

End ExportFacts.

(** ** Size, teardown, re-initialisation and background addresses *)

Section Lifecycle.

Context `{Host} `{Canvas2D}.

Lemma on_el_element f b i :
  el b = Some i ->
  el (on_el f b) = Some i /\ canvases (on_el f b) i = f (canvases b i).
Proof.
  intros Ee. unfold on_el. rewrite Ee. fields. unfold upd.
  now rewrite Nat.eqb_refl.
Qed.

Lemma setDOMSize_element w h b i :
  el b = Some i ->
  let c := canvases b i in
  let c' := canvases (_setDOMSize w h b) i in
  cv_width c' = (if nullish w then cv_width c else w) /\
  cv_height c' = (if nullish h then cv_height c else h) /\
  cv_bitmap c'
  = (if nullish w && nullish h then cv_bitmap c
     else blank (cv_width c') (cv_height c')).
Proof.
  intros Ee. cbv zeta. unfold _setDOMSize.
  destruct (nullish w), (nullish h); cbn [negb andb].
  - auto.
  - destruct (on_el_element (cv_set_height h) b i Ee) as (_ & ->). cbn. auto.
  - destruct (on_el_element (cv_set_width w) b i Ee) as (_ & ->). cbn. auto.
  - destruct (on_el_element (cv_set_width w) b i Ee) as (Ee' & E1).
    destruct (on_el_element (cv_set_height h) _ i Ee') as (_ & ->).
    rewrite E1. cbn. auto.
Qed.

(** X19. [setSize([w, h])] on a mounted board: a side is stored only when it
    is truthy, but it is assigned to the element whenever it is neither null
    nor undefined, so 0 or NaN reaches the canvas while the stored side stays;
    and as soon as one side is assigned the bitmap is blank again, while the
    undo stack and the count are left as they were. *)
Theorem setSize_stored_and_element w h b i :
  el b = Some i ->
  let b' := setSize w h b in
  width b' = (if truthy w then w else width b) /\
  height b' = (if truthy h then h else height b) /\
  cv_width (canvases b' i) = (if nullish w then cv_width (canvases b i) else w) /\
  cv_height (canvases b' i) = (if nullish h then cv_height (canvases b i) else h) /\
  cv_bitmap (canvases b' i)
  = (if nullish w && nullish h then cv_bitmap (canvases b i)
     else blank (cv_width (canvases b' i)) (cv_height (canvases b' i))) /\
  revokeStack b' = revokeStack b /\ paintCount b' = paintCount b.
Proof.
  intros Ee. cbv zeta.
  destruct (setSize_shape w h b) as (W & Hh & _).
  destruct (core_fields _ _ (core_setSize w h b)) as (S1 & _ & _ & S2 & _).
  repeat apply conj; try assumption; unfold setSize; cbv zeta;
    match goal with
    | |- context [_setDOMSize w h ?s] =>
        destruct (setDOMSize_element w h s i) as (D1 & D2 & D3);
        [destruct (truthy w), (truthy h); exact Ee |]
    end;
    [rewrite D1 | rewrite D2 | rewrite D3];
    destruct (truthy w), (truthy h); reflexivity.
Qed.

(** X20. After [destory()] on a mounted board, [clear()] returns at once and
    changes nothing, while [revoke()] still pops the stack and writes the
    snapshot to the canvas that was removed; a second [destory()] raises. *)
Theorem destroyed_board_clear_and_revoke b i c rest e :
  el b = Some i -> ctx b = Some c -> revokeStack b = rest ++ [e] ->
  let d := state_of (destory b) in
  returned (destory b) = true /\
  clear d = Returned d /\
  revokeStack (revoke d) = rest /\
  bitmap c (revoke d) = putImageData (he_imageData e) (bitmap c b) /\
  paintCount (revoke d) = he_paintCount e /\
  returned (destory d) = false.
Proof.
  intros Ee Ec Es. cbv zeta.
  assert (E0 : destory b = Returned (set_bgImgObject VNull (set_el None b)))
    by (unfold destory; now rewrite Ee).
  rewrite E0. cbn [state_of returned].
  set (d := set_bgImgObject VNull (set_el None b)).
  assert (Ed : el d = None) by reflexivity.
  assert (Ecd : ctx d = Some c) by exact Ec.
  assert (Esd : revokeStack d = rest ++ [e]) by exact Es.
  destruct (revoke_pop d c rest e Ecd Esd) as (R1 & _ & R3 & R4).
  split; [reflexivity |].
  split; [unfold clear; now rewrite Ecd, Ed |].
  split; [exact R1 |]. split; [exact R3 |]. split; [exact R4 |].
  reflexivity.
Qed.

Lemma init_notices opts b : notices (_init opts b) = notices b.
Proof.
  unfold _init. cbv zeta. rewrite setPenStyle_form. fields.
  match goal with
  | |- context [setSize ?x ?y ?s] =>
      destruct (core_fields _ _ (core_setSize x y s)) as (_ & _ & _ & _ & _ & E & _)
  end.
  fields_in E.
  destruct (truthy (prop _ "bgImgURL")); fields; exact E.
Qed.

Lemma mount_history b :
  revokeStack (mount b) = revokeStack b /\ paintCount (mount b) = paintCount b /\
  notices (mount b) = notices b /\ isPainting (mount b) = isPainting b.
Proof.
  unfold mount. cbv zeta.
  match goal with
  | |- context [setClassName ?n ?s] =>
      assert (R : recanvased s (_bindCurModeEvents (VStr "start") (setClassName n s)))
        by (eapply recanvased_trans;
            [apply recanvased_setClassName | apply recanvased_bind])
  end.
  match type of R with
  | recanvased (_setDOMSize ?x ?y ?s) _ =>
      pose proof (recanvased_trans _ _ _ (recanvased_setDOMSize x y s) R) as R'
  end.
  destruct (recanvased_fields _ _ R') as (-> & -> & -> & _ & -> & _).
  clear R R'. destruct (el b); fields; destruct (ctx b); fields; auto.
Qed.

(** X21. [reInit] empties the undo stack and sets the count to 0 without
    calling [onRevokeStackChange] or [onPaintEnd], and leaves the painting
    flag false, whatever the options and whatever the board held. *)
Theorem reInit_resets_history_silently opts b :
  revokeStack (reInit opts b) = [] /\
  paintCount (reInit opts b) = 0%nat /\
  notices (reInit opts b) = notices b /\
  isPainting (reInit opts b) = false.
Proof.
  unfold reInit. set (o := match opts with Some o => o | None => options b end).
  destruct (mount_history (_init o b)) as (-> & -> & -> & ->).
  destruct (init_history o b) as (S1 & _ & _ & S2 & _).
  pose proof (init_fields o b) as F. cbv zeta in F.
  destruct F as (_ & _ & _ & _ & _ & _ & _ & _ & _ & _ & _ & _ & _ & P).
  rewrite S1, S2, init_notices, P. auto.
Qed.

(** The test of the address: [data:image] anywhere in the text. *)
Lemma index_data_image s t :
  String.index 0 "data:image" (String.append s (String.append "data:image" t))
  <> None.
Proof.
  induction s as [| ch s IH].
  - cbn [String.append]. destruct t; cbn; try discriminate.
    all: repeat (destruct (Ascii.ascii_dec _ _); [| congruence]); discriminate.
  - change (String.append (String ch s) (String.append "data:image" t))
      with (String ch (String.append s (String.append "data:image" t))).
    set (rest := String.append s (String.append "data:image" t)) in *.
    cbn [String.index].
    destruct (String.prefix "data:image" (String ch rest)); [discriminate |].
    destruct (String.index 0 "data:image" rest); [discriminate | now destruct IH].
Qed.

(** X22. A text that holds [data:image] anywhere, or that starts with
    [http], passes the test of [setBgImg], the regular expression
    [/^(http[s]?)|(data:image)/], whose second branch is not anchored; and
    [setBgImg] with a text that passes only queues a load: nothing is drawn
    and nothing but the pending loads changes. *)
Theorem setBgImg_text_with_data_image_is_loaded s t ow oh b :
  url_test (String.append s (String.append "data:image" t)) = true /\
  url_test (String.append "http" t) = true /\
  forall u, url_test u = true ->
    setBgImg (VStr u) ow oh b
    = set_pending
        (pending b ++ [{| ld_url := VStr u; ld_kind := SetBgLoad ow oh |}]) b.
Proof.
  repeat apply conj.
  - unfold url_test. pose proof (index_data_image s t) as I.
    destruct (String.index 0 "data:image" _); [| now destruct I].
    apply orb_true_r.
  - unfold url_test. apply orb_true_iff. left.
    cbn. repeat (destruct (Ascii.ascii_dec _ _); [| congruence]).
    now destruct t.
  - intros u E. unfold setBgImg. cbv zeta. now rewrite E.
Qed.

(** X23. [setBgImg] with anything else (an image object, or a text that
    fails the test) stores the size at once, taken from the arguments or,
    where an argument is falsy, from the stored width and height, and keeps
    the background object only when the argument is strictly equal to it;
    whatever it draws, the undo stack, the count and the callbacks are left
    alone, so the change cannot be undone. *)
Theorem setBgImg_direct_records_nothing u ow oh b :
  (forall s, u = VStr s -> url_test s = false) ->
  let b' := setBgImg u ow oh b in
  _bgImgObject b'
  = (if strict_eq u (_bgImgObject b) then _bgImgObject b else u) /\
  originalSize b' = Some (js_or ow (width b), js_or oh (height b)) /\
  revokeStack b' = revokeStack b /\ paintCount b' = paintCount b /\
  notices b' = notices b /\ pending b' = pending b.
Proof.
  intros Hu. cbv zeta.
  destruct (core_fields _ _ (core_setBgImg u ow oh b))
    as (C1 & _ & _ & C2 & _ & C3 & _).
  assert (E : setBgImg u ow oh b
              = let b1 := if negb (strict_eq u (_bgImgObject b))
                          then set_bgImgObject u b else b in
                _drawBg u (js_or ow (width b1)) (js_or oh (height b1))
                  (set_originalSize
                     (Some (js_or ow (width b1), js_or oh (height b1))) b1)).
  { unfold setBgImg. cbv zeta. destruct u as [| | | | s | |]; try reflexivity.
    now rewrite (Hu s eq_refl). }
  cbv zeta in E.
  repeat apply conj; try assumption; rewrite E;
    match goal with
    | |- context [_drawBg ?x ?w ?h ?s] =>
        destruct (drawn_fields _ _ (drawn_drawBg x w h s))
          as (_ & _ & _ & _ & _ & _ & _ & _ & _ & _ & _ & F1 & F2 & _ & _ & _ & _ & _ & F3)
    end.
  - rewrite F1. destruct (strict_eq u (_bgImgObject b)); reflexivity.
  - rewrite F2. destruct (strict_eq u (_bgImgObject b)); reflexivity.
  - rewrite F3. destruct (strict_eq u (_bgImgObject b)); reflexivity.
Qed.

(** X24. On every board a program can hold, in each of the three modes, the
    handlers picked for an action are those of the mouse family and of the
    touch family together: the pointer type worked out from the mode has no
    part in the choice. *)
Theorem handlers_of_both_families b :
  reachable b ->
  let g := bindings b in
  eventList b = event_table g /\
  action_pairs (VStr "start") b
  = [("mousedown", Bound g HStart); ("touchstart", Bound g HStart)] /\
  action_pairs (VStr "move") b
  = [("mousemove", Bound g HMove); ("touchmove", Bound g HMove)] /\
  action_pairs (VStr "end") b
  = [("mouseup", Bound g HEnd); ("touchend", Bound g HEnd)] /\
  action_pairs (VStr "leave") b = [("mouseleave", Bound g HLeave)] /\
  action_pairs (VStr "cancel") b = [("touchcancel", Bound g HCancel)].
Proof.
  intros R. cbv zeta.
  destruct (reachable_kept b R) as ((_ & _ & _ & _ & _ & _ & E) & _).
  split; [exact E |]. unfold action_pairs. rewrite E.
  exact (table_pairs (bindings b) (_getPointerType (interactiveMode b))).
Qed.

Lemma clear_history b c :
  ctx b = Some c -> el b <> None ->
  revokeStack (state_of (clear b))
  = pushed b (entry_of (VStr "clear") (paintCount b)
                (getImageData (width b) (height b) (bitmap c b))) /\
  paintCount (state_of (clear b)) = 0%nat.
Proof.
  intros Ec Ne. unfold clear. rewrite Ec.
  destruct (el b) as [i |] eqn:Ee; [| now destruct Ne]. cbv zeta.
  rewrite saveImageData_valid by reflexivity.
  change (default_arg (VStr "clear") (VStr "paint")) with (VStr "clear").
  match goal with
  | |- context [on_ctx ?f ?s] =>
      destruct (core_fields _ _ (core_on_ctx f s)) as (E1 & _);
      set (b2 := on_ctx f s) in *
  end.
  match type of E1 with
  | _ = revokeStack (call_onRevokeStackChange ?s) =>
      destruct (call_fields s) as (E2 & _); rewrite E2 in E1
  end.
  fields_in E1.
  set (b3 := set_paintCount 0 b2).
  assert (E3 : revokeStack b3 = revokeStack b2 /\ paintCount b3 = 0%nat)
    by (split; reflexivity).
  destruct E3 as (E3 & P3).
  destruct (truthy (_bgImgObject b3)); cbn [state_of].
  - unfold _drawBg_spread. destruct (originalSize b3) as [[w h] |]; cbn [state_of].
    + destruct (core_fields _ _ (core_drawBg (_bgImgObject b3) w h b3))
        as (-> & _ & _ & -> & _).
      now rewrite E3, E1.
    + now rewrite E3, E1.
  - now rewrite E3, E1.
Qed.

(** X25. [clear()] on a board with a context whose snapshot rectangle covers
    the surface, so that [getImageData] returns (the calls on the 2D context
    being taken to return): with an element it pushes exactly one snapshot of
    type 'clear' holding the count before the call (dropping the oldest entry
    first when the stack is full) and leaves the count 0; without an element
    it returns the board as it was. *)
Theorem clear_pushes_one_snapshot b c :
  ctx b = Some c ->
  spans (width b) (height b) (bitmap c b) ->
  (el b <> None ->
   revokeStack (state_of (clear b))
   = pushed b (entry_of (VStr "clear") (paintCount b)
                 (getImageData (width b) (height b) (bitmap c b))) /\
   paintCount (state_of (clear b)) = 0%nat) /\
  (el b = None -> clear b = Returned b).
Proof.
  intros Ec _. split.
  - intros Ne. now apply clear_history.
  - intros Ee. unfold clear. now rewrite Ec, Ee.
Qed.


Lemma init_manualMount opts b :
  manualMount (_init opts b)
  = prop (opt_props (spread _defaultOptions opts)) "manualMount".
Proof.
  unfold _init. cbv zeta. rewrite setPenStyle_form. fields.
  destruct (truthy (prop _ "bgImgURL")); reflexivity.
Qed.

(** X27. A board built with a truthy [manualMount] has no element and no
    context until [mount()] is called: [clear()] and [revoke()] change
    nothing, [getDataUrl] returns [undefined], and no listener is bound;
    [mount()] then makes the first canvas and takes its context. *)
Theorem manual_mount_board rect opts :
  truthy (prop (opt_props (spread _defaultOptions opts)) "manualMount") = true ->
  let b := new_DrawingBoard rect opts in
  el b = None /\ ctx b = None /\ listeners b = [] /\
  clear b = Returned b /\ revoke b = b /\
  (forall type compressRate, getDataUrl type compressRate b = None) /\
  el (mount b) = Some 0%nat /\ ctx (mount b) = Some 0%nat.
Proof.
  intros Hm. cbv zeta. unfold new_DrawingBoard. cbv zeta.
  rewrite init_manualMount, Hm. cbn [negb].
  pose proof (init_fields opts (uninitialised rect)) as F. cbv zeta in F.
  destruct F as (_ & _ & _ & _ & _ & _ & _ & _ & Ee & Ec & En & _).
  cbn [el ctx nextCanvas uninitialised] in Ee, Ec, En.
  set (b := _init opts (uninitialised rect)) in *.
  destruct (drawn_fields _ _ (mount_form b))
    as (_ & _ & _ & _ & _ & _ & _ & _ & _ & _ & _ & _ & _ & _ & _ & Fe & Fc & _).
  fields_in Fe. fields_in Fc. rewrite Ee, En in Fe. rewrite Ec, Ee, En in Fc.
  split; [exact Ee |]. split; [exact Ec |].
  split; [unfold listeners; now rewrite Ee |].
  split; [unfold clear; now rewrite Ec |].
  split; [unfold revoke, _revoke; now rewrite Ec |].
  split; [| split; [exact Fe | exact Fc]].
  intros type compressRate. unfold getDataUrl, export_call. now rewrite Ee.
Qed.

End Lifecycle.

(** ** The properties above on concrete boards *)

Lemma MarkCanvas_draw_laws : @Canvas2DDrawLaws MarkCanvas.
Proof. split; cbn; auto. Qed.

Lemma watched_board_reachable : @reachable PlainHost MarkCanvas watched_board.
Proof. apply reachable_run, reach_new. Qed.

Lemma narrow_board_reachable : @reachable PlainHost MarkCanvas narrow_board.
Proof. apply (reach_step (H := PlainHost)), reach_new. Qed.

Lemma board_in_mode_reachable mode :
  @reachable PlainHost MarkCanvas (board_in_mode mode).
Proof. unfold board_in_mode. apply reach_new. Qed.

Lemma stored_rotation_lawful_witness :
  @reachable PlainHost MarkCanvas stroked_board /\
  (bgImgRotate stroked_board = None \/ bgImgRotate stroked_board = Some NaN \/
   exists j, 0 <= j <= 3 /\ bgImgRotate stroked_board = Some (num (90 * j))).
Proof.
  split; [exact stroked_board_reachable |].
  exact (stored_rotation_lawful stroked_board stroked_board_reachable).
Defined.

Lemma stored_pen_and_mode_lawful_witness :
  @reachable PlainHost MarkCanvas (board_in_mode "touch") /\
  includes INTERACTIVE_MODE_ENUM (interactiveMode (board_in_mode "touch")) = true /\
  (penColor (board_in_mode "touch") = VUndefined \/
   non_empty_string (penColor (board_in_mode "touch")) = true) /\
  (penWidth (board_in_mode "touch") = VUndefined \/
   positive_number (penWidth (board_in_mode "touch")) = true).
Proof.
  split; [exact (board_in_mode_reachable "touch") |].
  exact (stored_pen_and_mode_lawful (board_in_mode "touch")
           (board_in_mode_reachable "touch")).
Defined.

Lemma stored_size_unset_or_truthy_witness :
  @reachable PlainHost MarkCanvas narrow_board /\
  (width narrow_board = VUndefined \/ truthy (width narrow_board) = true) /\
  (height narrow_board = VUndefined \/ truthy (height narrow_board) = true).
Proof.
  split; [exact narrow_board_reachable |].
  exact (stored_size_unset_or_truthy narrow_board narrow_board_reachable).
Defined.

Lemma clear_never_raises_witness :
  @reachable PlainHost MarkCanvas watched_board /\
  returned (@clear PlainHost MarkCanvas watched_board) = true /\
  @raises PlainHost MarkCanvas OClear watched_board = false.
Proof.
  split; [exact watched_board_reachable |].
  exact (clear_never_raises watched_board watched_board_reachable).
Defined.

Lemma rotate_safe_once_sized_witness :
  originalSize narrow_board <> None /\
  drawable (_bgImgObject
              (@run PlainHost MarkCanvas [ODestory; OReInit None] narrow_board))
  = true /\
  originalSize (@run PlainHost MarkCanvas [ODestory; OReInit None] narrow_board)
  <> None /\
  returned (@rotate PlainHost MarkCanvas (VNum (num 1))
              (@run PlainHost MarkCanvas [ODestory; OReInit None] narrow_board))
  = true.
Proof.
  assert (Ho : originalSize narrow_board <> None) by (vm_compute; discriminate).
  assert (Hd : drawable
                 (_bgImgObject
                    (@run PlainHost MarkCanvas [ODestory; OReInit None]
                       narrow_board)) = true)
    by (vm_compute; reflexivity).
  split; [exact Ho |]. split; [exact Hd |].
  destruct (@rotate_safe_once_sized PlainHost MarkCanvas narrow_board
              [ODestory; OReInit None] (VNum (num 1)) Ho) as (O & R).
  split; [exact O | exact (R Hd)].
Defined.

Lemma rotate_outcome_witness :
  originalSize narrow_board <> None /\
  drawable (_bgImgObject narrow_board) = true /\
  returned (@rotate PlainHost MarkCanvas (VNum (num 1)) narrow_board) = true /\
  revokeStack (state_of (@rotate PlainHost MarkCanvas (VNum (num 1)) narrow_board))
  = [] /\
  paintCount (state_of (@rotate PlainHost MarkCanvas (VNum (num 1)) narrow_board))
  = 0%nat.
Proof.
  assert (Ho : originalSize narrow_board <> None) by (vm_compute; discriminate).
  assert (Hd : drawable (_bgImgObject narrow_board) = true)
    by (vm_compute; reflexivity).
  split; [exact Ho |]. split; [exact Hd |].
  pose proof (@rotate_outcome PlainHost MarkCanvas (VNum (num 1)) narrow_board)
    as R.
  cbv zeta in R.
  change (includes [VNum (num 1); VNum (num (-1))]
            (default_arg (VNum (num 1)) (VNum (num 1)))) with true in R.
  cbv iota in R. destruct R as (_ & _ & _ & R).
  destruct (originalSize narrow_board); [| now destruct Ho].
  destruct (R Hd) as (R1 & R2 & R3 & _).
  split; [exact R1 |]. split; [exact R2 | exact R3].
Defined.

Lemma context_never_replaced_witness :
  ctx plain_board = Some 0%nat /\
  ctx (@run PlainHost MarkCanvas [ODestory; OMount] plain_board) = Some 0%nat.
Proof.
  assert (Ec : ctx plain_board = Some 0%nat) by (vm_compute; reflexivity).
  split; [exact Ec |].
  exact (@context_never_replaced PlainHost MarkCanvas plain_board 0%nat
           [ODestory; OMount] Ec).
Defined.

Lemma remount_keeps_removed_context_witness :
  @reachable PlainHost MarkCanvas stroked_board /\
  ctx stroked_board = Some 0%nat /\
  ctx (@mount MarkCanvas (state_of (@destory MarkCanvas stroked_board)))
  = Some 0%nat /\
  el (@mount MarkCanvas (state_of (@destory MarkCanvas stroked_board)))
  = Some (nextCanvas stroked_board) /\
  nextCanvas stroked_board <> 0%nat /\
  surface (@mount MarkCanvas (state_of (@destory MarkCanvas stroked_board)))
  = Some (bitmap 0
            (@mount MarkCanvas (state_of (@destory MarkCanvas stroked_board)))).
Proof.
  assert (Ec : ctx stroked_board = Some 0%nat) by (vm_compute; reflexivity).
  split; [exact stroked_board_reachable |]. split; [exact Ec |].
  exact (@remount_keeps_removed_context PlainHost MarkCanvas stroked_board 0%nat
           stroked_board_reachable Ec).
Defined.


Lemma revoke_until_empty_witness :
  @reachable PlainHost MarkCanvas stroked_board /\
  (length (revokeStack stroked_board) <= 3)%nat /\
  revokeStack (revoke_times 3 stroked_board) = [] /\
  paintCount (revoke_times 3 stroked_board)
  = match revokeStack stroked_board with
    | e :: _ => he_paintCount e
    | [] => paintCount stroked_board
    end /\
  revoke (revoke_times 3 stroked_board) = revoke_times 3 stroked_board.
Proof.
  assert (Hn : (length (revokeStack stroked_board) <= 3)%nat)
    by (vm_compute; lia).
  split; [exact stroked_board_reachable |]. split; [exact Hn |].
  exact (@revoke_until_empty PlainHost MarkCanvas stroked_board 3%nat
           stroked_board_reachable Hn).
Defined.

Lemma getEventItems_by_mode_finds_nothing_witness :
  truthy (prop (list_to_map [("mode", VStr "mouse"); ("action", VStr "start")]
                : gmap string JsVal) "mode") = true /\
  _getEventItems (event_table 1)
    (list_to_map [("mode", VStr "mouse"); ("action", VStr "start")]) = [].
Proof.
  assert (Hm : truthy (prop (list_to_map [("mode", VStr "mouse");
                                          ("action", VStr "start")]
                             : gmap string JsVal) "mode") = true)
    by reflexivity.
  split; [exact Hm |].
  exact (getEventItems_by_mode_finds_nothing 1
           (list_to_map [("mode", VStr "mouse"); ("action", VStr "start")]) Hm).
Defined.

Lemma reInit_keeps_old_listeners_witness :
  el plain_board = Some 0%nat /\
  (forall p, In p (listeners plain_board) ->
             In p (listeners (@reInit MarkCanvas None plain_board))) /\
  In ("mousedown", Bound (S (bindings plain_board)) HStart)
     (listeners (@reInit MarkCanvas None plain_board)) /\
  In ("touchstart", Bound (S (bindings plain_board)) HStart)
     (listeners (@reInit MarkCanvas None plain_board)).
Proof.
  assert (Ee : el plain_board = Some 0%nat) by (vm_compute; reflexivity).
  split; [exact Ee |].
  exact (@reInit_keeps_old_listeners MarkCanvas None plain_board 0%nat Ee).
Defined.

Lemma getDataUrl_call_lawful_witness :
  getDataUrl (VStr "jpeg") (VNum (Fin (1 # 10))) plain_board
  = Some {| ex_canvas := 0; ex_resourceType := "image/jpeg";
            ex_compressRate := LOWEST_RATE |} /\
  getBlob (VStr "jpeg") (VNum (Fin (1 # 10))) plain_board
  = Some {| ex_canvas := 0; ex_resourceType := "image/jpeg";
            ex_compressRate := LOWEST_RATE |} /\
  el plain_board = Some 0%nat /\
  num_le LOWEST_RATE LOWEST_RATE = true /\
  num_le LOWEST_RATE (num 1) = true /\
  exists t, default_arg (VStr "jpeg") (VStr "png") = VStr t /\
            In (VStr t) IMG_TYPE_ENUM /\
            "image/jpeg" = String.append "image/" t.
Proof.
  assert (E : getDataUrl (VStr "jpeg") (VNum (Fin (1 # 10))) plain_board
              = Some {| ex_canvas := 0; ex_resourceType := "image/jpeg";
                        ex_compressRate := LOWEST_RATE |})
    by (vm_compute; reflexivity).
  split; [exact E |].
  exact (@getDataUrl_call_lawful MarkCanvas (VStr "jpeg") (VNum (Fin (1 # 10)))
           plain_board _ E).
Defined.

Lemma setSize_stored_and_element_witness :
  el plain_board = Some 0%nat /\
  width (setSize (VNum (num 0)) (VNum (num 50)) plain_board) = width plain_board /\
  height (setSize (VNum (num 0)) (VNum (num 50)) plain_board) = VNum (num 50) /\
  cv_width (canvases (setSize (VNum (num 0)) (VNum (num 50)) plain_board) 0)
  = VNum (num 0) /\
  revokeStack (setSize (VNum (num 0)) (VNum (num 50)) plain_board)
  = revokeStack plain_board.
Proof.
  assert (Ee : el plain_board = Some 0%nat) by (vm_compute; reflexivity).
  split; [exact Ee |].
  destruct (@setSize_stored_and_element MarkCanvas (VNum (num 0)) (VNum (num 50))
              plain_board 0%nat Ee) as (W & Hh & Cw & _ & _ & S & _).
  split; [rewrite W; vm_compute; reflexivity |].
  split; [rewrite Hh; vm_compute; reflexivity |].
  split; [rewrite Cw; vm_compute; reflexivity | exact S].
Defined.

Lemma destroyed_board_clear_and_revoke_witness :
  el stroked_board = Some 0%nat /\
  ctx stroked_board = Some 0%nat /\
  revokeStack stroked_board
  = [] ++ [@entry_of MarkCanvas (VStr "paint") 0 (@nil Mark)] /\
  returned (@destory MarkCanvas stroked_board) = true /\
  @clear PlainHost MarkCanvas (state_of (@destory MarkCanvas stroked_board))
  = Returned (state_of (@destory MarkCanvas stroked_board)) /\
  revokeStack (revoke (state_of (@destory MarkCanvas stroked_board))) = [] /\
  returned (@destory MarkCanvas (state_of (@destory MarkCanvas stroked_board)))
  = false.
Proof.
  assert (Ee : el stroked_board = Some 0%nat) by (vm_compute; reflexivity).
  assert (Ec : ctx stroked_board = Some 0%nat) by (vm_compute; reflexivity).
  assert (Es : revokeStack stroked_board
               = [] ++ [@entry_of MarkCanvas (VStr "paint") 0 (@nil Mark)])
    by (vm_compute; reflexivity).
  split; [exact Ee |]. split; [exact Ec |]. split; [exact Es |].
  destruct (@destroyed_board_clear_and_revoke PlainHost MarkCanvas stroked_board
              0%nat 0%nat [] _ Ee Ec Es) as (D & C & R & _ & _ & D2).
  split; [exact D |]. split; [exact C |]. split; [exact R | exact D2].
Defined.

Lemma setBgImg_direct_records_nothing_witness :
  (forall s, VObj 7 = VStr s -> url_test s = false) /\
  _bgImgObject (@setBgImg PlainHost MarkCanvas (VObj 7) VUndefined VUndefined
                  stroked_board)
  = VObj 7 /\
  originalSize (@setBgImg PlainHost MarkCanvas (VObj 7) VUndefined VUndefined
                  stroked_board)
  = Some (width stroked_board, height stroked_board) /\
  revokeStack (@setBgImg PlainHost MarkCanvas (VObj 7) VUndefined VUndefined
                 stroked_board)
  = revokeStack stroked_board.
Proof.
  assert (Hu : forall s, VObj 7 = VStr s -> url_test s = false)
    by (intros s Hs; discriminate Hs).
  split; [exact Hu |].
  destruct (@setBgImg_direct_records_nothing PlainHost MarkCanvas (VObj 7)
              VUndefined VUndefined stroked_board Hu) as (B & O & S & _).
  split; [exact B |].
  split; [rewrite O; vm_compute; reflexivity | exact S].
Defined.

Lemma handlers_of_both_families_witness :
  @reachable PlainHost MarkCanvas (board_in_mode "touch") /\
  action_pairs (VStr "start") (board_in_mode "touch")
  = [("mousedown", Bound (bindings (board_in_mode "touch")) HStart);
     ("touchstart", Bound (bindings (board_in_mode "touch")) HStart)].
Proof.
  split; [exact (board_in_mode_reachable "touch") |].
  destruct (@handlers_of_both_families PlainHost MarkCanvas (board_in_mode "touch")
              (board_in_mode_reachable "touch")) as (_ & E & _).
  exact E.
Defined.


Lemma manual_mount_board_witness :
  truthy (prop (opt_props
                  (spread _defaultOptions
                     (with_props None [("manualMount", VBool true)])))
            "manualMount") = true /\
  el (@new_DrawingBoard MarkCanvas (num 100, num 80)
        (with_props None [("manualMount", VBool true)])) = None /\
  ctx (@new_DrawingBoard MarkCanvas (num 100, num 80)
         (with_props None [("manualMount", VBool true)])) = None /\
  el (mount (@new_DrawingBoard MarkCanvas (num 100, num 80)
               (with_props None [("manualMount", VBool true)]))) = Some 0%nat.
Proof.
  assert (Hm : truthy (prop (opt_props
                               (spread _defaultOptions
                                  (with_props None [("manualMount", VBool true)])))
                         "manualMount") = true)
    by (vm_compute; reflexivity).
  split; [exact Hm |].
  destruct (@manual_mount_board PlainHost MarkCanvas (num 100, num 80)
              (with_props None [("manualMount", VBool true)]) Hm)
    as (Ee & Ec & _ & _ & _ & _ & Em & _).
  split; [exact Ee |]. split; [exact Ec | exact Em].
Defined.

Lemma stroke_pushes_one_snapshot_witness :
  (forall c, ctx plain_board = Some c ->
             spans (width plain_board) (height plain_board) (bitmap c plain_board)) /\
  revokeStack
    (@stroke_on PlainHost MarkCanvas (MouseEvt (num 10) (num 10))
       [MouseEvt (num 20) (num 20)] (MouseEvt (num 20) (num 20)) plain_board)
  = [@entry_of MarkCanvas (VStr "paint") 0 (@nil Mark)] /\
  paintCount
    (@stroke_on PlainHost MarkCanvas (MouseEvt (num 10) (num 10))
       [MouseEvt (num 20) (num 20)] (MouseEvt (num 20) (num 20)) plain_board)
  = 1%nat.
Proof.
  assert (Hs : forall c, ctx plain_board = Some c ->
                 spans (width plain_board) (height plain_board)
                   (bitmap c plain_board))
    by (intros c _; exact I).
  split; [exact Hs |].
  destruct (@stroke_pushes_one_snapshot PlainHost MarkCanvas
              (MouseEvt (num 10) (num 10)) [MouseEvt (num 20) (num 20)]
              (MouseEvt (num 20) (num 20)) plain_board Hs) as (S1 & S2 & _).
  split; [rewrite S1; vm_compute; reflexivity |].
  rewrite S2. vm_compute. reflexivity.
Defined.

Lemma clear_pushes_one_snapshot_witness :
  ctx stroked_board = Some 0%nat /\
  spans (width stroked_board) (height stroked_board) (bitmap 0 stroked_board) /\
  el stroked_board <> None /\
  length (revokeStack (state_of (@clear PlainHost MarkCanvas stroked_board)))
  = 2%nat /\
  paintCount (state_of (@clear PlainHost MarkCanvas stroked_board)) = 0%nat.
Proof.
  assert (Ec : ctx stroked_board = Some 0%nat) by (vm_compute; reflexivity).
  assert (Ne : el stroked_board <> None) by (vm_compute; discriminate).
  split; [exact Ec |]. split; [exact I |]. split; [exact Ne |].
  destruct (@clear_pushes_one_snapshot PlainHost MarkCanvas stroked_board 0%nat
              Ec I) as (P & _).
  destruct (P Ne) as (P1 & P2).
  split; [rewrite P1; vm_compute; reflexivity | exact P2].
Defined.

(** ** Undo after [clear] on a board with a negative side *)

Lemma SignCanvas_laws : @Canvas2DLaws SignCanvas.
Proof.
  split; cbn; auto.
  intros w h s s' Hs _. now rewrite Hs.
Qed.

Lemma signed_board_reachable : @reachable PlainHost SignCanvas signed_board.
Proof. apply reachable_run, reach_new. Qed.

